(** * ada2: machine lifecycle and data transfer orchestrator

    A shallow embedding of the orchestration core of [src/app.py]: the
    [Machine] and [DataTransferJob] rows, the request handlers that create
    and stop machines and create and dismiss transfer jobs, the background
    tasks of the three backends (docker, libvirt, openstack), and the
    start-up clean-up pass.

    Conventions of the embedding.
    - The database is a record of finite maps keyed by the integer primary
      key.  A commit is an update of the stored row; database errors on
      commit are not modelled.
    - A request handler is a function from the store and the request to a
      response, the new store and the list of background threads it starts.
    - A background thread is a function of the store and of a _world_: a
      record of oracles that answers each call to a backend (returns or
      raises, what a poll observes the k-th time).  Loops without a bound in
      the source take a fuel argument; [OutOfFuel] means "still looping".
    - A text is held as the bytes of its UTF-8 encoding; where the source
      counts or classifies characters, the embedding reads the characters
      back from the bytes.
    - A call into a library whose answer the source does not fix (the CSRF
      check of the form library, [gettext] given a second positional
      argument, [str.isalnum]) is an argument of the handler that makes
      it.
    - Authentication, rate limiting, rendering and the admin views are
      outside the embedding; [current_user] is the authenticated user. *)

From Stdlib Require Import ZArith String Ascii List DecimalString.
From stdpp Require Import base option list gmap strings fin_maps sorting.

Local Open Scope Z_scope.
Local Open Scope string_scope.

(** ** Enumerations *)

Module MachineState.
Inductive t := PROVISIONING | READY | FAILED | DELETING | DELETED.
End MachineState.

#[global] Instance MachineState_eq_dec : EqDecision MachineState.t.
Proof. solve_decision. Defined.

Module DataTransferJobState.
Inductive t := RUNNING | DONE | FAILED | HIDDEN.
End DataTransferJobState.

#[global] Instance DataTransferJobState_eq_dec :
  EqDecision DataTransferJobState.t.
Proof. solve_decision. Defined.

(** ** Rows *)

(** [datetime.datetime], the fields that the code reads. *)
Record datetime := {
  year : nat; month : nat; day : nat;
  hour : nat; minute : nat; second : nat
}.

(** The authenticated user: its primary key, the admin flag, the username
    and the data sources associated with it. *)
Record User := {
  user_id : Z;
  is_admin : bool;
  username : string;
  user_data_sources : list Z
}.

Record MachineProvider := {
  mp_name : string;
  mp_type : string;
  provider_data : gmap string string
}.

(** [memory_limit_gb], [cpu_limit_cores] and [extra_data] are nullable
    columns.  The values of the JSON bag are only handed to the backend, so
    they are kept as opaque strings. *)
Record MachineTemplate := {
  mt_name : string;
  mt_type : string;
  image : string;
  memory_limit_gb : option Z;
  cpu_limit_cores : option Z;
  machine_provider_id : Z;
  extra_data : option (gmap string string)
}.

Record Machine := {
  name : string;
  ip : string;
  hostname : string;
  token : string;
  state : MachineState.t;
  owner_id : option Z;
  machine_template_id : option Z;
  shared_users : list Z
}.

Record DataSource := {
  source_host : string;
  source_dir : string;
  data_size : Z
}.

Record DataTransferJob := {
  job_state : DataTransferJobState.t;
  job_user_id : option Z;
  data_source_id : option Z;
  machine_id : option Z;
  creation_date : datetime;
  finish_date : option datetime
}.

(** The store. *)
Record Db := {
  machines : gmap Z Machine;
  machine_templates : gmap Z MachineTemplate;
  machine_providers : gmap Z MachineProvider;
  data_sources : gmap Z DataSource;
  data_transfer_jobs : gmap Z DataTransferJob
}.

(** Attribute assignments on a row. *)
Definition set_state (st : MachineState.t) (m : Machine) : Machine :=
  {| name := name m; ip := ip m; hostname := hostname m; token := token m;
     state := st; owner_id := owner_id m;
     machine_template_id := machine_template_id m;
     shared_users := shared_users m |}.

Definition set_ip (a : string) (m : Machine) : Machine :=
  {| name := name m; ip := a; hostname := hostname m; token := token m;
     state := state m; owner_id := owner_id m;
     machine_template_id := machine_template_id m;
     shared_users := shared_users m |}.

Definition set_hostname (h : string) (m : Machine) : Machine :=
  {| name := name m; ip := ip m; hostname := h; token := token m;
     state := state m; owner_id := owner_id m;
     machine_template_id := machine_template_id m;
     shared_users := shared_users m |}.

Definition set_job_state (st : DataTransferJobState.t) (j : DataTransferJob)
  : DataTransferJob :=
  {| job_state := st; job_user_id := job_user_id j;
     data_source_id := data_source_id j; machine_id := machine_id j;
     creation_date := creation_date j; finish_date := finish_date j |}.

(** Writing a table back. *)
Definition with_machines (ms : gmap Z Machine) (db : Db) : Db :=
  {| machines := ms;
     machine_templates := machine_templates db;
     machine_providers := machine_providers db;
     data_sources := data_sources db;
     data_transfer_jobs := data_transfer_jobs db |}.

Definition with_jobs (js : gmap Z DataTransferJob) (db : Db) : Db :=
  {| machines := machines db;
     machine_templates := machine_templates db;
     machine_providers := machine_providers db;
     data_sources := data_sources db;
     data_transfer_jobs := js |}.

(** [m.attr = ...; db.session.commit()] for the row with key [m_id]. *)
Definition commit_machine (m_id : Z) (f : Machine -> Machine) (db : Db) : Db :=
  with_machines (alter f m_id (machines db)) db.

Definition commit_job (job_id : Z) (f : DataTransferJob -> DataTransferJob)
  (db : Db) : Db :=
  with_jobs (alter f job_id (data_transfer_jobs db)) db.

(** The key an autoincrementing integer primary key gives the next row: one
    more than the largest key in the table, [1] for an empty table. *)
Definition next_id {A} (tbl : gmap Z A) : Z :=
  1 + map_fold (fun k _ acc => Z.max k acc) 0 tbl.

(** [m.machine_template] and [mt.machine_provider]: the related row, [None]
    when there is none. *)
Definition machine_template_of (db : Db) (m : Machine) : option MachineTemplate :=
  match machine_template_id m with
  | Some t => machine_templates db !! t
  | None => None
  end.

Definition machine_provider_of (db : Db) (mt : MachineTemplate)
  : option MachineProvider :=
  machine_providers db !! machine_provider_id mt.

(** ** Exceptions and the result of running code that may raise or loop *)

Inductive Exn :=
| AttributeError | TypeError | ValueError | NameError | IndexError
| TimeoutError | BackendError.

Inductive Exec (A : Type) :=
| Return (a : A)
| Raise (e : Exn)
| OutOfFuel.
Arguments Return {A} a.
Arguments Raise {A} e.
Arguments OutOfFuel {A}.

#[export] Instance Exec_ret : MRet Exec := fun A a => Return a.

#[export] Instance Exec_bind : MBind Exec := fun A B k c =>
  match c with
  | Return a => k a
  | Raise e => Raise e
  | OutOfFuel => OutOfFuel
  end.

(** What a call to a backend answers: it returns a value or it raises. *)
Inductive Answer (A : Type) :=
| Returns (a : A)
| Raises (e : Exn).
Arguments Returns {A} a.
Arguments Raises {A} e.

Definition answer {A} (r : Answer A) : Exec A :=
  match r with
  | Returns a => Return a
  | Raises e => Raise e
  end.

(** Reading an attribute of an object that may be [None]. *)
Definition attr {A} (o : option A) : Exec A :=
  match o with
  | Some a => Return a
  | None => Raise AttributeError
  end.

(** A call to a backend that returns nothing of interest: it returns or it
    raises. *)
Definition call (ok : bool) : Exec unit :=
  if ok then Return tt else Raise BackendError.

(** Python's [str] on an integer. *)
Definition str (z : Z) : string := NilZero.string_of_int (Z.to_int z).

(** Truth value of a string: empty is false. *)
Definition truthy (s : string) : bool :=
  match s with
  | EmptyString => false
  | String _ _ => true
  end.

(** ** Request handlers *)

(** What a handler answers: a redirect to an endpoint, a plain body, an
    [abort(code)], or an unhandled exception (a 500 response). *)
Inductive Response :=
| redirect (endpoint : string)
| Body (text : string)
| abort (code : Z)
| Unhandled (e : Exn).

(** The background threads, named by their target function and argument. *)
Inductive Task :=
| docker_start_container_thread (m_id : Z)
| libvirt_start_vm_thread (m_id : Z)
| openstack_start_vm_thread (m_id : Z)
| docker_stop_container_thread (m_id : Z)
| libvirt_stop_vm_thread (m_id : Z)
| openstack_stop_vm_thread (m_id : Z)
| start_data_transfer_thread (job_id : Z).

Inductive LogRecord :=
| LogInfo (msg : string)
| LogWarning (msg : string)
| LogError (msg : string).

Record HandlerResult := {
  response : Response;
  store : Db;
  started : list Task;
  logged : list LogRecord
}.

(** An integer form field, by what the handler's conversion makes of the
    submitted text: absent or empty, not an integer, or an integer. *)
Inductive FormInt :=
| FieldMissing
| FieldNotInt
| FieldInt (n : Z).

(** [encode_date_time]: six characters of [base_chars], indexed by the parts
    of the date; an index out of range raises. *)
Definition base_chars : string :=
  "0123456789ABCDEFGHIJKLMNOPQRSTUVWXYZabcdefghijklmnopqrstuvwxyz".

Definition base_char (i : Z) : Exec string :=
  let len := Z.of_nat (String.length base_chars) in
  let j := if (i <? 0)%Z then len + i else i in
  if (j <? 0)%Z then Raise IndexError
  else
    match String.get (Z.to_nat j) base_chars with
    | Some c => Return (String c EmptyString)
    | None => Raise IndexError
    end.

Definition encode_date_time (date_time : datetime) : Exec string :=
  y ← base_char ((Z.of_nat (year date_time) `mod` 100) `div` 4);
  mo ← base_char (Z.of_nat (month date_time) - 1);
  d ← base_char (Z.of_nat (day date_time) - 1);
  h ← base_char (Z.of_nat (hour date_time));
  mi ← base_char (Z.of_nat (minute date_time));
  se ← base_char (Z.of_nat (second date_time));
  Return (y +:+ mo +:+ d +:+ h +:+ mi +:+ se).

Definition mk_safe_machine_name (username : string) (utcnow : datetime)
  : Exec string :=
  e ← encode_date_time utcnow;
  Return (username +:+ "-" +:+ e).

(** [query.filter_by(...).first()]: of the rows that satisfy [p], the one
    with the least key. *)
Definition first_by {A} (p : A -> bool) (tbl : gmap Z A) : option (Z * A) :=
  map_fold
    (fun k a acc =>
       if p a then
         match acc with
         | Some (k', _) => if (k <? k')%Z then Some (k, a) else acc
         | None => Some (k, a)
         end
       else acc)
    None tbl.

(** The thread that [new_machine] starts for a template type. *)
Definition start_thread_for (type : string) (m_id : Z) : list Task :=
  if String.eqb type "docker" then [docker_start_container_thread m_id]
  else if String.eqb type "libvirt" then [libvirt_start_vm_thread m_id]
  else if String.eqb type "openstack" then [openstack_start_vm_thread m_id]
  else [].

(** The thread that [stop_machine] starts for a template type. *)
Definition stop_thread_for (type : string) (m_id : Z) : list Task :=
  if String.eqb type "docker" then [docker_stop_container_thread m_id]
  else if String.eqb type "libvirt" then [libvirt_stop_vm_thread m_id]
  else if String.eqb type "openstack" then [openstack_stop_vm_thread m_id]
  else [].

(** [new_machine].  [utcnow] is the clock reading that names the machine and
    [fresh_token] the value of [gen_token(16)] for the new row. *)
Definition new_machine (db : Db) (current_user : User)
    (machine_template_name : string) (utcnow : datetime) (fresh_token : string)
  : HandlerResult :=
  match mk_safe_machine_name (username current_user) utcnow with
  | Return machine_name =>
      match first_by (fun mt => String.eqb (mt_name mt) machine_template_name)
                     (machine_templates db) with
      | None =>
          {| response := abort 404; store := db; started := []; logged := [] |}
      | Some (mt_id, mt) =>
          let m := {| name := machine_name;
                      ip := "";
                      hostname := "";
                      token := fresh_token;
                      state := MachineState.PROVISIONING;
                      owner_id := Some (user_id current_user);
                      machine_template_id := Some mt_id;
                      shared_users := [] |} in
          let m_id := next_id (machines db) in
          {| response := redirect "machines";
             store := with_machines (<[m_id := m]> (machines db)) db;
             started := start_thread_for (mt_type mt) m_id;
             logged := [LogWarning "starting new machine thread"] |}
      end
  | _ =>
      {| response := Unhandled IndexError; store := db; started := [];
         logged := [] |}
  end.

(** [str] of a member of the [MachineState] enumeration. *)
Definition MachineState_str (st : MachineState.t) : string :=
  match st with
  | MachineState.PROVISIONING => "MachineState.PROVISIONING"
  | MachineState.READY => "MachineState.READY"
  | MachineState.FAILED => "MachineState.FAILED"
  | MachineState.DELETING => "MachineState.DELETING"
  | MachineState.DELETED => "MachineState.DELETED"
  end.

(** The test of [stop_machine] on the state: membership in the list
    [PROVISIONING, DELETED, DELETING]. *)
Definition not_in_correct_state_for_deletion (st : MachineState.t) : bool :=
  bool_decide (st ∈ [MachineState.PROVISIONING; MachineState.DELETED;
                     MachineState.DELETING]).

(** [current_user == machine.owner]: the same row of the user table. *)
Definition is_owner (current_user : User) (machine : Machine) : bool :=
  bool_decide (owner_id machine = Some (user_id current_user)).

(** [stop_machine].  The branch on the state only logs a warning; control
    then falls through to the assignment of [DELETING]. *)
Definition stop_machine (db : Db) (current_user : User) (machine_id : FormInt)
  : HandlerResult :=
  match machine_id with
  | FieldMissing =>
      {| response := abort 404; store := db; started := [];
         logged := [LogWarning "machine_id parameter missing"] |}
  | FieldNotInt =>
      {| response := Unhandled ValueError; store := db; started := [];
         logged := [] |}
  | FieldInt machine_id =>
      match machines db !! machine_id with
      | None =>
          {| response := abort 404; store := db; started := []; logged := [] |}
      | Some machine =>
          if negb (is_admin current_user) && negb (is_owner current_user machine)
          then
            {| response := abort 403; store := db; started := [];
               logged := [LogError ("user " +:+ str (user_id current_user)
                                 +:+ " is not the owner of machine "
                                 +:+ str machine_id +:+ " nor admin")] |}
          else
            let warn :=
              if not_in_correct_state_for_deletion (state machine)
              then [LogWarning ("machine " +:+ str machine_id
                             +:+ " is not in correct state for deletion: "
                             +:+ MachineState_str (state machine))]
              else [] in
            let log := app warn [LogInfo ("deleting machine with machine id "
                                       +:+ str machine_id)] in
            let db' := commit_machine machine_id
                         (set_state MachineState.DELETING) db in
            match machine_template_of db machine with
            | None =>
                {| response := Unhandled AttributeError; store := db';
                   started := []; logged := log |}
            | Some mt =>
                {| response := redirect "machines"; store := db';
                   started := stop_thread_for (mt_type mt) machine_id;
                   logged := log |}
            end
      end
  end.

(** [dismiss_datatransferjob].  The job is looked up by the submitted key and
    set to [HIDDEN]; the handler reads nothing of [current_user]. *)
Definition dismiss_datatransferjob (db : Db) (current_user : User)
    (job_id : FormInt) : HandlerResult :=
  match job_id with
  | FieldMissing =>
      {| response := abort 404; store := db; started := []; logged := [] |}
  | FieldNotInt =>
      {| response := abort 404; store := db; started := []; logged := [] |}
  | FieldInt job_id =>
      match data_transfer_jobs db !! job_id with
      | None =>
          {| response := abort 404; store := db; started := []; logged := [] |}
      | Some job =>
          {| response := Body "OK";
             store := commit_job job_id
                        (set_job_state DataTransferJobState.HIDDEN) db;
             started := []; logged := [] |}
      end
  end.

(** The rows a user sees on the data page.  An administrator sees every data
    source and every [READY] machine; another user sees the data sources
    associated with the account and the machines owned by or shared with
    it. *)
Definition keys_where {A} (p : A -> bool) (tbl : gmap Z A) : list Z :=
  fst <$> filter (fun kv => p kv.2 = true) (map_to_list tbl).

Definition data_page_sources (db : Db) (current_user : User) : list Z :=
  if is_admin current_user then keys_where (fun _ => true) (data_sources db)
  else filter (fun k => is_Some (data_sources db !! k))
              (user_data_sources current_user).

Definition data_page_machines (db : Db) (current_user : User) : list Z :=
  if is_admin current_user then
    keys_where (fun m => bool_decide (state m = MachineState.READY))
               (machines db)
  else
    app (keys_where (is_owner current_user) (machines db))
        (keys_where (fun m => bool_decide (user_id current_user ∈ shared_users m))
                    (machines db)).

(** The choices of the machine select field: the visible machines that are
    [READY]. *)
Definition machine_choices (db : Db) (current_user : User) : list Z :=
  filter (fun k => state <$> machines db !! k = Some MachineState.READY)
         (data_page_machines db current_user).

(** [DataRequired] on the integer of a select field: it refuses a value
    that is false, which for an integer is 0. *)
Definition DataRequired (data : Z) : bool := negb (data =? 0)%Z.

(** The POST branch of [data].  A select field is [None] when its text is
    absent or does not coerce to an integer.  [validate_on_submit] passes
    when the form library accepts the CSRF token of the form ([csrf_ok]),
    and each select field is among its choices and passes [DataRequired].
    [utcnow] is the clock reading that the column defaults of the new row
    take. *)
Definition data_post (db : Db) (current_user : User) (csrf_ok : bool)
    (form_data_source form_machine : option Z) (utcnow : datetime)
  : HandlerResult :=
  let sources := data_page_sources db current_user in
  let visible := data_page_machines db current_user in
  match form_data_source, form_machine with
  | Some ds_id, Some m_id =>
      if csrf_ok
         && bool_decide (ds_id ∈ sources
                         ∧ m_id ∈ machine_choices db current_user)
         && DataRequired ds_id && DataRequired m_id then
        match machines db !! m_id, data_sources db !! ds_id with
        | Some _, Some _ =>
            if bool_decide (m_id ∈ visible ∧ ds_id ∈ sources) then
              let job := {| job_state := DataTransferJobState.RUNNING;
                            job_user_id := Some (user_id current_user);
                            data_source_id := Some ds_id;
                            machine_id := Some m_id;
                            creation_date := utcnow;
                            finish_date := Some utcnow |} in
              let job_id := next_id (data_transfer_jobs db) in
              {| response := redirect "data";
                 store := with_jobs (<[job_id := job]> (data_transfer_jobs db)) db;
                 started := [start_data_transfer_thread job_id];
                 logged := [] |}
            else
              {| response := abort 403; store := db; started := [];
                 logged := [] |}
        | _, _ =>
            {| response := abort 404; store := db; started := []; logged := [] |}
        end
      else
        {| response := redirect "data"; store := db; started := [];
           logged := [] |}
  | _, _ =>
      {| response := redirect "data"; store := db; started := []; logged := [] |}
  end.

(** ** Start-up clean-up *)

(** The two loops of [clean_up_db], one row at a time. *)
Definition clean_up_machine (m : Machine) : Machine :=
  if decide (state m = MachineState.PROVISIONING)
  then set_state MachineState.FAILED m
  else m.

Definition clean_up_job (j : DataTransferJob) : DataTransferJob :=
  if decide (job_state j = DataTransferJobState.RUNNING)
  then set_job_state DataTransferJobState.FAILED j
  else j.

Definition clean_up_db (db : Db) : Db :=
  with_jobs (clean_up_job <$> data_transfer_jobs db)
    (with_machines (clean_up_machine <$> machines db) db).

(** ** Background threads *)

(** A thread ends by returning or by an exception nothing handles; either
    way the store is what its last commit left.  Every thread below commits
    at most once and last, so a thread that dies leaves the store it found.
    [None]: the thread has not ended within the fuel. *)
Definition thread (db : Db) (body : Exec Db) : option Db :=
  match body with
  | Return db' => Some db'
  | Raise _ => Some db
  | OutOfFuel => None
  end.

(** [try: body except: handler] *)
Definition try_except {A} (body : Exec A) (handler : Exn -> Exec A) : Exec A :=
  match body with
  | Raise e => handler e
  | r => r
  end.

(** [try: body except: logging.exception(...)] *)
Definition try_log (body : Exec unit) : Exec unit :=
  try_except body (fun _ => Return tt).

(** *** Data transfer *)

(** The object the ORM hands to the thread: the mapped columns of the row,
    and any other attribute set on the instance, which no commit writes. *)
Record JobObject := {
  columns : DataTransferJob;
  finish_time : option datetime
}.

Definition dquote : string := String (ascii_of_nat 34) EmptyString.

(** [do_rsync]: [shell_run] tells whether [subprocess.run(ssh_cmd, shell=True,
    check=True)] returns; any exception makes the result [False]. *)
Definition do_rsync (shell_run : string -> bool)
    (source_host source_dir dest_host dest_dir : string) : bool :=
  let rsync_cmd :=
    "rsync -avz -e 'ssh -o StrictHostKeyChecking=no -o UserKnownHostsFile=/dev/null' "
    +:+ source_dir +:+ " " +:+ dest_host +:+ ":" +:+ dest_dir in
  let ssh_cmd :=
    "ssh -o StrictHostKeyChecking=no -o UserKnownHostsFile=/dev/null "
    +:+ source_host +:+ " " +:+ dquote +:+ rsync_cmd +:+ dquote in
  shell_run ssh_cmd.

(** [start_data_transfer].  A missing job is logged and the next attribute
    access raises.  The clock reading goes to the attribute [finish_time] of
    the instance; the commit writes the columns. *)
Definition start_data_transfer (shell_run : string -> bool) (utcnow : datetime)
    (db : Db) (job_id : Z) : option Db :=
  thread db (
    job ← attr (data_transfer_jobs db !! job_id);
    data_source ← attr (data_source_id job ≫= fun k => data_sources db !! k);
    machine ← attr (machine_id job ≫= fun k => machines db !! k);
    let result := do_rsync shell_run
                    ("dv@" +:+ source_host data_source)
                    (source_dir data_source)
                    ("ubuntu@" +:+ ip machine)
                    EmptyString in
    let obj := {| columns := job; finish_time := None |} in
    let obj := {| columns := columns obj; finish_time := Some utcnow |} in
    let obj :=
      if result
      then {| columns := set_job_state DataTransferJobState.DONE (columns obj);
              finish_time := finish_time obj |}
      else {| columns := set_job_state DataTransferJobState.FAILED (columns obj);
              finish_time := finish_time obj |} in
    Return (with_jobs (<[job_id := columns obj]> (data_transfer_jobs db)) db)).

(** *** Container backend *)

Record ContainerOptions := {
  co_name : string;
  co_image : string;
  co_network : option string;
  cpu_period : Z;
  cpu_quota : Z;
  mem_limit : string
}.

(** The answers of the container engine. *)
Record DockerWorld := {
  (** [docker.DockerClient(base_url)] returns *)
  DockerClient : option string -> bool;
  (** [client.containers.run] of the options, detached, returns *)
  containers_run : ContainerOptions -> bool;
  (** the k-th [docker_get_ip]: the address string, [None] when the lookup of
      the container or of the network entry raises *)
  container_ip : nat -> option string;
  (** [docker_get_container_by_ip]: whether it returns a container; it
      handles every exception itself and then returns [None] *)
  container_by_ip : string -> option string -> bool;
  (** [container.stop()] returns *)
  container_stop : bool
}.

(** The limits of [docker_start_container], from the template's columns.
    Multiplying a null column raises. *)
Definition docker_container_options (m : Machine) (mt : MachineTemplate)
    (network : option string) : Exec ContainerOptions :=
  let cpu_cores := cpu_limit_cores mt in
  let mem_limit_gb := memory_limit_gb mt in
  let cpu_period := 100000 in
  match cpu_cores with
  | None => Raise TypeError
  | Some cpu_cores =>
      let cpu_quota := cpu_period * cpu_cores in
      match mem_limit_gb with
      | None => Raise TypeError
      | Some mem_limit_gb =>
          let mem_limit := str (mem_limit_gb * 1024) +:+ "m" in
          Return {| co_name := name m;
                    co_image := image mt;
                    co_network := network;
                    cpu_period := cpu_period;
                    cpu_quota := cpu_quota;
                    mem_limit := mem_limit |}
      end
  end.

Definition docker_get_ip (w : DockerWorld) (k : nat) : Exec string :=
  match container_ip w k with
  | Some maybe_ip => Return maybe_ip
  | None => Raise BackendError
  end.

(** [docker_wait_for_ip]: poll, sleep a second, poll again, with no bound;
    [k] counts the polls made so far. *)
Fixpoint docker_wait_for_ip (fuel : nat) (w : DockerWorld) (k : nat)
  : Exec string :=
  match fuel with
  | O => OutOfFuel
  | S fuel' =>
      a ← docker_get_ip w k;
      if truthy a then Return a else docker_wait_for_ip fuel' w (S k)
  end.

(** [docker_start_container].  The handler also tries to stop and remove the
    container, each under its own [try]; that changes nothing in the
    store. *)
Definition docker_start_container (w : DockerWorld) (fuel : nat) (db : Db)
    (m_id : Z) : option Db :=
  let m := machines db !! m_id in
  thread db (
    try_except
      (m' ← attr m;
       mt ← attr (machine_template_of db m');
       mp ← attr (machine_provider_of db mt);
       let network := provider_data mp !! "network" in
       call (DockerClient w (provider_data mp !! "base_url"));;
       container_options ← docker_container_options m' mt network;
       call (containers_run w container_options);;
       a ← docker_wait_for_ip fuel w 0;
       Return (commit_machine m_id
                 (fun m => set_state MachineState.READY (set_ip a m)) db))
      (fun _ =>
         attr m;;
         Return (commit_machine m_id
                   (fun m => set_ip EmptyString
                               (set_state MachineState.FAILED m)) db))).

(** [docker_stop_container].  Only the lookup and the stop of the container
    are under [try]; the state is set after it, whatever happened. *)
Definition docker_stop_container (w : DockerWorld) (db : Db) (machine_id : Z)
  : option Db :=
  thread db (
    machine ← attr (machines db !! machine_id);
    mt ← attr (machine_template_of db machine);
    mp ← attr (machine_provider_of db mt);
    let network := provider_data mp !! "network" in
    call (DockerClient w (provider_data mp !! "base_url"));;
    try_log
      (if container_by_ip w (ip machine) network
       then call (container_stop w)
       else Return tt);;
    Return (commit_machine machine_id
              (set_state MachineState.DELETED) db)).

(** *** Hypervisor backend *)

Definition VIR_IP_ADDR_TYPE_IPV4 : Z := 0.

(** What one call of [libvirt_get_vm_ip] meets: the domain is not found, the
    query of the interface addresses raises, or it returns the interfaces,
    each with its list of (type, address) entries ([None] where the
    interface has no list). *)
Inductive AddressQuery :=
| DomainNotFound
| AddressesError
| Interfaces (ifs : list (option (list (Z * string)))).

(** The answers of the hypervisor and of the commands run on its host. *)
Record LibvirtWorld := {
  (** [subprocess.run(argv)] returns *)
  subprocess_run : list string -> bool;
  (** [libvirt.open(url)] returns *)
  libvirt_open : option string -> bool;
  (** [conn.lookupByName] in [libvirt_wait_for_vm] returns *)
  lookupByName : bool;
  (** the k-th [domain.state()]: whether the state is running *)
  domain_running : nat -> Answer bool;
  (** what the k-th [libvirt_get_vm_ip] meets *)
  address_query : nat -> AddressQuery;
  (** teardown: the lookup of the domain and its destroy, the deletion of a
      volume by name, the undefine and the close return; the names of the
      volumes of all pools *)
  domain_destroy : bool;
  volume_names : list string;
  volume_delete : string -> bool;
  domain_undefine : bool
}.

Fixpoint first_ipv4 (ifs : list (option (list (Z * string))))
  : Exec (option string) :=
  match ifs with
  | [] => Return None
  | None :: _ => Raise TypeError
  | Some addrs :: rest =>
      match List.find (fun a => (a.1 =? VIR_IP_ADDR_TYPE_IPV4)%Z) addrs with
      | Some a => Return (Some a.2)
      | None => first_ipv4 rest
      end
  end.

Definition libvirt_get_vm_ip (q : AddressQuery) : Exec (option string) :=
  match q with
  | DomainNotFound => Return None
  | AddressesError => Raise BackendError
  | Interfaces ifs => first_ipv4 ifs
  end.

(** [libvirt_wait_for_ip]: poll until the answer is neither [None] nor empty,
    sleeping a second between polls, with no bound. *)
Fixpoint libvirt_wait_for_ip (fuel : nat) (w : LibvirtWorld) (k : nat)
  : Exec string :=
  match fuel with
  | O => OutOfFuel
  | S fuel' =>
      r ← libvirt_get_vm_ip (address_query w k);
      match r with
      | Some a => if truthy a then Return a
                  else libvirt_wait_for_ip fuel' w (S k)
      | None => libvirt_wait_for_ip fuel' w (S k)
      end
  end.

Fixpoint libvirt_wait_for_vm_loop (fuel : nat) (w : LibvirtWorld) (k : nat)
  : Exec unit :=
  match fuel with
  | O => OutOfFuel
  | S fuel' =>
      running ← answer (domain_running w k);
      if running : bool then Return tt
      else libvirt_wait_for_vm_loop fuel' w (S k)
  end.

(** [libvirt_wait_for_vm]: returns at once when the domain is not found. *)
Definition libvirt_wait_for_vm (fuel : nat) (w : LibvirtWorld) : Exec unit :=
  if lookupByName w then libvirt_wait_for_vm_loop fuel w 0 else Return tt.

(** [str] of a nullable integer column. *)
Definition str_opt (o : option Z) : string :=
  match o with
  | Some z => str z
  | None => "None"
  end.

(** [subprocess.run] of an argument list; an argument that is [None] is a
    type error. *)
Definition run (w : LibvirtWorld) (argv : list (option string)) : Exec unit :=
  match mapM id argv with
  | Some argv => call (subprocess_run w argv)
  | None => Raise TypeError
  end.

(** [libvirt_start_vm] *)
Definition libvirt_start_vm (w : LibvirtWorld) (fuel : nat) (db : Db)
    (m_id : Z) : option Db :=
  let m := machines db !! m_id in
  thread db (
    try_except
      (m' ← attr m;
       mt ← attr (machine_template_of db m');
       mp ← attr (machine_provider_of db mt);
       let qemu_url := provider_data mp !! "base_url" in
       let name := name m' in
       let image := image mt in
       let cores := cpu_limit_cores mt in
       gb ← (match memory_limit_gb mt with
             | Some gb => Return gb
             | None => Raise TypeError
             end);
       let mem := gb * 1024 * 1024 in
       run w [Some "virt-clone"; Some "--connect"; qemu_url; Some "--original";
              Some image; Some "--name"; Some name; Some "--auto-clone"];;
       run w [Some "virsh"; Some "--connect"; qemu_url; Some "setvcpus";
              Some name; Some (str_opt cores); Some "--config";
              Some "--maximum"];;
       run w [Some "virsh"; Some "--connect"; qemu_url; Some "setvcpus";
              Some name; Some (str_opt cores); Some "--config"];;
       run w [Some "virsh"; Some "--connect"; qemu_url; Some "setmaxmem";
              Some name; Some (str mem); Some "--config"];;
       run w [Some "virsh"; Some "--connect"; qemu_url; Some "setmem";
              Some name; Some (str mem); Some "--config"];;
       run w [Some "virsh"; Some "--connect"; qemu_url; Some "start";
              Some name];;
       call (libvirt_open w qemu_url);;
       libvirt_wait_for_vm fuel w;;
       a ← libvirt_wait_for_ip fuel w 0;
       Return (commit_machine m_id
                 (fun m => set_state MachineState.READY (set_ip a m)) db))
      (fun _ =>
         attr m;;
         Return (commit_machine m_id (set_state MachineState.FAILED) db))).

(** [vm_name in vol.name()] *)
Definition contains (needle haystack : string) : bool :=
  match String.index 0 needle haystack with
  | Some _ => true
  | None => false
  end.

(** The loop over the volumes: delete each one whose name contains the name
    of the machine. *)
Fixpoint delete_volumes (w : LibvirtWorld) (vm_name : string)
    (vols : list string) : Exec unit :=
  match vols with
  | [] => Return tt
  | vol :: rest =>
      (if contains vm_name vol then call (volume_delete w vol) else Return tt);;
      delete_volumes w vm_name rest
  end.

(** [libvirt_stop_vm].  The whole teardown is under one [try] whose handler
    logs; the state is set after it.  The log line that follows the commit
    does not touch the store. *)
Definition libvirt_stop_vm (w : LibvirtWorld) (db : Db) (m_id : Z)
  : option Db :=
  let m := machines db !! m_id in
  thread db (
    try_log
      (m' ← attr m;
       mt ← attr (machine_template_of db m');
       mp ← attr (machine_provider_of db mt);
       let vm_name := name m' in
       call (libvirt_open w (provider_data mp !! "base_url"));;
       call (domain_destroy w);;
       delete_volumes w vm_name (volume_names w);;
       call (domain_undefine w));;
    attr m;;
    Return (commit_machine m_id (set_state MachineState.DELETED) db)).

(** *** Cloud backend *)

(** An entry of [server.addresses] for a network: the value under
    ["OS-EXT-IPS:type"], if any, and the address. *)
Record ServerAddress := {
  ext_ips_type : option string;
  addr : string
}.

(** The answers of the cloud.  A lookup answers [Returns true] with an
    object, [Returns false] with [None], or raises.  The [_secs] fields give
    the whole seconds that the k-th poll of a loop takes. *)
Record OpenstackWorld := {
  openstack_connection : bool;
  get_network : Answer bool;
  find_flavor : Answer bool;
  cinder_client : bool;
  find_image : Answer bool;
  volumes_create : bool;
  (** the k-th [openstack volume show]: whether the status is available *)
  volume_available : nat -> Answer bool;
  volume_secs : nat -> nat;
  create_server : bool;
  (** the k-th [openstack server show]: whether the status is the wanted one *)
  server_in_state : nat -> Answer bool;
  server_secs : nat -> nat;
  (** [get_network] in [openstack_wait_for_vm_ip] *)
  get_network_again : Answer bool;
  get_network_secs : nat;
  (** the k-th [get_server]: the addresses on the network *)
  server_addresses : nat -> Answer (list ServerAddress);
  addresses_secs : nat -> nat;
  (** [socket.gethostbyaddr]: the host name, [None] when it raises *)
  gethostbyaddr : string -> option string;
  (** [openstack server delete] exits with status 0 *)
  server_delete : bool
}.

(** [get_hostname].  The handler calls [logging.Exception], which the
    [logging] module does not have, so a failed lookup raises from inside
    the handler. *)
Definition get_hostname (w : OpenstackWorld) (a : string) : Exec string :=
  match gethostbyaddr w a with
  | Some hostname => Return hostname
  | None => Raise AttributeError
  end.

Definition is_fixed (a : ServerAddress) : bool :=
  match ext_ips_type a with
  | Some t => String.eqb t "fixed"
  | None => false
  end.

(** The loop of [openstack_wait_for_vm_ip]; [elapsed] is the time since
    [start_time] at the loop test. *)
Fixpoint openstack_wait_for_vm_ip_loop (fuel : nat) (w : OpenstackWorld)
    (timeout elapsed : Z) (k : nat) : Exec string :=
  match fuel with
  | O => OutOfFuel
  | S fuel' =>
      if (elapsed <? timeout)%Z then
        addresses ← answer (server_addresses w k);
        match List.find is_fixed addresses with
        | Some address => Return (addr address)
        | None =>
            openstack_wait_for_vm_ip_loop fuel' w timeout
              (elapsed + Z.of_nat (addresses_secs w k) + 5) (S k)
        end
      else Raise TimeoutError
  end.

Definition openstack_wait_for_vm_ip (fuel : nat) (w : OpenstackWorld)
    (timeout : Z) : Exec string :=
  network ← answer (get_network_again w);
  (if network : bool then Return tt else Raise AttributeError);;
  openstack_wait_for_vm_ip_loop fuel w timeout
    (Z.of_nat (get_network_secs w)) 0.

(** The loop shared by [openstack_wait_for_volume] and
    [openstack_wait_for_vm_state]: show the resource, return its details
    ([true]) when the status is the wanted one, return [None] ([false]) once
    more than [timeout] seconds have passed, else sleep five seconds. *)
Fixpoint cli_wait_loop (fuel : nat) (show : nat -> Answer bool)
    (secs : nat -> nat) (timeout elapsed : Z) (k : nat) : Exec bool :=
  match fuel with
  | O => OutOfFuel
  | S fuel' =>
      ok ← answer (show k);
      let elapsed := elapsed + Z.of_nat (secs k) in
      if ok : bool then Return true
      else if (timeout <? elapsed)%Z then Return false
      else cli_wait_loop fuel' show secs timeout (elapsed + 5) (S k)
  end.

Definition openstack_wait_for_volume (fuel : nat) (w : OpenstackWorld)
    (timeout : Z) : Exec bool :=
  cli_wait_loop fuel (volume_available w) (volume_secs w) timeout 0 0.

Definition openstack_wait_for_vm_state (fuel : nat) (w : OpenstackWorld)
    (timeout : Z) : Exec bool :=
  cli_wait_loop fuel (server_in_state w) (server_secs w) timeout 0 0.

(** The part of [openstack_start_vm] up to the address: [None] for the early
    returns (network, flavor or image not found).  The results of the two
    status waits are dropped, as in the source. *)
Definition openstack_provision (w : OpenstackWorld) (fuel : nat) (db : Db)
    (m : option Machine) : Exec (option string) :=
  m' ← attr m;
  mt ← attr (machine_template_of db m');
  mp ← attr (machine_provider_of db mt);
  attr (extra_data mt);;
  call (openstack_connection w);;
  network ← answer (get_network w);
  if negb network then Return None else
  flavor ← answer (find_flavor w);
  if negb flavor then Return None else
  call (cinder_client w);;
  image ← answer (find_image w);
  if negb image then Return None else
  call (volumes_create w);;
  openstack_wait_for_volume fuel w 1200;;
  call (create_server w);;
  openstack_wait_for_vm_state fuel w 300;;
  a ← openstack_wait_for_vm_ip fuel w 300;
  Return (Some a).

(** [openstack_start_vm].  The address is assigned to [m.ip] before
    [get_hostname] runs, so the handler's commit writes it too when the
    host name lookup raises. *)
Definition openstack_start_vm (w : OpenstackWorld) (fuel : nat) (db : Db)
    (m_id : Z) : option Db :=
  let m := machines db !! m_id in
  thread db (
    match openstack_provision w fuel db m with
    | Return (Some a) =>
        try_except
          (h ← get_hostname w a;
           Return (commit_machine m_id
                     (fun m => set_state MachineState.READY
                                 (set_hostname h (set_ip a m))) db))
          (fun _ =>
             Return (commit_machine m_id
                       (fun m => set_state MachineState.FAILED (set_ip a m))
                       db))
    | Return None => Return db
    | Raise _ =>
        attr m;;
        Return (commit_machine m_id (set_state MachineState.FAILED) db)
    | OutOfFuel => OutOfFuel
    end).

(** [openstack_stop_vm].  The delete command has a [try] of its own whose
    handler logs; the outer handler sets [FAILED]. *)
Definition openstack_stop_vm (w : OpenstackWorld) (db : Db) (m_id : Z)
  : option Db :=
  let m := machines db !! m_id in
  thread db (
    try_except
      (m' ← attr m;
       mt ← attr (machine_template_of db m');
       mp ← attr (machine_provider_of db mt);
       try_log (call (server_delete w));;
       Return (commit_machine m_id (set_state MachineState.DELETED) db))
      (fun _ =>
         attr m;;
         Return (commit_machine m_id (set_state MachineState.FAILED) db))).

(** ** The running application *)

(** Everything outside the process that a thread meets while it runs. *)
Record World := {
  docker_world : DockerWorld;
  libvirt_world : LibvirtWorld;
  openstack_world : OpenstackWorld;
  shell_run : string -> bool;
  utcnow : datetime
}.

(** Running a thread to its end. *)
Definition run_task (w : World) (fuel : nat) (t : Task) (db : Db)
  : option Db :=
  match t with
  | docker_start_container_thread m_id =>
      docker_start_container (docker_world w) fuel db m_id
  | libvirt_start_vm_thread m_id =>
      libvirt_start_vm (libvirt_world w) fuel db m_id
  | openstack_start_vm_thread m_id =>
      openstack_start_vm (openstack_world w) fuel db m_id
  | docker_stop_container_thread m_id =>
      docker_stop_container (docker_world w) db m_id
  | libvirt_stop_vm_thread m_id =>
      libvirt_stop_vm (libvirt_world w) db m_id
  | openstack_stop_vm_thread m_id =>
      openstack_stop_vm (openstack_world w) db m_id
  | start_data_transfer_thread job_id =>
      start_data_transfer (shell_run w) (utcnow w) db job_id
  end.

(** The store and the threads that have been started and have not ended. *)
Record System := {
  sys_store : Db;
  running : list Task
}.

Definition after_request (s : System) (r : HandlerResult) : System :=
  {| sys_store := store r; running := app (running s) (started r) |}.

(** What [rename_machine], [share_accept] and [share_revoke] write to a row:
    the name, the token and the users it is shared with. *)
Definition owner_edit (n tok : string) (su : list Z) (m : Machine) : Machine :=
  {| name := n; ip := ip m; hostname := hostname m; token := tok;
     state := state m; owner_id := owner_id m;
     machine_template_id := machine_template_id m;
     shared_users := su |}.

(** One step of the application: a request is handled, a running thread
    ends, or the process is restarted, which loses the running threads and
    runs [clean_up_db].  A thread takes its step when it commits: what it
    writes to its row is the state, the address and the host name, and it
    writes them whatever the row holds by then.  The owner's edits of a row
    ([rename_machine], [share_accept], [share_revoke]) are taken with any
    values.  [env] is what is known of the world that a thread meets;
    [step] assumes nothing of it. *)
Inductive step_in (env : World -> Prop) : System -> System -> Prop :=
| step_new_machine s u template_name now tok :
    step_in env s
      (after_request s (new_machine (sys_store s) u template_name now tok))
| step_stop_machine s u machine_id :
    step_in env s (after_request s (stop_machine (sys_store s) u machine_id))
| step_data_post s u csrf_ok ds m now :
    step_in env s
      (after_request s (data_post (sys_store s) u csrf_ok ds m now))
| step_dismiss s u job_id :
    step_in env s
      (after_request s (dismiss_datatransferjob (sys_store s) u job_id))
| step_owner_edit s m_id n tok su :
    step_in env s
      {| sys_store := commit_machine m_id (owner_edit n tok su) (sys_store s);
         running := running s |}
| step_thread s w fuel t before after db' :
    env w ->
    running s = app before (t :: after) ->
    run_task w fuel t (sys_store s) = Some db' ->
    step_in env s {| sys_store := db'; running := app before after |}
| step_restart s :
    step_in env s {| sys_store := clean_up_db (sys_store s); running := [] |}.
Arguments step_new_machine {env}.
Arguments step_stop_machine {env}.
Arguments step_data_post {env}.
Arguments step_dismiss {env}.
Arguments step_owner_edit {env}.
Arguments step_thread {env}.
Arguments step_restart {env}.

Abbreviation step := (step_in (fun _ => True)).

(** The application starts with no machine, no transfer job and no
    thread. *)
Definition initial (s : System) : Prop :=
  machines (sys_store s) = ∅
  /\ data_transfer_jobs (sys_store s) = ∅
  /\ running s = [].

Inductive reachable_in (env : World -> Prop) : System -> Prop :=
| reachable_initial s : initial s -> reachable_in env s
| reachable_step s s' :
    reachable_in env s -> step_in env s s' -> reachable_in env s'.
Arguments reachable_initial {env}.
Arguments reachable_step {env}.

Abbreviation reachable := (reachable_in (fun _ => True)).

(** The edges of the life cycle of a machine, as the specification draws
    them: PROVISIONING to READY or FAILED, READY or FAILED to DELETING,
    DELETING to DELETED or FAILED. *)
Definition lifecycle_edge (a b : MachineState.t) : bool :=
  match a, b with
  | MachineState.PROVISIONING, MachineState.READY
  | MachineState.PROVISIONING, MachineState.FAILED
  | MachineState.READY, MachineState.DELETING
  | MachineState.FAILED, MachineState.DELETING
  | MachineState.DELETING, MachineState.DELETED
  | MachineState.DELETING, MachineState.FAILED => true
  | _, _ => false
  end.

(** ** Helpers around the handlers *)

(** *** Small thread ids *)

(** The module-level [thread_id_map] and [thread_id_counter]. *)
Record ThreadIds := {
  thread_id_map : gmap Z nat;
  thread_id_counter : nat
}.

(** [get_small_thread_id], for the thread whose [threading.get_ident()] is
    [thread_id]: the new globals and the value of
    [thread_id_map[thread_id]], [None] for a [KeyError].  The body runs
    under [thread_id_lock], so calls do not interleave. *)
Definition get_small_thread_id (g : ThreadIds) (thread_id : Z)
  : ThreadIds * option nat :=
  let g' :=
    match thread_id_map g !! thread_id with
    | None =>
        {| thread_id_map := <[thread_id := thread_id_counter g]> (thread_id_map g);
           thread_id_counter := thread_id_counter g + 1 |}
    | Some _ => g
    end in
  (g', thread_id_map g' !! thread_id).

(** The globals and the results after calls in which
    [threading.get_ident()] gives the values [thread_ids], in that order. *)
Fixpoint small_thread_ids (g : ThreadIds) (thread_ids : list Z)
  : ThreadIds * list (option nat) :=
  match thread_ids with
  | [] => (g, [])
  | t :: rest =>
      let '(g1, r) := get_small_thread_id g t in
      let '(g2, rs) := small_thread_ids g1 rest in
      (g2, r :: rs)
  end.

(** *** Tokens *)

Definition ascii_letters : string :=
  "abcdefghijklmnopqrstuvwxyzABCDEFGHIJKLMNOPQRSTUVWXYZ".

Definition digits : string := "0123456789".

Definition token_alphabet : string := ascii_letters +:+ digits.

(** [secrets.choice(alphabet)]: the character at a random index below the
    length of the alphabet; [r] is the random number that is drawn, taken
    modulo the length.  The alphabet is not empty, so the index is in
    range. *)
Definition secrets_choice (r : nat) : ascii :=
  match String.get (r mod String.length token_alphabet) token_alphabet with
  | Some c => c
  | None => "0"%char
  end.

(** [gen_token(length)].  [draw] is the stream of random numbers and [k]
    the position of the next one; the token uses [length] of them. *)
Fixpoint token_chars (draw : nat -> nat) (k n : nat) : string :=
  match n with
  | O => EmptyString
  | S n' => String (secrets_choice (draw k)) (token_chars draw (S k) n')
  end.

Definition gen_token (draw : nat -> nat) (k : nat) (length : Z) : string :=
  token_chars draw k (Z.to_nat length).

(** *** User names for accounts made from an e-mail address *)

(** [email.split("@")[0]] *)
Fixpoint email_prefix_of (email : string) : string :=
  match email with
  | EmptyString => EmptyString
  | String c rest =>
      if Ascii.eqb c "@"%char then EmptyString
      else String c (email_prefix_of rest)
  end.

(** What a function that may [abort] gives: a value, an [abort(code)], or
    no answer within the fuel. *)
Inductive Outcome (A : Type) :=
| Ok (a : A)
| Aborted (code : Z)
| Unfinished.
Arguments Ok {A} a.
Arguments Aborted {A} code.
Arguments Unfinished {A}.

(** The loop of [gen_unique_username].  [taken] is the set of the user names
    in the table of users. *)
Fixpoint gen_unique_username_loop (fuel : nat) (taken : gset string)
    (draw : nat -> nat) (email email_prefix : string) (max_attempts : Z)
    (username : string) (attempt : Z) (k : nat) : Outcome string :=
  match fuel with
  | O => Unfinished
  | S fuel' =>
      let '(username, k) :=
        if negb (truthy email) then (gen_token draw k 16, (k + 16)%nat)
        else if negb (truthy username) then (email_prefix, k)
        else (email_prefix +:+ "_" +:+ gen_token draw k 4, (k + 4)%nat) in
      if bool_decide (username ∉ taken) then Ok username
      else
        let '(username, k) :=
          if (max_attempts `div` 2 <? attempt)%Z
          then (gen_token draw k 24, (k + 24)%nat)
          else (username, k) in
        if (max_attempts <? attempt)%Z then Aborted 500
        else gen_unique_username_loop fuel' taken draw email email_prefix
               max_attempts username (attempt + 1) k
  end.

Definition gen_unique_username (fuel : nat) (taken : gset string)
    (draw : nat -> nat) (email : string) (max_attempts : Z) : Outcome string :=
  gen_unique_username_loop fuel taken draw email (email_prefix_of email)
    max_attempts EmptyString 0 0.

(** *** Renaming and sharing a machine *)

Definition set_name (n : string) (m : Machine) : Machine :=
  {| name := n; ip := ip m; hostname := hostname m; token := token m;
     state := state m; owner_id := owner_id m;
     machine_template_id := machine_template_id m;
     shared_users := shared_users m |}.

Definition set_token (t : string) (m : Machine) : Machine :=
  {| name := name m; ip := ip m; hostname := hostname m; token := t;
     state := state m; owner_id := owner_id m;
     machine_template_id := machine_template_id m;
     shared_users := shared_users m |}.

Definition set_shared_users (su : list Z) (m : Machine) : Machine :=
  {| name := name m; ip := ip m; hostname := hostname m; token := token m;
     state := state m; owner_id := owner_id m;
     machine_template_id := machine_template_id m;
     shared_users := su |}.

(** A text of Python is held as the bytes of its UTF-8 encoding, so two
    texts are equal when their bytes are.  [code_points] reads the
    characters of the text back from the bytes, each as the number of its
    code point: a byte below 128 is a character, a byte from 192 on starts
    a character of two, three or four bytes.  [pending] counts the bytes
    that the character at hand still lacks and [acc] holds its bits so
    far.  The texts that reach the handlers are decoded by the web
    framework, so their bytes are an encoding; what [code_points] makes of
    other bytes does not matter. *)
Fixpoint code_points_from (pending : nat) (acc : Z) (s : string) : list Z :=
  match s with
  | EmptyString => []
  | String a rest =>
      let b := Z.of_nat (nat_of_ascii a) in
      match pending with
      | O =>
          if (b <? 128)%Z then b :: code_points_from 0 0 rest
          else if (b <? 224)%Z then code_points_from 1 (b `mod` 32) rest
          else if (b <? 240)%Z then code_points_from 2 (b `mod` 16) rest
          else code_points_from 3 (b `mod` 8) rest
      | S O => (acc * 64 + b `mod` 64) :: code_points_from 0 0 rest
      | S n => code_points_from n (acc * 64 + b `mod` 64) rest
      end
  end.

Definition code_points (s : string) : list Z := code_points_from 0 0 s.

(** [len] of a text: the number of its characters. *)
Definition len (s : string) : Z := Z.of_nat (length (code_points s)).

(** The code point of the hyphen. *)
Definition hyphen : Z := 45.

(** [contains_non_alphanumeric_chars]: [True] at the first character that
    is neither alphanumeric nor a hyphen, and [None], which is false, when
    there is none.  [isalnum] is [str.isalnum] on the character with the
    given code point; it follows the tables of Unicode, which are not part
    of the source. *)
Definition contains_non_alphanumeric_chars (isalnum : Z -> bool)
    (s : string) : bool :=
  existsb (fun char => negb (isalnum char) && negb (char =? hyphen)%Z)
          (code_points s).

(** [rename_machine].  [machine_new_name] is the empty string when the
    field is absent.  Every refusal flashes a message and redirects to the
    machines page; the handler does not read [current_user]. *)
Definition rename_machine (isalnum : Z -> bool) (db : Db)
    (machine_id : FormInt) (machine_new_name : string) : HandlerResult :=
  let refused l :=
    {| response := redirect "machines"; store := db; started := [];
       logged := l |} in
  let len := len machine_new_name in
  if negb (truthy machine_new_name)
     || match machine_id with FieldMissing => true | _ => false end
  then refused []
  else if (len <=? 3)%Z || (80 <? len)%Z
  then refused [LogError ("len(machine_new_name) = " +:+ str len)]
  else if contains_non_alphanumeric_chars isalnum machine_new_name
  then refused []
  else
    match machine_id with
    | FieldInt machine_id =>
        let machine := machines db !! machine_id in
        match first_by (fun m => String.eqb (name m) machine_new_name)
                       (machines db) with
        | Some _ => refused []
        | None =>
            match machine with
            | None =>
                {| response := Unhandled AttributeError; store := db;
                   started := []; logged := [] |}
            | Some _ =>
                {| response := redirect "machines";
                   store := commit_machine machine_id
                              (set_name machine_new_name) db;
                   started := []; logged := [] |}
            end
        end
    | _ => refused []
    end.

(** [share_accept]: the user who follows the share link of a machine is
    added to the users it is shared with, unless the user owns the machine
    or is among them already. *)
Definition share_accept (db : Db) (current_user : User)
    (machine_token : string) : HandlerResult :=
  match first_by (fun m => String.eqb (token m) machine_token)
                 (machines db) with
  | None =>
      {| response := abort 404; store := db; started := []; logged := [] |}
  | Some (k, machine) =>
      if is_owner current_user machine then
        {| response := redirect "machines"; store := db; started := [];
           logged := [] |}
      else if bool_decide (user_id current_user ∈ shared_users machine) then
        {| response := redirect "machines"; store := db; started := [];
           logged := [] |}
      else
        {| response := redirect "machines";
           store := commit_machine k
                      (fun m => set_shared_users
                                  (app (shared_users m) [user_id current_user])
                                  m) db;
           started := []; logged := [] |}
  end.

(** [share_revoke]: the owner replaces the token by a new one and empties
    the list of users; anybody else is to be sent back to the machines page
    with a message.  That message is passed to [gettext] with a second
    positional argument; [gettext_danger] is what that call answers, and
    when it raises nothing handles the exception.  [draw] and [k] are the
    random numbers for the new token. *)
Definition share_revoke (gettext_danger : string -> Answer string) (db : Db)
    (current_user : User) (machine_id : FormInt) (draw : nat -> nat) (k : nat)
  : HandlerResult :=
  match machine_id with
  | FieldInt machine_id =>
      match machines db !! machine_id with
      | None =>
          {| response := abort 404; store := db; started := []; logged := [] |}
      | Some machine =>
          if negb (is_owner current_user machine) then
            match gettext_danger
                    "You can't revoke shares on a machine you don't own." with
            | Returns _ =>
                {| response := redirect "machines"; store := db; started := [];
                   logged := [] |}
            | Raises e =>
                {| response := Unhandled e; store := db; started := [];
                   logged := [] |}
            end
          else
            {| response := redirect "machines";
               store := commit_machine machine_id
                          (fun m => set_shared_users []
                                      (set_token (gen_token draw k 16) m)) db;
               started := []; logged := [] |}
      end
  | _ =>
      {| response := abort 404; store := db; started := []; logged := [] |}
  end.

(** *** The data page *)

(** [machine_format_dtj]: the set of the "host:dir" texts of the data
    sources that a DONE job has copied to the machine. *)
Definition format_dtj (db : Db) (machine : Z) (j : DataTransferJob)
  : option string :=
  if bool_decide (machine_id j = Some machine
                  /\ job_state j = DataTransferJobState.DONE)
  then
    source ← data_source_id j ≫= fun k => data_sources db !! k;
    Some (source_host source +:+ ":" +:+ source_dir source)
  else None.

Definition machine_format_dtj (db : Db) (machine : Z) : gset string :=
  list_to_set
    (omap (fun kj => format_dtj db machine kj.2)
          (map_to_list (data_transfer_jobs db))).

(** The order of the job list of the data page: the greater key first. *)
Definition desc_id (a b : Z * DataTransferJob) : Prop := (b.1 <= a.1)%Z.

#[global] Instance desc_id_dec (a b : Z * DataTransferJob) :
  Decision (desc_id a b).
Proof. unfold desc_id. apply _. Defined.

(** The GET branch of [data]: the jobs of the user that are not HIDDEN, by
    descending key. *)
Definition sorted_jobs (db : Db) (current_user : User)
  : list (Z * DataTransferJob) :=
  merge_sort desc_id
    (filter (fun kj => job_user_id kj.2 = Some (user_id current_user)
                       /\ job_state kj.2 <> DataTransferJobState.HIDDEN)
            (map_to_list (data_transfer_jobs db))).

(** *** Logging in *)

(** The columns of a user that [login] reads. *)
Record Account := {
  acc_username : string;
  acc_is_enabled : bool;
  password_hash : option string;
  provider : option string;
  provider_id : option string
}.

(** What [login] answers: the login page with the messages it flashes, a
    redirect to the Google login, the user logged in and a redirect to the
    index, or an unhandled exception. *)
Inductive LoginAnswer :=
| login_page (flashed : list string)
| redirect_google_login
| logged_in (user : Z)
| login_unhandled (e : Exn).

Definition truthy_opt (o : option string) : bool :=
  match o with
  | Some s => truthy s
  | None => false
  end.

(** [user.check_password(password)]: werkzeug's [check_password_hash] on the
    stored hash, which raises when there is none. *)
Definition check_password (check_password_hash : string -> string -> bool)
    (user : Account) (password : string) : Answer bool :=
  match password_hash user with
  | Some h => Returns (check_password_hash h password)
  | None => Raises AttributeError
  end.

(** [login].  [post] is [None] for a GET request and else whether the form
    validates, the user name and the password.  The message for the users
    of an external provider is passed to [gettext] with a second positional
    argument; [gettext_danger] is what that call answers. *)
Definition login (accounts : gmap Z Account)
    (check_password_hash : string -> string -> bool)
    (gettext_danger : string -> Answer string) (is_authenticated : bool)
    (post : option (bool * string * string)) : LoginAnswer :=
  if is_authenticated then login_page ["You've been logged out."]
  else
    match post with
    | None => login_page []
    | Some (valid, username, password) =>
        if valid then
          match first_by (fun a => String.eqb (acc_username a) username)
                         accounts with
          | Some (k, user) =>
              if truthy_opt (provider_id user) then
                if bool_decide (provider user = Some "google")
                then redirect_google_login
                else login_page ["Invalid provider"]
              else if bool_decide (provider user <> Some "local")
                      && negb (truthy_opt (password_hash user))
              then
                match gettext_danger "Sorry, you can't use a local login. Try using the login method you signed in (eg. Google) with the first time, or contact support for help." with
                | Returns msg => login_page [msg]
                | Raises e => login_unhandled e
                end
              else
                match check_password check_password_hash user password with
                | Returns true =>
                    if negb (acc_is_enabled user)
                    then login_page ["Account not activated. If it's been more than 24 hours please contact support."]
                    else logged_in k
                | Returns false => login_page ["Invalid username or password."]
                | Raises e => login_unhandled e
                end
          | None => login_page ["Invalid username or password."]
          end
        else login_page ["Invalid username or password."]
    end.

(** * Examples and invariants

    The stores, users and worlds that the examples run on, and the
    predicates that the theorems are stated with.

    The providers and templates follow [create_initial_db]: a local docker
    provider with the template "XRAY analysis template" (4 cores, 16 GB), a
    local libvirt provider with "Muon analysis template", and an openstack
    provider with "STFC test template". *)

Definition ex_docker_provider : MachineProvider :=
  {| mp_name := "Local docker"; mp_type := "docker";
     provider_data :=
       list_to_map [("base_url", "unix:///var/run/docker.sock");
                    ("network", "adanet")] |}.

Definition ex_libvirt_provider : MachineProvider :=
  {| mp_name := "Local libvirt"; mp_type := "libvirt";
     provider_data := list_to_map [("base_url", "qemu:///system")] |}.

Definition ex_openstack_provider : MachineProvider :=
  {| mp_name := "STFC OpenStack"; mp_type := "openstack";
     provider_data :=
       list_to_map [("auth_url", "https://openstack.stfc.ac.uk:5000/v3");
                    ("project_name", "IDAaaS-Dev")] |}.

Definition ex_docker_template : MachineTemplate :=
  {| mt_name := "XRAY analysis template"; mt_type := "docker";
     image := "workspace"; memory_limit_gb := Some 16;
     cpu_limit_cores := Some 4; machine_provider_id := 1;
     extra_data := None |}.

Definition ex_libvirt_template : MachineTemplate :=
  {| mt_name := "Muon analysis template"; mt_type := "libvirt";
     image := "debian11-5"; memory_limit_gb := Some 16;
     cpu_limit_cores := Some 4; machine_provider_id := 2;
     extra_data := None |}.

Definition ex_openstack_template : MachineTemplate :=
  {| mt_name := "STFC test template"; mt_type := "openstack";
     image := "denis_dev_20230511"; memory_limit_gb := Some 32;
     cpu_limit_cores := Some 8; machine_provider_id := 3;
     extra_data := Some (list_to_map [("flavor_name", "c2.large");
                                      ("vol_size", "200")]) |}.

Definition ex_source : DataSource :=
  {| source_host := "localhost"; source_dir := "/tmp/demo2"; data_size := 321 |}.

(** No machine and no transfer job yet. *)
Definition ex_db : Db :=
  {| machines := ∅;
     machine_templates :=
       list_to_map [(1, ex_docker_template); (2, ex_libvirt_template);
                    (3, ex_openstack_template)];
     machine_providers :=
       list_to_map [(1, ex_docker_provider); (2, ex_libvirt_provider);
                    (3, ex_openstack_provider)];
     data_sources := list_to_map [(1, ex_source)];
     data_transfer_jobs := ∅ |}.

Definition ex_admin : User :=
  {| user_id := 1; is_admin := true; username := "admin";
     user_data_sources := [1] |}.

Definition ex_owner : User :=
  {| user_id := 2; is_admin := false; username := "xrayscientist";
     user_data_sources := [1] |}.

Definition ex_other : User :=
  {| user_id := 3; is_admin := false; username := "guest";
     user_data_sources := [] |}.

Definition ex_time : datetime :=
  {| year := 2023; month := 5; day := 11; hour := 13; minute := 59;
     second := 7 |}.

Definition ex_later : datetime :=
  {| year := 2023; month := 5; day := 11; hour := 14; minute := 30;
     second := 0 |}.

(** The owner has just asked for a docker machine: row 1 is PROVISIONING and
    its start thread is running. *)
Definition ex_created : System :=
  after_request {| sys_store := ex_db; running := [] |}
    (new_machine ex_db ex_owner "XRAY analysis template" ex_time
                 "tokentokentoken1").

(** The owner stops the machine of [ex_created] while it is PROVISIONING. *)
Definition ex_stopped_early : System :=
  after_request ex_created
    (stop_machine (sys_store ex_created) ex_owner (FieldInt 1)).

(** A job of [ex_owner], running, that copies source 1 to machine 1. *)
Definition ex_job : DataTransferJob :=
  {| job_state := DataTransferJobState.RUNNING; job_user_id := Some 2;
     data_source_id := Some 1; machine_id := Some 1;
     creation_date := ex_time; finish_date := Some ex_time |}.

Definition ex_ready_machine : Machine :=
  {| name := "xrayscientist-54ADx7"; ip := "172.18.0.2"; hostname := "";
     token := "tokentokentoken1"; state := MachineState.READY;
     owner_id := Some 2; machine_template_id := Some 1; shared_users := [] |}.

Definition ex_db_with_job : Db :=
  with_jobs {[ 1 := ex_job ]} (with_machines {[ 1 := ex_ready_machine ]} ex_db).

(** The options for the machine of [ex_created]. *)
Definition ex_options : ContainerOptions :=
  {| co_name := "xrayscientist-54ADx7"; co_image := "workspace";
     co_network := Some "adanet"; cpu_period := 100000; cpu_quota := 400000;
     mem_limit := "16384m" |}.

Definition options_eqb (a b : ContainerOptions) : bool :=
  String.eqb (co_name a) (co_name b) && String.eqb (co_image a) (co_image b)
  && bool_decide (co_network a = co_network b)
  && (cpu_period a =? cpu_period b)%Z && (cpu_quota a =? cpu_quota b)%Z
  && String.eqb (mem_limit a) (mem_limit b).

(** An engine that runs a container only with [ex_options]; the container
    has no address at the first poll and 172.18.0.2 from the second on. *)
Definition ex_docker_world : DockerWorld :=
  {| DockerClient := fun _ => true;
     containers_run := options_eqb ex_options;
     container_ip := fun k => match k with
                              | O => Some ""
                              | _ => Some "172.18.0.2"
                              end;
     container_by_ip := fun _ _ => true;
     container_stop := true |}.

(** A poll that sees no address: the query returns [None] or the empty
    string. *)
Definition no_address (q : AddressQuery) : Prop :=
  libvirt_get_vm_ip q = Return None
  \/ libvirt_get_vm_ip q = Return (Some EmptyString).

(** The hypervisor of the examples: every command and call succeeds, the
    domain is running at the first poll, and no lease ever shows up. *)
Definition ex_libvirt_no_lease : LibvirtWorld :=
  {| subprocess_run := fun _ => true;
     libvirt_open := fun _ => true;
     lookupByName := true;
     domain_running := fun _ => Returns true;
     address_query := fun _ => Interfaces [];
     domain_destroy := true;
     volume_names := [];
     volume_delete := fun _ => true;
     domain_undefine := true |}.

(** The owner has just asked for a libvirt machine. *)
Definition ex_libvirt_created : System :=
  after_request {| sys_store := ex_db; running := [] |}
    (new_machine ex_db ex_owner "Muon analysis template" ex_time
                 "tokentokentoken2").

(** A cloud in which every call succeeds, the volume and the server are in
    the wanted state at the first poll, and the server never shows an
    address. *)
Definition ex_openstack_no_address : OpenstackWorld :=
  {| openstack_connection := true;
     get_network := Returns true;
     find_flavor := Returns true;
     cinder_client := true;
     find_image := Returns true;
     volumes_create := true;
     volume_available := fun _ => Returns true;
     volume_secs := fun _ => 1%nat;
     create_server := true;
     server_in_state := fun _ => Returns true;
     server_secs := fun _ => 1%nat;
     get_network_again := Returns true;
     get_network_secs := 0%nat;
     server_addresses := fun _ => Returns [];
     addresses_secs := fun _ => 0%nat;
     gethostbyaddr := fun _ => Some "host.example.org";
     server_delete := true |}.

(** The same cloud, but the volume never becomes available and the server
    has a fixed address at once. *)
Definition ex_openstack_no_volume : OpenstackWorld :=
  {| openstack_connection := true;
     get_network := Returns true;
     find_flavor := Returns true;
     cinder_client := true;
     find_image := Returns true;
     volumes_create := true;
     volume_available := fun _ => Returns false;
     volume_secs := fun _ => 0%nat;
     create_server := true;
     server_in_state := fun _ => Returns true;
     server_secs := fun _ => 1%nat;
     get_network_again := Returns true;
     get_network_secs := 0%nat;
     server_addresses :=
       fun _ => Returns [ {| ext_ips_type := Some "fixed"; addr := "10.0.0.5" |} ];
     addresses_secs := fun _ => 0%nat;
     gethostbyaddr := fun _ => Some "host.example.org";
     server_delete := true |}.

Definition ex_openstack_created : System :=
  after_request {| sys_store := ex_db; running := [] |}
    (new_machine ex_db ex_owner "STFC test template" ex_time
                 "tokentokentoken3").

(** A store whose machine 1 is DELETING, has an address, and was created
    from template [t]. *)
Definition ex_deleting (t : Z) : Db :=
  with_machines
    {[ 1 := {| name := "xrayscientist-54ADx7"; ip := "172.18.0.2";
               hostname := ""; token := "tokentokentoken1";
               state := MachineState.DELETING; owner_id := Some 2;
               machine_template_id := Some t; shared_users := [] |} ]}
    ex_db.

(** A hypervisor that refuses to destroy the domain, an engine in which
    stopping the container raises, and a cloud whose delete command
    fails. *)
Definition ex_libvirt_broken : LibvirtWorld :=
  {| subprocess_run := fun _ => true;
     libvirt_open := fun _ => true;
     lookupByName := true;
     domain_running := fun _ => Returns true;
     address_query := fun _ => Interfaces [];
     domain_destroy := false;
     volume_names := ["xrayscientist-54ADx7.qcow2"];
     volume_delete := fun _ => true;
     domain_undefine := true |}.

Definition ex_docker_broken : DockerWorld :=
  {| DockerClient := fun _ => true;
     containers_run := fun _ => true;
     container_ip := fun _ => Some "172.18.0.2";
     container_by_ip := fun _ _ => true;
     container_stop := false |}.

Definition ex_openstack_broken : OpenstackWorld :=
  {| openstack_connection := true;
     get_network := Returns true;
     find_flavor := Returns true;
     cinder_client := true;
     find_image := Returns true;
     volumes_create := true;
     volume_available := fun _ => Returns true;
     volume_secs := fun _ => 0%nat;
     create_server := true;
     server_in_state := fun _ => Returns true;
     server_secs := fun _ => 0%nat;
     get_network_again := Returns true;
     get_network_secs := 0%nat;
     server_addresses := fun _ => Returns [];
     addresses_secs := fun _ => 0%nat;
     gethostbyaddr := fun _ => None;
     server_delete := false |}.

(** The machine was created from a template of the cloud backend. *)
Definition openstack_machine (db : Db) (m : Machine) : Prop :=
  mt_type <$> machine_template_of db m = Some "openstack".

(** What holds of the address of a row: it is empty while the machine is
    PROVISIONING, and it is not empty once a docker or libvirt machine is
    READY. *)
Definition row_ok (db : Db) (m : Machine) : Prop :=
  (state m = MachineState.PROVISIONING -> ip m = EmptyString)
  /\ (state m = MachineState.READY ->
      ip m <> EmptyString \/ openstack_machine db m).

(** The invariant: every row is [row_ok], and a running start thread of the
    cloud backend belongs to a row of a cloud template. *)
Definition address_invariant (s : System) : Prop :=
  (forall k m, machines (sys_store s) !! k = Some m -> row_ok (sys_store s) m)
  /\ (forall k, openstack_start_vm_thread k ∈ running s ->
        exists m, machines (sys_store s) !! k = Some m
                  /\ openstack_machine (sys_store s) m).

(** Every fixed address that the cloud reports for a server is a text that
    is not empty. *)
Definition reports_addresses (w : OpenstackWorld) : Prop :=
  forall k addresses address,
    server_addresses w k = Returns addresses ->
    address ∈ addresses ->
    is_fixed address = true ->
    addr address <> EmptyString.

(** Every READY machine of the store has an address. *)
Definition ready_has_address (db : Db) : Prop :=
  forall k m,
    machines db !! k = Some m ->
    state m = MachineState.READY -> ip m <> EmptyString.

(** The rest of the world of the examples, around a container engine. *)
Definition ex_world (d : DockerWorld) : World :=
  {| docker_world := d;
     libvirt_world := ex_libvirt_no_lease;
     openstack_world := ex_openstack_no_address;
     shell_run := fun _ => true;
     utcnow := ex_later |}.

(** An engine that cannot run the container. *)
Definition ex_docker_no_run : DockerWorld :=
  {| DockerClient := fun _ => true;
     containers_run := fun _ => false;
     container_ip := fun _ => Some "";
     container_by_ip := fun _ _ => false;
     container_stop := true |}.

(** The machine of [ex_created] after its start thread failed, then after
    the owner asked to stop it, then after the stop thread ended. *)
Definition ex_failed : System :=
  {| sys_store :=
       commit_machine 1
         (fun m => set_ip EmptyString (set_state MachineState.FAILED m))
         (sys_store ex_created);
     running := [] |}.

Definition ex_failed_deleting : System :=
  after_request ex_failed
    (stop_machine (sys_store ex_failed) ex_owner (FieldInt 1)).

Definition ex_failed_deleted : System :=
  {| sys_store :=
       commit_machine 1 (set_state MachineState.DELETED)
         (sys_store ex_failed_deleting);
     running := [] |}.

(** The machine of [ex_created] after its start thread succeeded. *)
Definition ex_ready : System :=
  {| sys_store :=
       commit_machine 1
         (fun m => set_state MachineState.READY (set_ip "172.18.0.2" m))
         (sys_store ex_created);
     running := [] |}.

(** The ranges of the fields of a [datetime.datetime]. *)
Definition valid_datetime (d : datetime) : Prop :=
  (1 <= month d <= 12)%nat /\ (1 <= day d <= 31)%nat
  /\ (hour d < 24)%nat /\ (minute d < 60)%nat /\ (second d < 60)%nat.

(** The part of the year that [encode_date_time] keeps. *)
Definition year_block (d : datetime) : Z := (Z.of_nat (year d) `mod` 100) `div` 4.

(** No thread has asked for a small id yet. *)
Definition no_thread_ids : ThreadIds :=
  {| thread_id_map := ∅; thread_id_counter := 0 |}.

(** A stream of random numbers for the examples. *)
Definition ex_draw (k : nat) : nat := (7 * k + 3)%nat.

(** The character of [base_chars] at an index. *)
Definition base_char_at (n : nat) : ascii :=
  match String.get n base_chars with
  | Some c => c
  | None => "0"%char
  end.

(** The position of a character in [base_chars]. *)
Fixpoint index_in (c : ascii) (s : string) : option nat :=
  match s with
  | EmptyString => None
  | String c' rest =>
      if Ascii.eqb c c' then Some 0%nat else S <$> index_in c rest
  end.

(** What [get_small_thread_id] keeps of the globals: every small id in the
    map is below the counter, and no two threads share one. *)
Definition thread_ids_ok (g : ThreadIds) : Prop :=
  (forall t n, thread_id_map g !! t = Some n -> (n < thread_id_counter g)%nat)
  /\ (forall t1 t2 n, thread_id_map g !! t1 = Some n ->
                      thread_id_map g !! t2 = Some n -> t1 = t2).

(** No two machines have the same name. *)
Definition unique_names (db : Db) : Prop :=
  forall k1 k2 m1 m2,
    machines db !! k1 = Some m1 -> machines db !! k2 = Some m2 ->
    name m1 = name m2 -> k1 = k2.

(** [str.isalnum] for the examples: the digits and letters of ASCII and
    the letters of Latin-1. *)
Definition ex_isalnum (c : Z) : bool :=
  ((48 <=? c) && (c <=? 57) || (65 <=? c) && (c <=? 90)
   || (97 <=? c) && (c <=? 122)
   || (192 <=? c) && (c <=? 255) && negb (c =? 215) && negb (c =? 247))%Z.

(** The letter e with an acute accent, two bytes in UTF-8, and a name of 41
    of them. *)
Definition e_acute : string :=
  String (ascii_of_nat 195) (String (ascii_of_nat 169) EmptyString).

Definition ex_accented_name : string :=
  String.concat EmptyString (repeat e_acute 41).

(** The store of [ex_created] after its machine got READY. *)
Definition ex_ready_db : Db := sys_store ex_ready.

(** The machine of [ex_ready_db] after [ex_other] followed its share
    link. *)
Definition ex_shared_db : Db :=
  store (share_accept ex_ready_db ex_other "tokentokentoken1").

(** A user may use a machine on the data page: an administrator any
    machine, another user a machine that the user owns or that is shared
    with the user. *)
Definition may_use_machine (u : User) (m : Machine) : Prop :=
  is_admin u = true \/ owner_id m = Some (user_id u)
  \/ user_id u ∈ shared_users m.

(** A user may copy from a data source: an administrator from any, another
    user from one that is associated with the account. *)
Definition may_use_source (u : User) (ds_id : Z) : Prop :=
  is_admin u = true \/ ds_id ∈ user_data_sources u.

(** The text that [machine_format_dtj] shows for a data source. *)
Definition source_text (src : DataSource) : string :=
  source_host src +:+ ":" +:+ source_dir src.

(** The types of template that [new_machine] has a start thread for. *)
Definition known_type (type : string) : Prop :=
  type = "docker" \/ type = "libvirt" \/ type = "openstack".

(** What a handler may do to a machine row besides its state: nothing. *)
Definition same_but_state (m m' : Machine) : Prop :=
  name m' = name m /\ ip m' = ip m /\ hostname m' = hostname m
  /\ token m' = token m /\ owner_id m' = owner_id m
  /\ machine_template_id m' = machine_template_id m
  /\ shared_users m' = shared_users m.

(** A template like that of the examples, of a type that no backend of the
    application has. *)
Definition ex_podman_db : Db :=
  {| machines := ∅;
     machine_templates :=
       {[ 1 := {| mt_name := "Podman template"; mt_type := "podman";
                  image := "workspace"; memory_limit_gb := Some 16;
                  cpu_limit_cores := Some 4; machine_provider_id := 1;
                  extra_data := None |} ]};
     machine_providers := {[ 1 := ex_docker_provider ]};
     data_sources := ∅;
     data_transfer_jobs := ∅ |}.

(** A cloud in which everything works and the server has a fixed address at
    the first poll, but the address has no reverse DNS entry. *)
Definition ex_openstack_no_dns : OpenstackWorld :=
  {| openstack_connection := true;
     get_network := Returns true;
     find_flavor := Returns true;
     cinder_client := true;
     find_image := Returns true;
     volumes_create := true;
     volume_available := fun _ => Returns true;
     volume_secs := fun _ => 1%nat;
     create_server := true;
     server_in_state := fun _ => Returns true;
     server_secs := fun _ => 1%nat;
     get_network_again := Returns true;
     get_network_secs := 0%nat;
     server_addresses :=
       fun _ => Returns [ {| ext_ips_type := Some "floating"; addr := "130.246.0.9" |};
                          {| ext_ips_type := Some "fixed"; addr := "10.0.0.5" |} ];
     addresses_secs := fun _ => 0%nat;
     gethostbyaddr := fun _ => None;
     server_delete := true |}.

(** The same cloud without the flavor of the template. *)
Definition ex_openstack_no_flavor : OpenstackWorld :=
  {| openstack_connection := true;
     get_network := Returns true;
     find_flavor := Returns false;
     cinder_client := true;
     find_image := Returns true;
     volumes_create := true;
     volume_available := fun _ => Returns true;
     volume_secs := fun _ => 1%nat;
     create_server := true;
     server_in_state := fun _ => Returns true;
     server_secs := fun _ => 1%nat;
     get_network_again := Returns true;
     get_network_secs := 0%nat;
     server_addresses := fun _ => Returns [];
     addresses_secs := fun _ => 0%nat;
     gethostbyaddr := fun _ => None;
     server_delete := true |}.

(** The row of the machine of [ex_openstack_created]. *)
Definition ex_openstack_machine : Machine :=
  {| name := "xrayscientist-54ADx7"; ip := ""; hostname := "";
     token := "tokentokentoken3"; state := MachineState.PROVISIONING;
     owner_id := Some 2; machine_template_id := Some 3; shared_users := [] |}.

(** The row of the machine of [ex_created]. *)
Definition ex_created_machine : Machine :=
  {| name := "xrayscientist-54ADx7"; ip := ""; hostname := "";
     token := "tokentokentoken1"; state := MachineState.PROVISIONING;
     owner_id := Some 2; machine_template_id := Some 1; shared_users := [] |}.

(** A hypervisor on which the domain runs from the second poll of its state
    on, and the interface has an IPv6 address at once and an IPv4 lease
    from the third poll of its addresses on. *)
Definition ex_libvirt_lease : LibvirtWorld :=
  {| subprocess_run := fun _ => true;
     libvirt_open := fun _ => true;
     lookupByName := true;
     domain_running := fun k => Returns (0 <? k)%nat;
     address_query :=
       fun k => if (k <? 2)%nat
                then Interfaces [Some [(1, "fe80::5054:ff:fe12:3456")]]
                else Interfaces [Some [(1, "fe80::5054:ff:fe12:3456");
                                       (0, "192.168.122.50")]];
     domain_destroy := true;
     volume_names := [];
     volume_delete := fun _ => true;
     domain_undefine := true |}.

(** The row of the machine of [ex_libvirt_created]. *)
Definition ex_libvirt_machine : Machine :=
  {| name := "xrayscientist-54ADx7"; ip := ""; hostname := "";
     token := "tokentokentoken2"; state := MachineState.PROVISIONING;
     owner_id := Some 2; machine_template_id := Some 2; shared_users := [] |}.

(** Two accounts: one that is enabled, and one that has registered and is
    not enabled yet.  The hash of a password is modelled by the password
    with a prefix. *)
Definition ex_accounts : gmap Z Account :=
  list_to_map
    [(1, {| acc_username := "admin"; acc_is_enabled := true;
            password_hash := Some "hash:correct horse";
            provider := Some "local"; provider_id := Some "" |});
     (2, {| acc_username := "newcomer"; acc_is_enabled := false;
            password_hash := Some "hash:battery staple";
            provider := Some "local"; provider_id := Some "" |})].

Definition ex_check_password_hash (h password : string) : bool :=
  String.eqb h ("hash:" +:+ password).

(** A cloud in which everything is found: the server has a floating and a
    fixed address at once, and the fixed one has a host name. *)
Definition ex_openstack_world : OpenstackWorld :=
  {| openstack_connection := true;
     get_network := Returns true;
     find_flavor := Returns true;
     cinder_client := true;
     find_image := Returns true;
     volumes_create := true;
     volume_available := fun _ => Returns true;
     volume_secs := fun _ => 1%nat;
     create_server := true;
     server_in_state := fun _ => Returns true;
     server_secs := fun _ => 1%nat;
     get_network_again := Returns true;
     get_network_secs := 0%nat;
     server_addresses :=
       fun _ => Returns [ {| ext_ips_type := Some "floating"; addr := "130.246.0.9" |};
                          {| ext_ips_type := Some "fixed"; addr := "10.0.0.5" |} ];
     addresses_secs := fun _ => 0%nat;
     gethostbyaddr := fun _ => Some "host-10-0-0-5.example.org";
     server_delete := true |}.

(** The same cloud, were it to report a fixed address that is empty. *)
Definition ex_openstack_empty_address : OpenstackWorld :=
  {| openstack_connection := true;
     get_network := Returns true;
     find_flavor := Returns true;
     cinder_client := true;
     find_image := Returns true;
     volumes_create := true;
     volume_available := fun _ => Returns true;
     volume_secs := fun _ => 1%nat;
     create_server := true;
     server_in_state := fun _ => Returns true;
     server_secs := fun _ => 1%nat;
     get_network_again := Returns true;
     get_network_secs := 0%nat;
     server_addresses :=
       fun _ => Returns [ {| ext_ips_type := Some "fixed"; addr := EmptyString |} ];
     addresses_secs := fun _ => 0%nat;
     gethostbyaddr := fun _ => Some "host.example.org";
     server_delete := true |}.

(** The world of the examples around [ex_openstack_world]. *)
Definition ex_cloud_world : World :=
  {| docker_world := ex_docker_world;
     libvirt_world := ex_libvirt_no_lease;
     openstack_world := ex_openstack_world;
     shell_run := fun _ => true;
     utcnow := ex_later |}.

(** The worlds in which the cloud reports no empty address. *)
Definition cloud_reports_addresses (w : World) : Prop :=
  reports_addresses (openstack_world w).

(** The machine of [ex_openstack_created] after its start thread
    succeeded, and its row. *)
Definition ex_openstack_ready : System :=
  {| sys_store :=
       commit_machine 1
         (fun m => set_state MachineState.READY
                     (set_hostname "host-10-0-0-5.example.org"
                        (set_ip "10.0.0.5" m)))
         (sys_store ex_openstack_created);
     running := [] |}.

Definition ex_openstack_ready_machine : Machine :=
  {| name := "xrayscientist-54ADx7"; ip := "10.0.0.5";
     hostname := "host-10-0-0-5.example.org";
     token := "tokentokentoken3"; state := MachineState.READY;
     owner_id := Some 2; machine_template_id := Some 3; shared_users := [] |}.

(** * Properties *)

(** ** The store *)

Lemma lookup_commit_machine (db : Db) (m_id k : Z) (f : Machine -> Machine) :
  machines (commit_machine m_id f db) !! k
  = if decide (m_id = k) then f <$> machines db !! k else machines db !! k.
Proof.
  unfold commit_machine. simpl. rewrite lookup_alter.
  destruct (decide (m_id = k)); subst; reflexivity.
Qed.

Lemma lookup_commit_machine_eq (db : Db) (m_id : Z) (f : Machine -> Machine) :
  machines (commit_machine m_id f db) !! m_id = f <$> machines db !! m_id.
Proof. rewrite lookup_commit_machine. by rewrite decide_True. Qed.

Lemma lookup_commit_job (db : Db) (job_id k : Z)
    (f : DataTransferJob -> DataTransferJob) :
  data_transfer_jobs (commit_job job_id f db) !! k
  = if decide (job_id = k) then f <$> data_transfer_jobs db !! k
    else data_transfer_jobs db !! k.
Proof.
  unfold commit_job. simpl. rewrite lookup_alter.
  destruct (decide (job_id = k)); subst; reflexivity.
Qed.

(** Every key of a table is at most the maximum that [next_id] folds. *)
Lemma key_le_max {A} (tbl : gmap Z A) (k : Z) :
  is_Some (tbl !! k) ->
  (k <= map_fold (fun k _ acc => Z.max k acc) 0 tbl)%Z.
Proof.
  revert k.
  apply (map_fold_weak_ind
           (fun (r : Z) (m : gmap Z A) => forall k, is_Some (m !! k) -> (k <= r)%Z)).
  - intros k [x Hx]. by rewrite lookup_empty in Hx.
  - intros i x m r Hi IH k Hk.
    destruct (decide (i = k)) as [->|Hne].
    + lia.
    + rewrite lookup_insert_ne in Hk by done.
      specialize (IH k Hk). lia.
Qed.

(** The key of the next row is not in use. *)
Lemma next_id_fresh {A} (tbl : gmap Z A) : tbl !! next_id tbl = None.
Proof.
  destruct (tbl !! next_id tbl) as [x|] eqn:E; [|done].
  assert (H : is_Some (tbl !! next_id tbl)) by eauto.
  apply key_le_max in H. unfold next_id in H. lia.
Qed.

(** A row that [first_by] finds is a row of the table and satisfies the
    test. *)
Lemma first_by_Some {A} (p : A -> bool) (tbl : gmap Z A) (k : Z) (a : A) :
  first_by p tbl = Some (k, a) -> tbl !! k = Some a /\ p a = true.
Proof.
  unfold first_by. revert k a.
  apply (map_fold_weak_ind
           (fun (r : option (Z * A)) (m : gmap Z A) =>
              forall k a, r = Some (k, a) -> m !! k = Some a /\ p a = true)).
  - intros k a H. discriminate.
  - intros i x m r Hi IH k a H.
    assert (Hold : r = Some (k, a) -> <[i:=x]> m !! k = Some a /\ p a = true).
    { intros Hr. destruct (IH k a Hr) as [Hk Hp]. split; [|done].
      rewrite lookup_insert_ne; [done|]. intros ->. congruence. }
    destruct (p x) eqn:Hpx; [|by apply Hold].
    destruct r as [[k' a']|].
    + destruct (i <? k')%Z; [|by apply Hold].
      inversion H; subst. by rewrite lookup_insert_eq.
    + inversion H; subst. by rewrite lookup_insert_eq.
Qed.

(** When no row satisfies the test, [first_by] finds none; when one does, it
    finds one. *)
Lemma first_by_is_Some {A} (p : A -> bool) (tbl : gmap Z A) (k : Z) (a : A) :
  tbl !! k = Some a -> p a = true -> is_Some (first_by p tbl).
Proof.
  unfold first_by. revert k a.
  apply (map_fold_weak_ind
           (fun (r : option (Z * A)) (m : gmap Z A) =>
              forall k a, m !! k = Some a -> p a = true -> is_Some r)).
  - intros k a H. by rewrite lookup_empty in H.
  - intros i x m r Hi IH k a Hk Hp.
    destruct (decide (i = k)) as [->|Hne].
    + rewrite lookup_insert_eq in Hk. inversion Hk; subst. rewrite Hp.
      destruct r as [[k' a']|]; [destruct (k <? k')%Z|]; eauto.
    + rewrite lookup_insert_ne in Hk by done.
      specialize (IH k a Hk Hp).
      destruct (p x); [|done].
      destruct r as [[k' a']|]; [destruct (i <? k')%Z|]; eauto.
Qed.

(** ** Creating a machine *)

Lemma ex_created_reachable : reachable ex_created.
Proof.
  eapply reachable_step; [|apply step_new_machine].
  apply reachable_initial. by repeat split.
Qed.

Lemma ex_created_row :
  machines (sys_store ex_created) !! 1
  = Some {| name := "xrayscientist-54ADx7"; ip := ""; hostname := "";
            token := "tokentokentoken1";
            state := MachineState.PROVISIONING; owner_id := Some 2;
            machine_template_id := Some 1; shared_users := [] |}
  /\ running ex_created = [docker_start_container_thread 1].
Proof. split; vm_compute; reflexivity. Qed.

(** ** Stopping a machine *)

(** A stop request that passes the checks sets DELETING, whatever the state
    of the machine was. *)
Lemma stop_machine_accepted (db : Db) (u : User) (machine_id : Z)
    (machine : Machine) :
  machines db !! machine_id = Some machine ->
  is_admin u = true \/ owner_id machine = Some (user_id u) ->
  machines (store (stop_machine db u (FieldInt machine_id))) !! machine_id
  = Some (set_state MachineState.DELETING machine).
Proof.
  intros Hm Hauth. unfold stop_machine. rewrite Hm.
  assert (negb (is_admin u) && negb (is_owner u machine) = false) as ->.
  { unfold is_owner. destruct Hauth as [->|Ho]; [done|].
    rewrite bool_decide_eq_true_2 by done. by rewrite andb_false_r. }
  destruct (machine_template_of db machine); cbn [store];
    by rewrite lookup_commit_machine_eq, Hm.
Qed.

(** C5.  A stop request for a machine by a user who is neither an
    administrator nor the owner of the machine is answered with
    [abort(403)]; the store is left as it was and no thread is started. *)
Theorem stop_machine_forbidden (db : Db) (current_user : User)
    (machine_id : Z) (machine : Machine) :
  machines db !! machine_id = Some machine ->
  is_admin current_user = false ->
  owner_id machine <> Some (user_id current_user) ->
  response (stop_machine db current_user (FieldInt machine_id)) = abort 403
  /\ store (stop_machine db current_user (FieldInt machine_id)) = db
  /\ started (stop_machine db current_user (FieldInt machine_id)) = [].
Proof.
  intros Hm Hadmin Howner. unfold stop_machine. rewrite Hm, Hadmin.
  unfold is_owner. rewrite bool_decide_eq_false_2 by done. simpl. done.
Qed.

Lemma stop_machine_forbidden_witness :
  response (stop_machine (sys_store ex_created) ex_other (FieldInt 1)) = abort 403
  /\ store (stop_machine (sys_store ex_created) ex_other (FieldInt 1))
     = sys_store ex_created
  /\ started (stop_machine (sys_store ex_created) ex_other (FieldInt 1)) = [].
Proof.
  apply (stop_machine_forbidden (sys_store ex_created) ex_other 1
           {| name := "xrayscientist-54ADx7"; ip := ""; hostname := "";
              token := "tokentokentoken1";
              state := MachineState.PROVISIONING; owner_id := Some 2;
              machine_template_id := Some 1; shared_users := [] |}).
  - vm_compute. reflexivity.
  - reflexivity.
  - simpl. discriminate.
Defined.

(** C1.  The owner's stop request for a machine that is still PROVISIONING
    is accepted: the handler logs that the machine is not in the correct
    state for deletion and then sets DELETING all the same.  PROVISIONING to
    DELETING is not an edge of the life cycle. *)
Theorem stop_machine_leaves_lifecycle :
  reachable ex_created
  /\ step ex_created ex_stopped_early
  /\ state <$> machines (sys_store ex_created) !! 1
     = Some MachineState.PROVISIONING
  /\ state <$> machines (sys_store ex_stopped_early) !! 1
     = Some MachineState.DELETING
  /\ lifecycle_edge MachineState.PROVISIONING MachineState.DELETING = false
  /\ logged (stop_machine (sys_store ex_created) ex_owner (FieldInt 1))
     = [LogWarning "machine 1 is not in correct state for deletion: MachineState.PROVISIONING";
        LogInfo "deleting machine with machine id 1"].
Proof.
  split; [apply ex_created_reachable|].
  split; [apply step_stop_machine|].
  repeat split; vm_compute; reflexivity.
Qed.

(** ** Dismissing a transfer job *)

(** The handler's answer and the store it leaves do not depend on who
    asks. *)
Lemma dismiss_ignores_requester (db : Db) (u u' : User) (job_id : FormInt) :
  dismiss_datatransferjob db u job_id = dismiss_datatransferjob db u' job_id.
Proof. reflexivity. Qed.

(** C7.  A user who is not an administrator and does not own the job asks
    to dismiss it: the handler answers OK and the job is HIDDEN. *)
Theorem dismiss_by_other_user_accepted :
  job_user_id ex_job = Some 2
  /\ user_id ex_other = 3
  /\ is_admin ex_other = false
  /\ response (dismiss_datatransferjob ex_db_with_job ex_other (FieldInt 1))
     = Body "OK"
  /\ job_state <$>
       data_transfer_jobs
         (store (dismiss_datatransferjob ex_db_with_job ex_other (FieldInt 1)))
       !! 1
     = Some DataTransferJobState.HIDDEN.
Proof. repeat split; vm_compute; reflexivity. Qed.

(** ** Start-up clean-up *)

Lemma lookup_clean_up_machines (db : Db) (k : Z) :
  machines (clean_up_db db) !! k = clean_up_machine <$> machines db !! k.
Proof. unfold clean_up_db. simpl. apply lookup_fmap. Qed.

Lemma lookup_clean_up_jobs (db : Db) (k : Z) :
  data_transfer_jobs (clean_up_db db) !! k
  = clean_up_job <$> data_transfer_jobs db !! k.
Proof. unfold clean_up_db. simpl. apply lookup_fmap. Qed.

(** A request for a machine from an existing template, at a valid date,
    stores a PROVISIONING row with an empty address under a fresh key. *)
Lemma new_machine_creates (db : Db) (u : User) (template_name : string)
    (now : datetime) (tok machine_name : string) (k : Z) (mt0 : MachineTemplate) :
  mk_safe_machine_name (username u) now = Return machine_name ->
  machine_templates db !! k = Some mt0 ->
  mt_name mt0 = template_name ->
  exists mt_id mt,
    machine_templates db !! mt_id = Some mt
    /\ new_machine db u template_name now tok
       = {| response := redirect "machines";
            store := with_machines
                       (<[next_id (machines db) :=
                            {| name := machine_name; ip := ""; hostname := "";
                               token := tok;
                               state := MachineState.PROVISIONING;
                               owner_id := Some (user_id u);
                               machine_template_id := Some mt_id;
                               shared_users := [] |}]> (machines db)) db;
            started := start_thread_for (mt_type mt) (next_id (machines db));
            logged := [LogWarning "starting new machine thread"] |}.
Proof.
  intros Hname Hk Hn. unfold new_machine. rewrite Hname.
  destruct (first_by _ (machine_templates db)) as [[mt_id mt]|] eqn:E.
  - apply first_by_Some in E as [E _]. by exists mt_id, mt.
  - assert (is_Some (first_by
                       (fun mt => String.eqb (mt_name mt) template_name)
                       (machine_templates db))) as [x Hx].
    { eapply first_by_is_Some; [exact Hk|]. rewrite Hn. apply String.eqb_refl. }
    congruence.
Qed.

(** C4.  [clean_up_db] turns every PROVISIONING machine into a FAILED one
    and leaves every DELETING machine as it is, so that no machine is
    PROVISIONING afterwards; a machine that has just been created (its start
    thread has not ended) is FAILED after [clean_up_db]. *)
Theorem clean_up_db_machines (db : Db) :
  (forall k m, machines db !! k = Some m ->
     state m = MachineState.PROVISIONING ->
     machines (clean_up_db db) !! k = Some (set_state MachineState.FAILED m))
  /\ (forall k m, machines db !! k = Some m ->
        state m = MachineState.DELETING ->
        machines (clean_up_db db) !! k = Some m)
  /\ (forall k m, machines (clean_up_db db) !! k = Some m ->
        state m <> MachineState.PROVISIONING)
  /\ (forall u template_name now tok machine_name t mt,
        mk_safe_machine_name (username u) now = Return machine_name ->
        machine_templates db !! t = Some mt ->
        mt_name mt = template_name ->
        let created := store (new_machine db u template_name now tok) in
        let k := next_id (machines db) in
        machines db !! k = None
        /\ state <$> machines created !! k = Some MachineState.PROVISIONING
        /\ state <$> machines (clean_up_db created) !! k
           = Some MachineState.FAILED).
Proof.
  repeat split.
  - intros k m Hm Hst. rewrite lookup_clean_up_machines, Hm. simpl.
    unfold clean_up_machine. by rewrite decide_True.
  - intros k m Hm Hst. rewrite lookup_clean_up_machines, Hm. simpl.
    unfold clean_up_machine. rewrite decide_False; [done|]. by rewrite Hst.
  - intros k m. rewrite lookup_clean_up_machines.
    destruct (machines db !! k) as [m0|]; [|done]. simpl.
    unfold clean_up_machine. intros [= <-].
    destruct (decide (state m0 = MachineState.PROVISIONING)); done.
  - apply next_id_fresh.
  - destruct (new_machine_creates db u template_name now tok machine_name t mt)
      as (mt_id & mt' & _ & ->); [done..|].
    simpl. by rewrite lookup_insert_eq.
  - rewrite lookup_clean_up_machines.
    destruct (new_machine_creates db u template_name now tok machine_name t mt)
      as (mt_id & mt' & _ & ->); [done..|].
    simpl. by rewrite lookup_insert_eq.
Qed.

(** C10.  [clean_up_db] turns every RUNNING transfer job into a FAILED one
    and leaves the other jobs as they are, so that no transfer job is
    RUNNING afterwards. *)
Theorem clean_up_db_jobs (db : Db) :
  (forall k j, data_transfer_jobs db !! k = Some j ->
     job_state j = DataTransferJobState.RUNNING ->
     data_transfer_jobs (clean_up_db db) !! k
     = Some (set_job_state DataTransferJobState.FAILED j))
  /\ (forall k j, data_transfer_jobs db !! k = Some j ->
        job_state j <> DataTransferJobState.RUNNING ->
        data_transfer_jobs (clean_up_db db) !! k = Some j)
  /\ (forall k j, data_transfer_jobs (clean_up_db db) !! k = Some j ->
        job_state j <> DataTransferJobState.RUNNING).
Proof.
  repeat split.
  - intros k j Hj Hst. rewrite lookup_clean_up_jobs, Hj. simpl.
    unfold clean_up_job. by rewrite decide_True.
  - intros k j Hj Hst. rewrite lookup_clean_up_jobs, Hj. simpl.
    unfold clean_up_job. by rewrite decide_False.
  - intros k j. rewrite lookup_clean_up_jobs.
    destruct (data_transfer_jobs db !! k) as [j0|]; [|done]. simpl.
    unfold clean_up_job. intros [= <-].
    destruct (decide (job_state j0 = DataTransferJobState.RUNNING)); done.
Qed.

(** An instance of each: the machine of [ex_created] and the job of
    [ex_db_with_job] after a restart. *)
Example clean_up_db_example :
  state <$> machines (clean_up_db (sys_store ex_created)) !! 1
  = Some MachineState.FAILED
  /\ job_state <$> data_transfer_jobs (clean_up_db ex_db_with_job) !! 1
     = Some DataTransferJobState.FAILED.
Proof. split; vm_compute; reflexivity. Qed.

(** ** Limits of a container *)

(** C6.  For a machine of a docker template with [cores] cores and [gb] GB
    whose engine can be reached, [docker_start_container] computes the
    options with period 100000, quota [100000 * cores] and memory limit
    the decimal text of [gb * 1024] followed by the letter m (with 4 cores
    and 16 GB: quota 400000 over period 100000, and 16384m), and these are
    the options it hands to [containers.run]: what the thread does next
    hangs on the answer of the engine to exactly these options.  When the
    engine refuses them the machine is FAILED; when it runs them the thread
    polls for the address. *)
Theorem docker_container_limits (w : DockerWorld) (fuel : nat) (db : Db)
    (m_id : Z) (m : Machine) (mt : MachineTemplate) (mp : MachineProvider)
    (cores gb : Z) :
  machines db !! m_id = Some m ->
  machine_template_of db m = Some mt ->
  machine_provider_of db mt = Some mp ->
  cpu_limit_cores mt = Some cores ->
  memory_limit_gb mt = Some gb ->
  DockerClient w (provider_data mp !! "base_url") = true ->
  exists options,
    docker_container_options m mt (provider_data mp !! "network")
    = Return options
    /\ cpu_period options = 100000
    /\ cpu_quota options = cpu_period options * cores
    /\ mem_limit options = str (gb * 1024) +:+ "m"
    /\ (cores = 4 -> gb = 16 ->
        cpu_quota options = 400000 /\ mem_limit options = "16384m")
    /\ docker_start_container w fuel db m_id
       = if containers_run w options
         then match docker_wait_for_ip fuel w 0 with
              | Return a =>
                  Some (commit_machine m_id
                          (fun m => set_state MachineState.READY (set_ip a m))
                          db)
              | Raise _ =>
                  Some (commit_machine m_id
                          (fun m => set_ip EmptyString
                                      (set_state MachineState.FAILED m)) db)
              | OutOfFuel => None
              end
         else Some (commit_machine m_id
                      (fun m => set_ip EmptyString
                                  (set_state MachineState.FAILED m)) db).
Proof.
  intros Hm Hmt Hmp Hc Hg Hclient.
  unfold docker_start_container, docker_container_options.
  rewrite Hm. simpl. rewrite Hmt. simpl. rewrite Hmp. simpl.
  rewrite Hclient, Hc, Hg. simpl.
  eexists. split; [reflexivity|]. cbn [cpu_period cpu_quota mem_limit].
  split; [reflexivity|]. split; [reflexivity|]. split; [reflexivity|].
  split; [intros -> ->; by split|].
  destruct (containers_run w _); simpl; [|done].
  by destruct (docker_wait_for_ip fuel w 0).
Qed.

Lemma docker_container_limits_witness :
  exists options,
    docker_container_options ex_created_machine ex_docker_template
      (provider_data ex_docker_provider !! "network")
    = Return options
    /\ cpu_period options = 100000
    /\ cpu_quota options = cpu_period options * 4
    /\ mem_limit options = str (16 * 1024) +:+ "m"
    /\ (4 = 4 -> 16 = 16 ->
        cpu_quota options = 400000 /\ mem_limit options = "16384m")
    /\ docker_start_container ex_docker_world 2 (sys_store ex_created) 1
       = if containers_run ex_docker_world options
         then match docker_wait_for_ip 2 ex_docker_world 0 with
              | Return a =>
                  Some (commit_machine 1
                          (fun m => set_state MachineState.READY (set_ip a m))
                          (sys_store ex_created))
              | Raise _ =>
                  Some (commit_machine 1
                          (fun m => set_ip EmptyString
                                      (set_state MachineState.FAILED m))
                          (sys_store ex_created))
              | OutOfFuel => None
              end
         else Some (commit_machine 1
                      (fun m => set_ip EmptyString
                                  (set_state MachineState.FAILED m))
                      (sys_store ex_created)).
Proof.
  apply (docker_container_limits ex_docker_world 2 (sys_store ex_created) 1
           ex_created_machine ex_docker_template ex_docker_provider 4 16).
  - vm_compute. reflexivity.
  - vm_compute. reflexivity.
  - vm_compute. reflexivity.
  - reflexivity.
  - reflexivity.
  - reflexivity.
Defined.

(** The thread hands exactly these options to the engine: an engine that
    accepts no other options runs the container, and the machine is READY
    with the address the engine reports. *)
Example docker_start_container_example :
  machines <$> docker_start_container ex_docker_world 2 (sys_store ex_created) 1
  = Some {[ 1 := ex_ready_machine ]}.
Proof. vm_compute. reflexivity. Qed.

(** ** The copy thread *)

(** The commit of [start_data_transfer] leaves the [finish_date] of every
    job as it was. *)
Lemma start_data_transfer_finish_date (run : string -> bool) (now : datetime)
    (db db' : Db) (job_id k : Z) :
  start_data_transfer run now db job_id = Some db' ->
  finish_date <$> data_transfer_jobs db' !! k
  = finish_date <$> data_transfer_jobs db !! k.
Proof.
  unfold start_data_transfer.
  destruct (data_transfer_jobs db !! job_id) as [job|] eqn:Hjob; simpl;
    [|by intros [= <-]].
  destruct (data_source_id job ≫= _) as [ds|]; simpl; [|by intros [= <-]].
  destruct (machine_id job ≫= _) as [m|]; simpl; [|by intros [= <-]].
  intros [= <-]. simpl.
  destruct (decide (job_id = k)) as [->|Hne].
  - rewrite lookup_insert_eq, Hjob. by destruct (do_rsync _ _ _ _ _).
  - by rewrite lookup_insert_ne.
Qed.

(** C8.  The copy thread runs at [ex_later] on a job created at [ex_time].
    Whether the copy succeeds or fails, the job gets its final state and
    its [finish_date] stays the value the row was inserted with: the thread
    assigns the clock reading to [finish_time], which is not a column. *)
Theorem start_data_transfer_finish_date_not_set :
  (data_transfer_jobs <$>
     start_data_transfer (fun _ => true) ex_later ex_db_with_job 1)
  = Some {[ 1 := {| job_state := DataTransferJobState.DONE;
                    job_user_id := Some 2; data_source_id := Some 1;
                    machine_id := Some 1; creation_date := ex_time;
                    finish_date := Some ex_time |} ]}
  /\ (data_transfer_jobs <$>
        start_data_transfer (fun _ => false) ex_later ex_db_with_job 1)
     = Some {[ 1 := {| job_state := DataTransferJobState.FAILED;
                       job_user_id := Some 2; data_source_id := Some 1;
                       machine_id := Some 1; creation_date := ex_time;
                       finish_date := Some ex_time |} ]}
  /\ Some ex_time <> Some ex_later.
Proof. repeat split; try (vm_compute; reflexivity). discriminate. Qed.

(** ** Polling loops *)

(** An address that [docker_wait_for_ip] returns is not empty. *)
Lemma docker_wait_for_ip_truthy (fuel : nat) (w : DockerWorld) (k : nat)
    (a : string) :
  docker_wait_for_ip fuel w k = Return a -> truthy a = true.
Proof.
  revert k. induction fuel as [|fuel IH]; intros k; simpl; [done|].
  unfold docker_get_ip. destruct (container_ip w k) as [s|]; simpl; [|done].
  destruct (truthy s) eqn:Hs; [|apply IH].
  by intros [= <-].
Qed.

(** An address that [libvirt_wait_for_ip] returns is not empty. *)
Lemma libvirt_wait_for_ip_truthy (fuel : nat) (w : LibvirtWorld) (k : nat)
    (a : string) :
  libvirt_wait_for_ip fuel w k = Return a -> truthy a = true.
Proof.
  revert k. induction fuel as [|fuel IH]; intros k; simpl; [done|].
  destruct (libvirt_get_vm_ip (address_query w k)) as [[s|]| |]; simpl;
    [|apply IH|done..].
  destruct (truthy s) eqn:Hs; [|apply IH].
  by intros [= <-].
Qed.

(** When no poll ever sees an address, [libvirt_wait_for_ip] is still
    looping after any number of polls. *)
Lemma libvirt_wait_for_ip_loops (w : LibvirtWorld) :
  (forall k, no_address (address_query w k)) ->
  forall fuel k, libvirt_wait_for_ip fuel w k = OutOfFuel.
Proof.
  intros Hno. induction fuel as [|fuel IH]; intros k; simpl; [done|].
  destruct (Hno k) as [-> | ->]; simpl; apply IH.
Qed.

(** The same for the container engine. *)
Lemma docker_wait_for_ip_loops (w : DockerWorld) :
  (forall k, container_ip w k = Some EmptyString) ->
  forall fuel k, docker_wait_for_ip fuel w k = OutOfFuel.
Proof.
  intros Hno. induction fuel as [|fuel IH]; intros k; simpl; [done|].
  unfold docker_get_ip. rewrite Hno. simpl. apply IH.
Qed.

(** While [domain.state()] does not raise, the wait for the domain returns
    or is still looping. *)
Lemma libvirt_wait_for_vm_loop_no_raise (w : LibvirtWorld) :
  (forall k, exists b, domain_running w k = Returns b) ->
  forall fuel k,
    libvirt_wait_for_vm_loop fuel w k = Return tt
    \/ libvirt_wait_for_vm_loop fuel w k = OutOfFuel.
Proof.
  intros Hst. induction fuel as [|fuel IH]; intros k; simpl; [by right|].
  destruct (Hst k) as [b ->]. simpl. destruct b; [by left|apply IH].
Qed.

(** [libvirt_start_vm] on a machine whose preparation goes through and
    whose address poll never sees an address has not ended after any number
    of polls: no commit is made, neither of READY nor of FAILED. *)
Lemma libvirt_start_vm_never_ends (w : LibvirtWorld) (fuel : nat) (db : Db)
    (m_id : Z) (m : Machine) (mt : MachineTemplate) (mp : MachineProvider)
    (url : string) (gb : Z) :
  machines db !! m_id = Some m ->
  machine_template_of db m = Some mt ->
  machine_provider_of db mt = Some mp ->
  provider_data mp !! "base_url" = Some url ->
  memory_limit_gb mt = Some gb ->
  (forall argv, subprocess_run w argv = true) ->
  libvirt_open w (Some url) = true ->
  (forall k, exists b, domain_running w k = Returns b) ->
  (forall k, no_address (address_query w k)) ->
  libvirt_start_vm w fuel db m_id = None.
Proof.
  intros Hm Hmt Hmp Hurl Hgb Hrun Hopen Hst Hno.
  unfold libvirt_start_vm. rewrite Hm. simpl. rewrite Hmt. simpl.
  rewrite Hmp. simpl. rewrite Hgb, Hurl. simpl.
  unfold run. simpl. rewrite !Hrun. simpl. rewrite Hopen. simpl.
  unfold libvirt_wait_for_vm.
  assert (Hip := libvirt_wait_for_ip_loops w Hno fuel 0%nat).
  destruct (lookupByName w).
  - destruct (libvirt_wait_for_vm_loop_no_raise w Hst fuel 0%nat) as [-> | ->];
      simpl; [|done].
    by rewrite Hip.
  - simpl. by rewrite Hip.
Qed.

(** C2.  The start thread of a libvirt machine whose address poll never
    sees an IPv4 address has not ended after any number of polls: the loop
    of [libvirt_wait_for_ip] has no timeout, the machine stays PROVISIONING
    and is never set to FAILED. *)
Theorem libvirt_start_vm_polls_forever (fuel : nat) :
  running ex_libvirt_created = [libvirt_start_vm_thread 1]
  /\ state <$> machines (sys_store ex_libvirt_created) !! 1
     = Some MachineState.PROVISIONING
  /\ libvirt_start_vm ex_libvirt_no_lease fuel (sys_store ex_libvirt_created) 1
     = None.
Proof.
  split; [vm_compute; reflexivity|].
  split; [vm_compute; reflexivity|].
  eapply (libvirt_start_vm_never_ends ex_libvirt_no_lease fuel
            (sys_store ex_libvirt_created) 1 _ ex_libvirt_template
            ex_libvirt_provider "qemu:///system" 16).
  - vm_compute. reflexivity.
  - vm_compute. reflexivity.
  - vm_compute. reflexivity.
  - vm_compute. reflexivity.
  - reflexivity.
  - reflexivity.
  - reflexivity.
  - intros k. by exists true.
  - intros k. by left.
Qed.

(** The address loop of the cloud backend is bounded: every pass adds at
    least five seconds, so with enough fuel for the timeout it ends. *)
Lemma openstack_wait_for_vm_ip_loop_ends (w : OpenstackWorld) (timeout : Z) :
  forall (fuel : nat) (elapsed : Z) (k : nat),
    (0 < fuel)%nat ->
    (timeout <= elapsed + 5 * (Z.of_nat fuel - 1))%Z ->
    openstack_wait_for_vm_ip_loop fuel w timeout elapsed k <> OutOfFuel.
Proof.
  induction fuel as [|fuel IH]; intros elapsed k Hpos Hle; [lia|].
  simpl. destruct (elapsed <? timeout)%Z eqn:Hlt; [|done].
  apply Z.ltb_lt in Hlt.
  destruct (server_addresses w k) as [addresses|]; simpl; [|done].
  destruct (List.find is_fixed addresses); [done|].
  apply IH; lia.
Qed.

(** When no poll ever sees a fixed address, the loop ends with
    [TimeoutError]. *)
Lemma openstack_wait_for_vm_ip_loop_times_out (w : OpenstackWorld)
    (timeout : Z) :
  (forall k, exists addresses,
      server_addresses w k = Returns addresses
      /\ List.find is_fixed addresses = None) ->
  forall (fuel : nat) (elapsed : Z) (k : nat),
    (0 < fuel)%nat ->
    (timeout <= elapsed + 5 * (Z.of_nat fuel - 1))%Z ->
    openstack_wait_for_vm_ip_loop fuel w timeout elapsed k = Raise TimeoutError.
Proof.
  intros Hno.
  induction fuel as [|fuel IH]; intros elapsed k Hpos Hle; [lia|].
  simpl. destruct (elapsed <? timeout)%Z eqn:Hlt; [|done].
  apply Z.ltb_lt in Hlt.
  destruct (Hno k) as (addresses & -> & Hfind). simpl. rewrite Hfind.
  apply IH; lia.
Qed.

(** The two status loops end as well: with a result, or with [None] once
    the timeout has passed. *)
Lemma cli_wait_loop_ends (show : nat -> Answer bool) (secs : nat -> nat)
    (timeout : Z) :
  forall (fuel : nat) (elapsed : Z) (k : nat),
    (0 < fuel)%nat ->
    (timeout < elapsed + 5 * (Z.of_nat fuel - 1))%Z ->
    cli_wait_loop fuel show secs timeout elapsed k <> OutOfFuel.
Proof.
  induction fuel as [|fuel IH]; intros elapsed k Hpos Hle; [lia|].
  simpl. destruct (show k) as [[|]|]; simpl; [done| |done].
  destruct (timeout <? elapsed + Z.of_nat (secs k))%Z eqn:Hlt; [done|].
  apply Z.ltb_ge in Hlt.
  apply IH; lia.
Qed.

(** The address poll of the cloud backend does what the claim asks of every
    poll: after 300 seconds without an address the thread ends and the
    machine is FAILED.  The wait for the volume is bounded too, but its
    timeout only makes it return [None], and the thread goes on: the
    machine gets READY. *)
Example openstack_start_vm_timeouts :
  state <$> (openstack_start_vm ex_openstack_no_address 61
               (sys_store ex_openstack_created) 1
             ≫= fun db => machines db !! 1)
  = Some MachineState.FAILED
  /\ openstack_wait_for_volume 242 ex_openstack_no_volume 1200 = Return false
  /\ state <$> (openstack_start_vm ex_openstack_no_volume 242
                  (sys_store ex_openstack_created) 1
                ≫= fun db => machines db !! 1)
     = Some MachineState.READY.
Proof. repeat split; vm_compute; reflexivity. Qed.

(** ** Teardown *)

(** C3, as stated, fails.  The machine is DELETING, the backend refuses the
    teardown call, and the stop thread leaves the machine DELETED, not
    FAILED, on each of the three backends. *)
Lemma failed_teardown_sets_deleted :
  state <$> machines (ex_deleting 2) !! 1 = Some MachineState.DELETING
  /\ domain_destroy ex_libvirt_broken = false
  /\ state <$> (libvirt_stop_vm ex_libvirt_broken (ex_deleting 2) 1
                ≫= fun db => machines db !! 1)
     = Some MachineState.DELETED
  /\ container_stop ex_docker_broken = false
  /\ state <$> (docker_stop_container ex_docker_broken (ex_deleting 1) 1
                ≫= fun db => machines db !! 1)
     = Some MachineState.DELETED
  /\ server_delete ex_openstack_broken = false
  /\ state <$> (openstack_stop_vm ex_openstack_broken (ex_deleting 3) 1
                ≫= fun db => machines db !! 1)
     = Some MachineState.DELETED.
Proof. repeat split; vm_compute; reflexivity. Qed.

(** [try_log] never raises. *)
Lemma try_log_cases (body : Exec unit) :
  try_log body = Return tt \/ try_log body = OutOfFuel.
Proof. destruct body as [[]| |]; simpl; auto. Qed.

Lemma delete_volumes_ends (w : LibvirtWorld) (vm_name : string)
    (vols : list string) :
  delete_volumes w vm_name vols <> OutOfFuel.
Proof.
  induction vols as [|vol rest IH]; simpl; [done|].
  destruct (contains vm_name vol); simpl; [|done].
  by destruct (volume_delete w vol).
Qed.

(** C3, amended.  For a machine that is DELETING, a teardown that fails
    does not make the machine FAILED: the stop thread sets DELETED all the
    same, in [libvirt_stop_vm] whatever the teardown block does, in
    [docker_stop_container], with its client built, whatever the lookup and
    the stop of the container do, and in [openstack_stop_vm] whatever the
    delete command does.  [openstack_stop_vm] sets FAILED only when the
    template or the provider of the machine cannot be read. *)
Theorem stop_threads_set_deleted (db : Db) (m_id : Z) (m : Machine) :
  machines db !! m_id = Some m ->
  state m = MachineState.DELETING ->
  (forall w, exists db',
      libvirt_stop_vm w db m_id = Some db'
      /\ machines db' !! m_id = Some (set_state MachineState.DELETED m))
  /\ (forall w mt mp,
        machine_template_of db m = Some mt ->
        machine_provider_of db mt = Some mp ->
        DockerClient w (provider_data mp !! "base_url") = true ->
        exists db',
          docker_stop_container w db m_id = Some db'
          /\ machines db' !! m_id = Some (set_state MachineState.DELETED m))
  /\ (forall w mt mp,
        machine_template_of db m = Some mt ->
        machine_provider_of db mt = Some mp ->
        exists db',
          openstack_stop_vm w db m_id = Some db'
          /\ machines db' !! m_id = Some (set_state MachineState.DELETED m))
  /\ (forall w,
        (machine_template_of db m ≫= machine_provider_of db) = None ->
        exists db',
          openstack_stop_vm w db m_id = Some db'
          /\ machines db' !! m_id = Some (set_state MachineState.FAILED m)).
Proof.
  intros Hm Hst. repeat split.
  - intros w. unfold libvirt_stop_vm. rewrite Hm.
    eexists (commit_machine m_id (set_state MachineState.DELETED) db).
    split; [|by rewrite lookup_commit_machine_eq, Hm].
    match goal with |- context [try_log ?b] =>
      destruct (try_log_cases b) as [-> | Hf] end; [done|].
    exfalso. revert Hf. simpl.
    destruct (machine_template_of db m) as [mt|]; simpl; [|done].
    destruct (machine_provider_of db mt) as [mp|]; simpl; [|done].
    destruct (libvirt_open w _); simpl; [|done].
    destruct (domain_destroy w); simpl; [|done].
    pose proof (delete_volumes_ends w (name m) (volume_names w)) as Hv.
    destruct (delete_volumes w (name m) (volume_names w)) as [[]| |]; simpl;
      [|done..].
    by destruct (domain_undefine w).
  - intros w mt mp Hmt Hmp Hclient. unfold docker_stop_container.
    rewrite Hm. simpl. rewrite Hmt. simpl. rewrite Hmp. simpl.
    rewrite Hclient. simpl.
    eexists. split; [|by rewrite lookup_commit_machine_eq, Hm].
    destruct (container_by_ip w _ _); simpl; [|done].
    by destruct (container_stop w).
  - intros w mt mp Hmt Hmp. unfold openstack_stop_vm.
    rewrite Hm. simpl. rewrite Hmt. simpl. rewrite Hmp. simpl.
    eexists. split; [|by rewrite lookup_commit_machine_eq, Hm].
    by destruct (server_delete w).
  - intros w Hnone. unfold openstack_stop_vm. rewrite Hm. simpl.
    eexists (commit_machine m_id (set_state MachineState.FAILED) db).
    split; [|by rewrite lookup_commit_machine_eq, Hm].
    destruct (machine_template_of db m) as [mt|]; simpl in *; [|done].
    by rewrite Hnone.
Qed.

Lemma stop_threads_set_deleted_witness :
  exists db',
    libvirt_stop_vm ex_libvirt_broken (ex_deleting 2) 1 = Some db'
    /\ machines db' !! 1
       = Some (set_state MachineState.DELETED
                 {| name := "xrayscientist-54ADx7"; ip := "172.18.0.2";
                    hostname := ""; token := "tokentokentoken1";
                    state := MachineState.DELETING; owner_id := Some 2;
                    machine_template_id := Some 2; shared_users := [] |}).
Proof.
  apply (stop_threads_set_deleted (ex_deleting 2) 1
           {| name := "xrayscientist-54ADx7"; ip := "172.18.0.2";
              hostname := ""; token := "tokentokentoken1";
              state := MachineState.DELETING; owner_id := Some 2;
              machine_template_id := Some 2; shared_users := [] |}).
  - vm_compute. reflexivity.
  - reflexivity.
Defined.

(** ** What each thread writes *)

Ltac run_cases :=
  repeat (simpl in *; unfold mbind, Exec_bind, attr, call, answer in *;
          case_match; simplify_eq).

(** The start thread of a container leaves the store as it is, or commits
    READY with a non-empty address, or commits FAILED with an empty one. *)
Lemma docker_start_container_cases (w : DockerWorld) (fuel : nat)
    (db db' : Db) (m_id : Z) :
  docker_start_container w fuel db m_id = Some db' ->
  db' = db
  \/ (exists a, truthy a = true
        /\ db' = commit_machine m_id
                   (fun m => set_state MachineState.READY (set_ip a m)) db)
  \/ db' = commit_machine m_id
             (fun m => set_ip EmptyString
                         (set_state MachineState.FAILED m)) db.
Proof.
  unfold docker_start_container, thread, try_except.
  intros H. run_cases; eauto.
  right; left. eexists. split; [|reflexivity].
  eapply docker_wait_for_ip_truthy. eassumption.
Qed.

Lemma libvirt_start_vm_cases (w : LibvirtWorld) (fuel : nat)
    (db db' : Db) (m_id : Z) :
  libvirt_start_vm w fuel db m_id = Some db' ->
  db' = db
  \/ (exists a, truthy a = true
        /\ db' = commit_machine m_id
                   (fun m => set_state MachineState.READY (set_ip a m)) db)
  \/ db' = commit_machine m_id (set_state MachineState.FAILED) db.
Proof.
  unfold libvirt_start_vm, thread, try_except.
  intros H.
  destruct (machines db !! m_id) as [m|]; simpl in H; [|by left; simplify_eq].
  match type of H with
  | match match ?body with _ => _ end with _ => _ end = _ =>
      destruct body as [db1| |] eqn:Hbody
  end; simpl in H; simplify_eq; [|by right; right].
  right; left.
  revert Hbody. unfold run.
  repeat (simpl; unfold mbind, Exec_bind, attr, call, answer;
          case_match; simplify_eq; try discriminate).
  intros [= <-]. eexists. split; [|reflexivity].
  eapply libvirt_wait_for_ip_truthy. eassumption.
Qed.

(** The start thread of a cloud machine leaves the store as it is, or
    commits a state that is READY or FAILED. *)
Lemma openstack_start_vm_cases (w : OpenstackWorld) (fuel : nat)
    (db db' : Db) (m_id : Z) :
  openstack_start_vm w fuel db m_id = Some db' ->
  db' = db
  \/ exists f,
       db' = commit_machine m_id f db
       /\ forall m, machine_template_id (f m) = machine_template_id m
                    /\ state (f m) <> MachineState.PROVISIONING.
Proof.
  unfold openstack_start_vm, thread, try_except.
  intros H.
  destruct (openstack_provision w fuel db (machines db !! m_id))
    as [[a|]| |]; simpl in H; simplify_eq.
  - right. unfold get_hostname in H.
    destruct (gethostbyaddr w a); simpl in H; simplify_eq;
      eexists; (split; [reflexivity|]); intros m; by split.
  - by left.
  - destruct (machines db !! m_id); simpl in H; simplify_eq; [|by left].
    right. eexists; (split; [reflexivity|]); intros m'; by split.
Qed.

(** A stop thread leaves the store as it is or commits DELETED or
    FAILED. *)
Lemma docker_stop_container_cases (w : DockerWorld) (db db' : Db) (m_id : Z) :
  docker_stop_container w db m_id = Some db' ->
  db' = db \/ db' = commit_machine m_id (set_state MachineState.DELETED) db.
Proof.
  unfold docker_stop_container, thread, try_log, try_except.
  intros H. run_cases; eauto.
Qed.

Lemma libvirt_stop_vm_cases (w : LibvirtWorld) (db db' : Db) (m_id : Z) :
  libvirt_stop_vm w db m_id = Some db' ->
  db' = db \/ db' = commit_machine m_id (set_state MachineState.DELETED) db.
Proof.
  unfold libvirt_stop_vm, thread. intros H.
  match type of H with context [try_log ?b] =>
    destruct (try_log_cases b) as [Hb | Hb]; rewrite Hb in H end;
    simpl in H; [|done].
  destruct (machines db !! m_id); simpl in H; simplify_eq; eauto.
Qed.

Lemma openstack_stop_vm_cases (w : OpenstackWorld) (db db' : Db) (m_id : Z) :
  openstack_stop_vm w db m_id = Some db' ->
  db' = db
  \/ db' = commit_machine m_id (set_state MachineState.DELETED) db
  \/ db' = commit_machine m_id (set_state MachineState.FAILED) db.
Proof.
  unfold openstack_stop_vm, thread, try_log, try_except.
  intros H. run_cases; eauto.
Qed.

(** The copy thread writes the table of jobs only. *)
Lemma start_data_transfer_cases (run : string -> bool) (now : datetime)
    (db db' : Db) (job_id : Z) :
  start_data_transfer run now db job_id = Some db' ->
  db' = db \/ exists js, db' = with_jobs js db.
Proof.
  unfold start_data_transfer, thread.
  intros H. run_cases; eauto.
Qed.

(** ** The address of a machine *)

Lemma openstack_machine_ext (db db' : Db) (m m' : Machine) :
  machine_templates db' = machine_templates db ->
  machine_template_id m' = machine_template_id m ->
  openstack_machine db m -> openstack_machine db' m'.
Proof.
  unfold openstack_machine, machine_template_of. intros -> ->. done.
Qed.

Lemma row_ok_ext (db db' : Db) (m : Machine) :
  machine_templates db' = machine_templates db ->
  row_ok db m -> row_ok db' m.
Proof.
  intros Ht [Hp Hr]. split; [done|].
  intros Hst. destruct (Hr Hst) as [?|Ho]; [by left|right].
  by apply (openstack_machine_ext db db' m m).
Qed.

Lemma truthy_nonempty (a : string) : truthy a = true -> a <> EmptyString.
Proof. by destruct a. Qed.

(** A commit to one row keeps the invariant when it keeps the template of
    the row and leaves the row [row_ok], and no new start thread of the
    cloud backend appears. *)
Lemma invariant_commit (s : System) (m_id : Z) (f : Machine -> Machine)
    (r' : list Task) :
  address_invariant s ->
  (forall k, openstack_start_vm_thread k ∈ r' ->
             openstack_start_vm_thread k ∈ running s) ->
  (forall m, machines (sys_store s) !! m_id = Some m ->
             row_ok (sys_store s) m ->
             machine_template_id (f m) = machine_template_id m
             /\ row_ok (sys_store s) (f m)) ->
  address_invariant
    {| sys_store := commit_machine m_id f (sys_store s); running := r' |}.
Proof.
  intros [Hrows Hos] Hsub Hf. split; cbn [sys_store running].
  - intros k m'. rewrite lookup_commit_machine.
    destruct (decide (m_id = k)) as [->|Hne].
    + destruct (machines (sys_store s) !! k) as [m|] eqn:Hm; simpl; [|done].
      intros [= <-]. apply (row_ok_ext (sys_store s)); [done|].
      by apply Hf, (Hrows k).
    + intros Hm'. apply (row_ok_ext (sys_store s)); [done|]. by apply (Hrows k).
  - intros k Hk. destruct (Hos k (Hsub k Hk)) as (m & Hm & Ho).
    rewrite lookup_commit_machine. rewrite Hm.
    destruct (decide (m_id = k)) as [->|Hne]; simpl.
    + exists (f m). split; [done|].
      apply (openstack_machine_ext (sys_store s) _ m); [done| |done].
      by apply Hf, (Hrows k).
    + exists m. split; [done|].
      by apply (openstack_machine_ext (sys_store s) _ m).
Qed.

(** A store with the same machines and templates keeps the invariant. *)
Lemma invariant_same_machines (s : System) (db' : Db) (r' : list Task) :
  address_invariant s ->
  machines db' = machines (sys_store s) ->
  machine_templates db' = machine_templates (sys_store s) ->
  (forall k, openstack_start_vm_thread k ∈ r' ->
             openstack_start_vm_thread k ∈ running s) ->
  address_invariant {| sys_store := db'; running := r' |}.
Proof.
  intros [Hrows Hos] Hm Ht Hsub. split; simpl.
  - intros k m. rewrite Hm. intros Hk.
    apply (row_ok_ext (sys_store s)); [done|]. by apply (Hrows k).
  - intros k Hk. destruct (Hos k (Hsub k Hk)) as (m & Hk' & Ho).
    exists m. rewrite Hm. split; [done|].
    by apply (openstack_machine_ext (sys_store s) _ m).
Qed.

Lemma start_thread_for_openstack (type : string) (m_id k : Z) :
  openstack_start_vm_thread k ∈ start_thread_for type m_id ->
  type = "openstack" /\ k = m_id.
Proof.
  unfold start_thread_for.
  destruct (String.eqb_spec type "docker"); [by intros ?%list_elem_of_singleton|].
  destruct (String.eqb_spec type "libvirt"); [by intros ?%list_elem_of_singleton|].
  destruct (String.eqb_spec type "openstack").
  - intros ?%list_elem_of_singleton. by simplify_eq.
  - by intros ?%elem_of_nil.
Qed.

Lemma stop_thread_for_no_start (type : string) (m_id k : Z) :
  openstack_start_vm_thread k ∉ stop_thread_for type m_id.
Proof.
  unfold stop_thread_for.
  repeat (case_match; [by intros ?%list_elem_of_singleton|]).
  by intros ?%elem_of_nil.
Qed.

(** What the handlers write. *)
Lemma new_machine_cases (db : Db) (u : User) (template_name : string)
    (now : datetime) (tok : string) :
  (store (new_machine db u template_name now tok) = db
   /\ started (new_machine db u template_name now tok) = [])
  \/ exists mt_id mt m,
       machine_templates db !! mt_id = Some mt
       /\ store (new_machine db u template_name now tok)
          = with_machines (<[next_id (machines db) := m]> (machines db)) db
       /\ state m = MachineState.PROVISIONING
       /\ ip m = EmptyString
       /\ machine_template_id m = Some mt_id
       /\ started (new_machine db u template_name now tok)
          = start_thread_for (mt_type mt) (next_id (machines db)).
Proof.
  unfold new_machine.
  destruct (mk_safe_machine_name (username u) now); [|by left..].
  destruct (first_by _ (machine_templates db)) as [[mt_id mt]|] eqn:E;
    [|by left].
  apply first_by_Some in E as [E _].
  right. eexists mt_id, mt, _. by repeat split.
Qed.

Lemma stop_machine_cases (db : Db) (u : User) (machine_id : FormInt) :
  (store (stop_machine db u machine_id) = db
   /\ started (stop_machine db u machine_id) = [])
  \/ exists m_id type,
       store (stop_machine db u machine_id)
       = commit_machine m_id (set_state MachineState.DELETING) db
       /\ (started (stop_machine db u machine_id) = []
           \/ started (stop_machine db u machine_id) = stop_thread_for type m_id).
Proof.
  unfold stop_machine.
  destruct machine_id as [| |m_id]; [by left..|].
  destruct (machines db !! m_id) as [m|]; [|by left].
  destruct (negb (is_admin u) && negb (is_owner u m)); [by left|].
  right. exists m_id.
  destruct (machine_template_of db m) as [mt|].
  - exists (mt_type mt). split; [done|by right].
  - exists EmptyString. split; [done|by left].
Qed.

Lemma data_post_cases (db : Db) (u : User) (csrf_ok : bool) (ds m : option Z)
    (now : datetime) :
  (store (data_post db u csrf_ok ds m now) = db
   /\ started (data_post db u csrf_ok ds m now) = [])
  \/ exists js job_id,
       store (data_post db u csrf_ok ds m now) = with_jobs js db
       /\ started (data_post db u csrf_ok ds m now)
          = [start_data_transfer_thread job_id].
Proof.
  unfold data_post.
  destruct ds as [ds_id|], m as [m_id|]; [|by left..].
  repeat (case_match; [|by left]).
  right. by eexists _, _.
Qed.

Lemma dismiss_cases (db : Db) (u : User) (job_id : FormInt) :
  started (dismiss_datatransferjob db u job_id) = []
  /\ (store (dismiss_datatransferjob db u job_id) = db
      \/ exists js, store (dismiss_datatransferjob db u job_id) = with_jobs js db).
Proof.
  unfold dismiss_datatransferjob.
  destruct job_id as [| |k]; [by split; [|left]..|].
  destruct (data_transfer_jobs db !! k); [|by split; [|left]].
  split; [done|]. right. by eexists.
Qed.

Lemma initial_invariant (s : System) : initial s -> address_invariant s.
Proof.
  intros (Hm & _ & Hr). split.
  - intros k m. by rewrite Hm, lookup_empty.
  - intros k. rewrite Hr. by intros ?%elem_of_nil.
Qed.

Lemma row_ok_not_provisioning_ready (db : Db) (m : Machine) :
  state m <> MachineState.PROVISIONING ->
  state m <> MachineState.READY ->
  row_ok db m.
Proof. intros Hp Hr. split; intros; congruence. Qed.

Lemma row_ok_ready (db : Db) (m : Machine) :
  state m = MachineState.READY -> ip m <> EmptyString -> row_ok db m.
Proof. intros Hr Hip. split; intros; [congruence|by left]. Qed.

(** Every step keeps the invariant. *)
Lemma step_invariant (s s' : System) :
  address_invariant s -> step s s' -> address_invariant s'.
Proof.
  intros Hinv Hstep. destruct Hstep as
    [s u template_name now tok | s u machine_id | s u csrf_ok ds m now
    | s u job_id
    | s m_id n tok su | s w fuel t before after db' Henv Hrun Hres | s];
    unfold after_request.
  - (* new_machine *)
    destruct (new_machine_cases (sys_store s) u template_name now tok)
      as [[-> ->] | (mt_id & mt & m & Hmt & -> & Hst & Hip & Htid & ->)].
    + apply (invariant_same_machines s); [done..|].
      intros k. by rewrite app_nil_r.
    + destruct Hinv as [Hrows Hos]. split; cbn [sys_store running].
      * intros k m'. simpl. rewrite lookup_insert. case_decide.
        -- intros [= <-]. split; intros; congruence.
        -- intros Hk. apply (row_ok_ext (sys_store s)); [done|].
           by apply (Hrows k).
      * intros k [Hk|Hk]%elem_of_app.
        -- destruct (Hos k Hk) as (m0 & Hm0 & Ho). exists m0. simpl.
           rewrite lookup_insert_ne.
           ++ split; [done|].
              by apply (openstack_machine_ext (sys_store s) _ m0).
           ++ intros <-. by rewrite next_id_fresh in Hm0.
        -- apply start_thread_for_openstack in Hk as [Hty ->].
           exists m. simpl. rewrite lookup_insert_eq. split; [done|].
           unfold openstack_machine, machine_template_of. rewrite Htid.
           simpl. by rewrite Hmt, <- Hty.
  - (* stop_machine *)
    destruct (stop_machine_cases (sys_store s) u machine_id)
      as [[-> ->] | (m_id & type & -> & Hth)].
    + apply (invariant_same_machines s); [done..|].
      intros k. by rewrite app_nil_r.
    + apply invariant_commit; [done| |].
      * intros k [Hk|Hk]%elem_of_app; [done|].
        destruct Hth as [Hth|Hth]; rewrite Hth in Hk.
        -- by apply elem_of_nil in Hk.
        -- by apply stop_thread_for_no_start in Hk.
      * intros m0 _ _. split; [done|].
        by apply row_ok_not_provisioning_ready.
  - (* data_post *)
    destruct (data_post_cases (sys_store s) u csrf_ok ds m now)
      as [[-> ->] | (js & job_id & -> & ->)].
    + apply (invariant_same_machines s); [done..|].
      intros k. by rewrite app_nil_r.
    + apply (invariant_same_machines s); [done..|].
      intros k [Hk|Hk]%elem_of_app; [done|].
      by apply list_elem_of_singleton in Hk.
  - (* dismiss_datatransferjob *)
    destruct (dismiss_cases (sys_store s) u job_id) as [-> [-> | [js ->]]];
      (apply (invariant_same_machines s); [done..|]);
      intros k; by rewrite app_nil_r.
  - (* the owner's edits *)
    apply invariant_commit; [done..|].
    intros m Hm [Hp Hr]. split; [done|]. split; [done|].
    simpl. intros Hst. destruct (Hr Hst) as [?|Ho]; [by left|right].
    by apply (openstack_machine_ext (sys_store s) _ m).
  - (* a thread ends *)
    assert (Hsub : forall k, openstack_start_vm_thread k ∈ app before after ->
                             openstack_start_vm_thread k ∈ running s).
    { intros k Hk. rewrite Hrun. apply elem_of_app.
      apply elem_of_app in Hk as [Hk|Hk]; [by left|right].
      by apply elem_of_cons; right. }
    destruct t as [m_id|m_id|m_id|m_id|m_id|m_id|job_id]; simpl in Hres.
    + apply docker_start_container_cases in Hres
        as [-> | [(a & Ha & ->) | ->]].
      * by apply (invariant_same_machines s).
      * apply invariant_commit; [done..|]. intros m _ _. split; [done|].
        apply row_ok_ready; [done|]. by apply truthy_nonempty.
      * apply invariant_commit; [done..|]. intros m _ _. split; [done|].
        by apply row_ok_not_provisioning_ready.
    + apply libvirt_start_vm_cases in Hres as [-> | [(a & Ha & ->) | ->]].
      * by apply (invariant_same_machines s).
      * apply invariant_commit; [done..|]. intros m _ _. split; [done|].
        apply row_ok_ready; [done|]. by apply truthy_nonempty.
      * apply invariant_commit; [done..|]. intros m _ _. split; [done|].
        by apply row_ok_not_provisioning_ready.
    + assert (Hin : openstack_start_vm_thread m_id ∈ running s).
      { rewrite Hrun. apply elem_of_app. right. by apply elem_of_cons; left. }
      destruct (proj2 Hinv m_id Hin) as (m0 & Hm0 & Ho).
      apply openstack_start_vm_cases in Hres as [-> | (f & -> & Hf)].
      * by apply (invariant_same_machines s).
      * apply invariant_commit; [done..|]. intros m Hm _.
        destruct (Hf m) as [Htid Hnp]. split; [done|].
        split; [done|]. intros _. right.
        apply (openstack_machine_ext (sys_store s) _ m0); [done| |done].
        rewrite Htid. congruence.
    + apply docker_stop_container_cases in Hres as [-> | ->].
      * by apply (invariant_same_machines s).
      * apply invariant_commit; [done..|]. intros m _ _. split; [done|].
        by apply row_ok_not_provisioning_ready.
    + apply libvirt_stop_vm_cases in Hres as [-> | ->].
      * by apply (invariant_same_machines s).
      * apply invariant_commit; [done..|]. intros m _ _. split; [done|].
        by apply row_ok_not_provisioning_ready.
    + apply openstack_stop_vm_cases in Hres as [-> | [-> | ->]].
      * by apply (invariant_same_machines s).
      * apply invariant_commit; [done..|]. intros m _ _. split; [done|].
        by apply row_ok_not_provisioning_ready.
      * apply invariant_commit; [done..|]. intros m _ _. split; [done|].
        by apply row_ok_not_provisioning_ready.
    + apply start_data_transfer_cases in Hres as [-> | [js ->]];
        by apply (invariant_same_machines s).
  - (* restart *)
    destruct Hinv as [Hrows _]. split; cbn [sys_store running].
    + intros k m. rewrite lookup_clean_up_machines.
      destruct (machines (sys_store s) !! k) as [m0|] eqn:Hm0; [|done].
      simpl. intros [= <-]. unfold clean_up_machine. case_decide.
      * by apply row_ok_not_provisioning_ready.
      * apply (row_ok_ext (sys_store s)); [done|]. by apply (Hrows k).
    + by intros k ?%elem_of_nil.
Qed.

Lemma reachable_invariant (s : System) : reachable s -> address_invariant s.
Proof.
  induction 1 as [s Hinit | s s' _ IH Hstep].
  - by apply initial_invariant.
  - by apply (step_invariant s).
Qed.

Lemma ex_failed_reachable : reachable ex_failed.
Proof.
  apply (reachable_step ex_created); [apply ex_created_reachable|].
  apply (step_thread ex_created (ex_world ex_docker_no_run) 1
           (docker_start_container_thread 1) [] []).
  - done.
  - vm_compute. reflexivity.
  - vm_compute. reflexivity.
Qed.

Lemma ex_failed_deleting_reachable : reachable ex_failed_deleting.
Proof.
  apply (reachable_step ex_failed); [apply ex_failed_reachable|].
  apply step_stop_machine.
Qed.

Lemma ex_failed_deleted_reachable : reachable ex_failed_deleted.
Proof.
  apply (reachable_step ex_failed_deleting);
    [apply ex_failed_deleting_reachable|].
  apply (step_thread ex_failed_deleting (ex_world ex_docker_no_run) 0
           (docker_stop_container_thread 1) [] []).
  - done.
  - vm_compute. reflexivity.
  - vm_compute. reflexivity.
Qed.

Lemma ex_ready_reachable : reachable ex_ready.
Proof.
  apply (reachable_step ex_created); [apply ex_created_reachable|].
  apply (step_thread ex_created (ex_world ex_docker_world) 2
           (docker_start_container_thread 1) [] []).
  - done.
  - vm_compute. reflexivity.
  - vm_compute. reflexivity.
Qed.


(** A run in a world of which something is known is a run. *)
Lemma step_in_weaken (env : World -> Prop) (s s' : System) :
  step_in env s s' -> step s s'.
Proof.
  destruct 1;
    [apply step_new_machine | apply step_stop_machine | apply step_data_post
    | apply step_dismiss | apply step_owner_edit
    | by eapply step_thread | apply step_restart].
Qed.

Lemma reachable_in_weaken (env : World -> Prop) (s : System) :
  reachable_in env s -> reachable s.
Proof.
  induction 1 as [s Hinit | s s' _ IH Hstep]; [by apply reachable_initial|].
  apply (reachable_step s); [done|]. by apply (step_in_weaken env).
Qed.

(** The address that [openstack_wait_for_vm_ip] returns is a fixed address
    that the cloud has reported. *)
Lemma openstack_wait_for_vm_ip_loop_reported (w : OpenstackWorld)
    (timeout : Z) (a : string) :
  forall (fuel : nat) (elapsed : Z) (k : nat),
    openstack_wait_for_vm_ip_loop fuel w timeout elapsed k = Return a ->
    exists k' addresses address,
      server_addresses w k' = Returns addresses
      /\ address ∈ addresses /\ is_fixed address = true /\ addr address = a.
Proof.
  induction fuel as [|fuel IH]; intros elapsed k; simpl; [done|].
  destruct (elapsed <? timeout)%Z; [|done].
  destruct (server_addresses w k) as [addresses|e] eqn:Hs; simpl; [|done].
  destruct (List.find is_fixed addresses) as [address|] eqn:Hf.
  - intros [= <-]. apply find_some in Hf as [Hin Hfix].
    exists k, addresses, address. repeat split; [done| |done].
    by apply list_elem_of_In.
  - apply IH.
Qed.

Lemma openstack_provision_reported (w : OpenstackWorld) (fuel : nat)
    (db : Db) (m : option Machine) (a : string) :
  openstack_provision w fuel db m = Return (Some a) ->
  exists k addresses address,
    server_addresses w k = Returns addresses
    /\ address ∈ addresses /\ is_fixed address = true /\ addr address = a.
Proof.
  unfold openstack_provision, openstack_wait_for_vm_ip. intros H.
  destruct (openstack_wait_for_volume fuel w 1200) as [v| |];
    destruct (openstack_wait_for_vm_state fuel w 300) as [v'| |];
    destruct (openstack_wait_for_vm_ip_loop fuel w 300
                (Z.of_nat (get_network_secs w)) 0) as [a'| |] eqn:Hloop;
    run_cases;
    by apply (openstack_wait_for_vm_ip_loop_reported _ _ _ _ _ _ Hloop).
Qed.

(** A commit keeps [ready_has_address] when the row it writes is not READY,
    or is READY with an address, or has the state and the address it
    had. *)
Lemma ready_has_address_commit (db : Db) (m_id : Z) (f : Machine -> Machine) :
  ready_has_address db ->
  (forall m, state (f m) = MachineState.READY ->
             ip (f m) <> EmptyString
             \/ (state m = MachineState.READY /\ ip (f m) = ip m)) ->
  ready_has_address (commit_machine m_id f db).
Proof.
  intros Hdb Hf k m'. rewrite lookup_commit_machine.
  destruct (decide (m_id = k)) as [->|Hne]; [|apply Hdb].
  destruct (machines db !! k) as [m|] eqn:Hm; simpl; [|done].
  intros [= <-] Hst. destruct (Hf m Hst) as [?|[Hst' Hip]]; [done|].
  rewrite Hip. by apply (Hdb k).
Qed.

(** In a world whose cloud reports no empty address, every step keeps
    [ready_has_address]. *)
Lemma step_ready_has_address (env : World -> Prop) (s s' : System) :
  (forall w, env w -> reports_addresses (openstack_world w)) ->
  step_in env s s' ->
  ready_has_address (sys_store s) -> ready_has_address (sys_store s').
Proof.
  intros Hcloud Hstep Hinv. destruct Hstep as
    [s u template_name now tok | s u machine_id | s u csrf_ok ds m now
    | s u job_id
    | s m_id n tok su | s w fuel t before after db' Henv Hrun Hres | s];
    unfold after_request; cbn [sys_store].
  - destruct (new_machine_cases (sys_store s) u template_name now tok)
      as [[-> _] | (mt_id & mt & m & _ & -> & Hst & _)]; [done|].
    intros k m'. simpl. rewrite lookup_insert. case_decide.
    + intros [= <-]. congruence.
    + apply Hinv.
  - destruct (stop_machine_cases (sys_store s) u machine_id)
      as [[-> _] | (m_id & type & -> & _)]; [done|].
    by apply ready_has_address_commit.
  - destruct (data_post_cases (sys_store s) u csrf_ok ds m now)
      as [[-> _] | (js & job_id & -> & _)]; done.
  - destruct (dismiss_cases (sys_store s) u job_id) as [_ [-> | [js ->]]]; done.
  - apply ready_has_address_commit; [done|]. intros m Hst. by right.
  - destruct t as [m_id|m_id|m_id|m_id|m_id|m_id|job_id]; simpl in Hres.
    + apply docker_start_container_cases in Hres
        as [-> | [(a & Ha & ->) | ->]]; [done|..];
        (apply ready_has_address_commit; [done|]); intros m; simpl; [|done].
      intros _. left. by apply truthy_nonempty.
    + apply libvirt_start_vm_cases in Hres as [-> | [(a & Ha & ->) | ->]];
        [done|..];
        (apply ready_has_address_commit; [done|]); intros m; simpl; [|done].
      intros _. left. by apply truthy_nonempty.
    + revert Hres. unfold openstack_start_vm, thread, try_except.
      destruct (openstack_provision (openstack_world w) fuel (sys_store s)
                  (machines (sys_store s) !! m_id)) as [[a|]| |] eqn:Hprov;
        simpl; intros Hres; simplify_eq.
      * unfold get_hostname in Hres.
        destruct (gethostbyaddr (openstack_world w) a) as [h|];
          simpl in Hres; simplify_eq;
          (apply ready_has_address_commit; [done|]); intros m; simpl; [|done].
        intros _. left.
        apply openstack_provision_reported in Hprov
          as (k & addresses & address & Hk & Hin & Hfix & <-).
        by apply (Hcloud w Henv k addresses address).
      * done.
      * destruct (machines (sys_store s) !! m_id); simpl in Hres;
          simplify_eq; [|done].
        by apply ready_has_address_commit.
    + apply docker_stop_container_cases in Hres as [-> | ->]; [done|].
      by apply ready_has_address_commit.
    + apply libvirt_stop_vm_cases in Hres as [-> | ->]; [done|].
      by apply ready_has_address_commit.
    + apply openstack_stop_vm_cases in Hres as [-> | [-> | ->]]; [done|..];
        by apply ready_has_address_commit.
    + apply start_data_transfer_cases in Hres as [-> | [js ->]]; done.
  - intros k m. rewrite lookup_clean_up_machines.
    destruct (machines (sys_store s) !! k) as [m0|] eqn:Hm0; [|done].
    simpl. intros [= <-]. unfold clean_up_machine. case_decide; [done|].
    by apply (Hinv k).
Qed.

Lemma reachable_ready_has_address (env : World -> Prop) (s : System) :
  (forall w, env w -> reports_addresses (openstack_world w)) ->
  reachable_in env s -> ready_has_address (sys_store s).
Proof.
  intros Hcloud. induction 1 as [s (Hm & _) | s s' _ IH Hstep].
  - intros k m. by rewrite Hm, lookup_empty.
  - by apply (step_ready_has_address env s).
Qed.

Lemma ex_openstack_world_reports : reports_addresses ex_openstack_world.
Proof.
  intros k addresses address [= <-] Hin Hfix.
  apply elem_of_cons in Hin as [->|Hin]; [done|].
  apply list_elem_of_singleton in Hin as ->. done.
Qed.

Lemma ex_openstack_ready_reachable :
  reachable_in cloud_reports_addresses ex_openstack_ready.
Proof.
  apply (reachable_step ex_openstack_created).
  - eapply reachable_step; [|apply step_new_machine].
    apply reachable_initial. by repeat split.
  - apply (step_thread ex_openstack_created ex_cloud_world 1
             (openstack_start_vm_thread 1) [] []).
    + apply ex_openstack_world_reports.
    + vm_compute. reflexivity.
    + vm_compute. reflexivity.
Qed.

(** The start thread of the cloud backend stores the fixed address as the
    cloud reports it, without the test that the polls of the other two
    backends make: were the cloud to report an empty one, the machine
    would be READY with an empty address. *)
Example openstack_start_vm_stores_reported_address :
  (fun m => (state m, ip m))
    <$> (openstack_start_vm ex_openstack_empty_address 1
           (sys_store ex_openstack_created) 1
         ≫= fun db => machines db !! 1)
  = Some (MachineState.READY, EmptyString).
Proof. vm_compute. reflexivity. Qed.



(** ** The start thread of the cloud backend ends *)

(** All three loops of [openstack_start_vm] are bounded, so with fuel for
    the longest timeout (1200 seconds, five seconds a pass) the thread
    ends, whatever the cloud answers. *)
Lemma openstack_start_vm_ends (w : OpenstackWorld) (fuel : nat) (db : Db)
    (m_id : Z) :
  (242 <= fuel)%nat ->
  is_Some (openstack_start_vm w fuel db m_id).
Proof.
  intros Hfuel.
  assert (Hvol : openstack_wait_for_volume fuel w 1200 <> OutOfFuel).
  { apply cli_wait_loop_ends; lia. }
  assert (Hsrv : openstack_wait_for_vm_state fuel w 300 <> OutOfFuel).
  { apply cli_wait_loop_ends; lia. }
  assert (Hip : openstack_wait_for_vm_ip fuel w 300 <> OutOfFuel).
  { unfold openstack_wait_for_vm_ip.
    destruct (get_network_again w) as [[|]|]; simpl; [|done..].
    apply openstack_wait_for_vm_ip_loop_ends; lia. }
  unfold openstack_start_vm, thread, try_except.
  destruct (openstack_provision w fuel db (machines db !! m_id))
    as [[a|]| |] eqn:E.
  - unfold get_hostname. by destruct (gethostbyaddr w a).
  - done.
  - by destruct (machines db !! m_id).
  - exfalso. revert E. unfold openstack_provision.
    destruct (openstack_wait_for_volume fuel w 1200) as [? | ? |]; [| |done];
      (destruct (openstack_wait_for_vm_state fuel w 300) as [? | ? |];
       [| |done]);
      (destruct (openstack_wait_for_vm_ip fuel w 300) as [? | ? |];
       [| |done]);
      clear; run_cases; done.
Qed.

(** * Further properties *)

(** ** Names of machines *)

Lemma string_length_app (s1 s2 : string) :
  String.length (s1 +:+ s2) = (String.length s1 + String.length s2)%nat.
Proof. induction s1 as [|c s1 IH]; simpl; [done|]. by rewrite IH. Qed.

Lemma string_get_lt (s : string) (n : nat) :
  (n < String.length s)%nat -> is_Some (String.get n s).
Proof.
  revert n. induction s as [|c s IH]; intros n Hn; simpl in *; [lia|].
  destruct n as [|n]; [by eexists|]. apply IH. lia.
Qed.

Lemma base_char_in_range (i : Z) :
  (0 <= i < 62)%Z ->
  base_char i = Return (String (base_char_at (Z.to_nat i)) EmptyString).
Proof.
  intros Hi. unfold base_char, base_char_at.
  replace (i <? 0)%Z with false by lia.
  replace (i <? 0)%Z with false by lia.
  destruct (string_get_lt base_chars (Z.to_nat i)) as [c ->]; [|done].
  change (String.length base_chars) with 62%nat. lia.
Qed.

Lemma index_in_base_char_at (n : nat) :
  (n < 62)%nat -> index_in (base_char_at n) base_chars = Some n.
Proof.
  intros Hn.
  do 62 (destruct n as [|n]; [vm_compute; reflexivity|]). lia.
Qed.

Lemma base_char_at_inj (n m : nat) :
  (n < 62)%nat -> (m < 62)%nat -> base_char_at n = base_char_at m -> n = m.
Proof.
  intros Hn Hm Heq.
  pose proof (index_in_base_char_at n Hn) as H1.
  pose proof (index_in_base_char_at m Hm) as H2.
  rewrite Heq in H1. congruence.
Qed.

Lemma encode_date_time_valid (d : datetime) :
  valid_datetime d ->
  encode_date_time d
  = Return (String (base_char_at (Z.to_nat (year_block d)))
           (String (base_char_at (month d - 1))
           (String (base_char_at (day d - 1))
           (String (base_char_at (hour d))
           (String (base_char_at (minute d))
           (String (base_char_at (second d)) EmptyString)))))).
Proof.
  intros (Hmo & Hd & Hh & Hmi & Hs). unfold encode_date_time.
  assert (0 <= year_block d < 62)%Z as Hy.
  { unfold year_block.
    pose proof (Z.mod_pos_bound (Z.of_nat (year d)) 100 eq_refl).
    split; [apply Z.div_pos; lia|].
    apply Z.div_lt_upper_bound; lia. }
  fold (year_block d).
  rewrite (base_char_in_range (year_block d)) by done.
  rewrite (base_char_in_range (Z.of_nat (month d) - 1)) by lia.
  rewrite (base_char_in_range (Z.of_nat (day d) - 1)) by lia.
  rewrite (base_char_in_range (Z.of_nat (hour d))) by lia.
  rewrite (base_char_in_range (Z.of_nat (minute d))) by lia.
  rewrite (base_char_in_range (Z.of_nat (second d))) by lia.
  simpl.
  replace (Z.to_nat (Z.of_nat (month d) - 1)) with (month d - 1)%nat by lia.
  replace (Z.to_nat (Z.of_nat (day d) - 1)) with (day d - 1)%nat by lia.
  by rewrite !Nat2Z.id.
Qed.

(** X1.  For a date whose fields are in the ranges of a [datetime],
    [mk_safe_machine_name] does not raise: the name is the user name, a
    hyphen and six characters, so it is seven characters longer than the
    user name. *)
Theorem mk_safe_machine_name_length (username : string) (d : datetime) :
  valid_datetime d ->
  exists code,
    encode_date_time d = Return code
    /\ String.length code = 6%nat
    /\ mk_safe_machine_name username d = Return (username +:+ "-" +:+ code)
    /\ String.length (username +:+ "-" +:+ code)
       = (String.length username + 7)%nat.
Proof.
  intros Hd. eexists. split; [by apply encode_date_time_valid|].
  split; [reflexivity|].
  split.
  - unfold mk_safe_machine_name. by rewrite encode_date_time_valid.
  - rewrite !string_length_app. simpl. lia.
Qed.

Lemma mk_safe_machine_name_length_witness :
  exists code,
    encode_date_time ex_time = Return code
    /\ String.length code = 6%nat
    /\ mk_safe_machine_name "xrayscientist" ex_time
       = Return ("xrayscientist" +:+ "-" +:+ code)
    /\ String.length ("xrayscientist" +:+ "-" +:+ code)
       = (String.length "xrayscientist" + 7)%nat.
Proof.
  apply (mk_safe_machine_name_length "xrayscientist" ex_time).
  unfold valid_datetime. simpl. lia.
Defined.

(** X2.  Two dates get the same code exactly when they agree on the month,
    the day, the hour, the minute and the second, and their years fall in
    the same block of four years of the century: the code tells the seconds
    of a day apart, and it does not tell 2020 from 2023 or from 2120. *)
Theorem encode_date_time_same_code (d1 d2 : datetime) :
  valid_datetime d1 ->
  valid_datetime d2 ->
  encode_date_time d1 = encode_date_time d2
  <-> year_block d1 = year_block d2
      /\ month d1 = month d2 /\ day d1 = day d2 /\ hour d1 = hour d2
      /\ minute d1 = minute d2 /\ second d1 = second d2.
Proof.
  intros H1 H2.
  rewrite (encode_date_time_valid d1 H1), (encode_date_time_valid d2 H2).
  destruct H1 as (Hmo1 & Hd1 & Hh1 & Hmi1 & Hs1).
  destruct H2 as (Hmo2 & Hd2 & Hh2 & Hmi2 & Hs2).
  assert (forall d, 0 <= year_block d < 62)%Z as Hy.
  { intros d. unfold year_block.
    pose proof (Z.mod_pos_bound (Z.of_nat (year d)) 100 eq_refl).
    split; [apply Z.div_pos; lia|].
    apply Z.div_lt_upper_bound; lia. }
  pose proof (Hy d1). pose proof (Hy d2).
  split.
  - intros [= Ey Emo Ed Eh Emi Es].
    apply base_char_at_inj in Ey; [|lia..].
    apply base_char_at_inj in Emo; [|lia..].
    apply base_char_at_inj in Ed; [|lia..].
    apply base_char_at_inj in Eh; [|lia..].
    apply base_char_at_inj in Emi; [|lia..].
    apply base_char_at_inj in Es; [|lia..].
    repeat split; lia.
  - intros (-> & -> & -> & -> & -> & ->). reflexivity.
Qed.

Lemma encode_date_time_same_code_witness :
  encode_date_time ex_time
  = encode_date_time {| year := 2120; month := 5; day := 11; hour := 13;
                        minute := 59; second := 7 |}
  <-> year_block ex_time
      = year_block {| year := 2120; month := 5; day := 11; hour := 13;
                      minute := 59; second := 7 |}
      /\ 5%nat = 5%nat /\ 11%nat = 11%nat /\ 13%nat = 13%nat
      /\ 59%nat = 59%nat /\ 7%nat = 7%nat.
Proof.
  apply (encode_date_time_same_code ex_time
           {| year := 2120; month := 5; day := 11; hour := 13;
              minute := 59; second := 7 |});
    unfold valid_datetime; simpl; lia.
Defined.

(** ** Small thread ids *)

Lemma no_thread_ids_ok : thread_ids_ok no_thread_ids.
Proof. split; intros *; simpl; by rewrite lookup_empty. Qed.

(** One call: the result is the entry of the thread in the new map, the old
    entries stay, and the globals stay well formed. *)
Lemma get_small_thread_id_step (g g' : ThreadIds) (t : Z) (r : option nat) :
  thread_ids_ok g ->
  get_small_thread_id g t = (g', r) ->
  thread_ids_ok g'
  /\ thread_id_map g ⊆ thread_id_map g'
  /\ is_Some r
  /\ r = thread_id_map g' !! t.
Proof.
  intros [Hlt Hinj]. unfold get_small_thread_id.
  destruct (thread_id_map g !! t) as [n|] eqn:Ht; intros [= <- <-].
  - repeat split; eauto.
  - simpl. rewrite lookup_insert_eq. repeat split; [| |by apply insert_subseteq|by eauto].
    + intros t' n. simpl. rewrite lookup_insert. case_decide.
      * intros [= <-]. lia.
      * intros Hn%Hlt. lia.
    + intros t1 t2 n. simpl. rewrite !lookup_insert.
      repeat case_decide; simplify_eq; try done.
      * intros [= <-] Hn%Hlt. lia.
      * intros Hn%Hlt [= <-]. lia.
      * apply Hinj.
Qed.

(** A run of calls: every result is the entry of its thread in the final
    map. *)
Lemma small_thread_ids_final (g g' : ThreadIds) (ts : list Z)
    (rs : list (option nat)) :
  thread_ids_ok g ->
  small_thread_ids g ts = (g', rs) ->
  thread_ids_ok g'
  /\ thread_id_map g ⊆ thread_id_map g'
  /\ Forall2 (fun t r => is_Some r /\ r = thread_id_map g' !! t) ts rs.
Proof.
  revert g g' rs.
  induction ts as [|t ts IH]; intros g g' rs Hok; cbn [small_thread_ids].
  - intros [= <- <-]. split; [done|]. split; [done|]. constructor.
  - destruct (get_small_thread_id g t) as [g1 r] eqn:E1.
    destruct (small_thread_ids g1 ts) as [g2 rs'] eqn:E2.
    intros [= <- <-].
    destruct (get_small_thread_id_step g g1 t r Hok E1)
      as (Hok1 & Hsub1 & [n ->] & Hr).
    destruct (IH g1 g2 rs' Hok1 E2) as (Hok2 & Hsub2 & Hall).
    split; [done|]. split; [by etrans|].
    constructor; [|done]. split; [by eauto|].
    symmetry. eapply lookup_weaken; [|exact Hsub2]. by rewrite <- Hr.
Qed.

(** X3.  From the start of the process, whatever the order of the calls:
    every call gets a small id, and two calls get the same small id exactly
    when [threading.get_ident()] gave them the same value.  The map is
    never pruned: a thread that is given the identifier of a thread that
    has ended gets the small id of that thread. *)
Theorem small_thread_ids_distinct (ts : list Z) (i j : nat) (ti tj : Z)
    (ri rj : option nat) :
  ts !! i = Some ti ->
  ts !! j = Some tj ->
  (small_thread_ids no_thread_ids ts).2 !! i = Some ri ->
  (small_thread_ids no_thread_ids ts).2 !! j = Some rj ->
  is_Some ri /\ (ri = rj <-> ti = tj).
Proof.
  intros Hi Hj Hri Hrj.
  destruct (small_thread_ids no_thread_ids ts) as [g' rs] eqn:E.
  destruct (small_thread_ids_final _ _ _ _ no_thread_ids_ok E)
    as ([_ Hinj] & _ & Hall).
  simpl in *.
  destruct (Forall2_lookup_lr _ _ _ _ _ _ Hall Hi Hri) as [[ni ->] Hni].
  destruct (Forall2_lookup_lr _ _ _ _ _ _ Hall Hj Hrj) as [[nj ->] Hnj].
  split; [by eauto|]. split.
  - intros [= ->]. by apply (Hinj ti tj nj).
  - intros ->. congruence.
Qed.

Lemma small_thread_ids_distinct_witness :
  is_Some (Some 0%nat) /\ (Some 0%nat = Some 1%nat <-> 140001 = 140002).
Proof.
  apply (small_thread_ids_distinct [140001; 140002; 140001] 0 1
           140001 140002 (Some 0%nat) (Some 1%nat)); reflexivity.
Defined.

(** ** Tokens *)

Lemma secrets_choice_in_alphabet (r : nat) :
  String.get (r mod String.length token_alphabet) token_alphabet
  = Some (secrets_choice r).
Proof.
  unfold secrets_choice.
  destruct (string_get_lt token_alphabet
              (r mod String.length token_alphabet)) as [c ->]; [|done].
  apply Nat.mod_upper_bound. by vm_compute.
Qed.

Lemma token_chars_length (draw : nat -> nat) (k n : nat) :
  String.length (token_chars draw k n) = n.
Proof. revert k. induction n as [|n IH]; intros k; simpl; [done|]. by rewrite IH. Qed.

Lemma token_chars_get (draw : nat -> nat) (k n i : nat) (c : ascii) :
  String.get i (token_chars draw k n) = Some c ->
  c = secrets_choice (draw (k + i)%nat).
Proof.
  revert k i. induction n as [|n IH]; intros k i; simpl; [done|].
  destruct i as [|i].
  - intros [= <-]. by rewrite Nat.add_0_r.
  - intros H%IH. rewrite H. f_equal. f_equal. lia.
Qed.

(** X4.  [gen_token] gives as many characters as it is asked for (none for
    a negative length), and each of them is one of the 62 letters and
    digits of the alphabet, whatever numbers are drawn. *)
Theorem gen_token_alphabet (draw : nat -> nat) (k : nat) (length : Z) :
  String.length (gen_token draw k length) = Z.to_nat length
  /\ String.length token_alphabet = 62%nat
  /\ (forall i c,
        String.get i (gen_token draw k length) = Some c ->
        exists j, (j < 62)%nat /\ String.get j token_alphabet = Some c).
Proof.
  unfold gen_token. split; [apply token_chars_length|]. split; [reflexivity|].
  intros i c ->%token_chars_get.
  exists (draw (k + i)%nat mod String.length token_alphabet)%nat.
  split; [|apply secrets_choice_in_alphabet].
  apply Nat.mod_upper_bound. by vm_compute.
Qed.

(** ** User names *)

(** The loop ends once [attempt] has passed [max_attempts]. *)
Lemma gen_unique_username_loop_ends (taken : gset string) (draw : nat -> nat)
    (email email_prefix : string) (max_attempts : Z) :
  forall (fuel : nat) (username : string) (attempt : Z) (k : nat),
    (0 < fuel)%nat ->
    (max_attempts - attempt + 2 <= Z.of_nat fuel)%Z ->
    gen_unique_username_loop fuel taken draw email email_prefix max_attempts
      username attempt k <> Unfinished.
Proof.
  induction fuel as [|fuel IH]; intros username attempt k Hpos Hle; [lia|].
  cbn [gen_unique_username_loop].
  destruct (if negb (truthy email) then _ else _) as [u1 k1].
  destruct (bool_decide (u1 ∉ taken)); [done|].
  destruct (if (max_attempts `div` 2 <? attempt)%Z then _ else _) as [u2 k2].
  destruct (max_attempts <? attempt)%Z eqn:Hlt; [done|].
  apply Z.ltb_ge in Hlt. apply IH; lia.
Qed.

(** A name that the loop returns is not taken. *)
Lemma gen_unique_username_loop_free (taken : gset string) (draw : nat -> nat)
    (email email_prefix : string) (max_attempts : Z) :
  forall (fuel : nat) (username : string) (attempt : Z) (k : nat) (u : string),
    gen_unique_username_loop fuel taken draw email email_prefix max_attempts
      username attempt k = Ok u ->
    u ∉ taken.
Proof.
  induction fuel as [|fuel IH]; intros username attempt k u; [done|].
  cbn [gen_unique_username_loop].
  destruct (if negb (truthy email) then _ else _) as [u1 k1].
  destruct (bool_decide (u1 ∉ taken)) eqn:Hfree.
  - intros [= <-]. by apply bool_decide_eq_true in Hfree.
  - destruct (if (max_attempts `div` 2 <? attempt)%Z then _ else _) as [u2 k2].
    destruct (max_attempts <? attempt)%Z; [done|]. apply IH.
Qed.

(** A name that the loop returns is a token of 16 characters when there is
    no e-mail address, and else the prefix or the prefix, an underscore and
    a token of four characters. *)
Lemma gen_unique_username_loop_shape (taken : gset string) (draw : nat -> nat)
    (email email_prefix : string) (max_attempts : Z) :
  forall (fuel : nat) (username : string) (attempt : Z) (k : nat) (u : string),
    gen_unique_username_loop fuel taken draw email email_prefix max_attempts
      username attempt k = Ok u ->
    if truthy email
    then u = email_prefix
         \/ exists k', u = email_prefix +:+ "_" +:+ gen_token draw k' 4
    else exists k', u = gen_token draw k' 16.
Proof.
  induction fuel as [|fuel IH]; intros username attempt k u; [done|].
  cbn [gen_unique_username_loop].
  destruct (truthy email) eqn:He; cbn [negb].
  - destruct (truthy username); cbn [negb].
    + destruct (bool_decide (_ ∉ taken)); [intros [= <-]; right; by eexists|].
      destruct (max_attempts `div` 2 <? attempt)%Z;
        (destruct (max_attempts <? attempt)%Z; [done|]);
        by intros H%IH.
    + destruct (bool_decide (_ ∉ taken)); [intros [= <-]; by left|].
      destruct (max_attempts `div` 2 <? attempt)%Z;
        (destruct (max_attempts <? attempt)%Z; [done|]);
        by intros H%IH.
  - destruct (bool_decide (_ ∉ taken)); [intros [= <-]; by eexists|].
    destruct (max_attempts `div` 2 <? attempt)%Z;
      (destruct (max_attempts <? attempt)%Z; [done|]);
      by intros H%IH.
Qed.

Lemma gen_unique_username_loop_code (taken : gset string) (draw : nat -> nat)
    (email email_prefix : string) (max_attempts : Z) :
  forall (fuel : nat) (username : string) (attempt : Z) (k : nat) (code : Z),
    gen_unique_username_loop fuel taken draw email email_prefix max_attempts
      username attempt k = Aborted code ->
    code = 500.
Proof.
  induction fuel as [|fuel IH]; intros username attempt k code; [done|].
  cbn [gen_unique_username_loop].
  destruct (if negb (truthy email) then _ else _) as [u1 k1].
  destruct (bool_decide (u1 ∉ taken)); [done|].
  destruct (if (max_attempts `div` 2 <? attempt)%Z then _ else _) as [u2 k2].
  destruct (max_attempts <? attempt)%Z; [by intros [= <-]|]. apply IH.
Qed.

(** X5.  [gen_unique_username] ends after at most [max_attempts + 2] tries:
    it returns a user name that no user has, or it aborts with 500. *)
Theorem gen_unique_username_ends (fuel : nat) (taken : gset string)
    (draw : nat -> nat) (email : string) (max_attempts : Z) :
  (0 < fuel)%nat ->
  (max_attempts + 2 <= Z.of_nat fuel)%Z ->
  (exists u, gen_unique_username fuel taken draw email max_attempts = Ok u
             /\ u ∉ taken)
  \/ gen_unique_username fuel taken draw email max_attempts = Aborted 500.
Proof.
  intros Hpos Hle. unfold gen_unique_username.
  pose proof (gen_unique_username_loop_ends taken draw email
                (email_prefix_of email) max_attempts fuel EmptyString 0 0%nat
                Hpos) as Hends.
  destruct (gen_unique_username_loop fuel taken draw email
              (email_prefix_of email) max_attempts EmptyString 0 0) as [u|code|]
    eqn:E.
  - left. exists u. split; [done|].
    by eapply gen_unique_username_loop_free.
  - right. f_equal. by eapply gen_unique_username_loop_code.
  - exfalso. apply Hends; [lia|done].
Qed.

Lemma gen_unique_username_ends_witness :
  (exists u,
      gen_unique_username 4 {[ "jane"; "jane_dkry" ]} ex_draw
        "jane@example.org" 2 = Ok u
      /\ u ∉ ({[ "jane"; "jane_dkry" ]} : gset string))
  \/ gen_unique_username 4 {[ "jane"; "jane_dkry" ]} ex_draw
       "jane@example.org" 2 = Aborted 500.
Proof.
  apply (gen_unique_username_ends 4 {[ "jane"; "jane_dkry" ]} ex_draw
           "jane@example.org" 2); lia.
Defined.

(** X6.  The user name that [gen_unique_username] returns for an e-mail
    address is the part before the at sign when no user has that name, and
    otherwise that part, an underscore and four characters of a token;
    without an address it is a token of 16 characters.  The token of 24
    characters that the loop assigns after half of the attempts is never
    the result.  For an address that starts with the at sign the part
    before it is empty, and an empty user name can be returned. *)
Theorem gen_unique_username_shape (fuel : nat) (taken : gset string)
    (draw : nat -> nat) (email : string) (max_attempts : Z) (u : string) :
  gen_unique_username fuel taken draw email max_attempts = Ok u ->
  (email = EmptyString /\ exists k, u = gen_token draw k 16)
  \/ (email <> EmptyString
      /\ (u = email_prefix_of email
          \/ exists k, u = email_prefix_of email +:+ "_" +:+ gen_token draw k 4)
      /\ (email_prefix_of email ∉ taken -> u = email_prefix_of email)).
Proof.
  intros H. pose proof H as Hshape.
  apply gen_unique_username_loop_shape in Hshape.
  destruct email as [|c email]; simpl in Hshape.
  - left. by split.
  - right. split; [done|]. split; [done|].
    intros Hfree. revert H. unfold gen_unique_username.
    destruct fuel as [|fuel]; [done|]. cbn [gen_unique_username_loop].
    cbn [truthy negb]. rewrite bool_decide_eq_true_2 by done.
    by intros [= <-].
Qed.

Lemma gen_unique_username_shape_witness :
  ("@example.org" = EmptyString
   /\ exists k, EmptyString = gen_token ex_draw k 16)
  \/ ("@example.org" <> EmptyString
      /\ (EmptyString = email_prefix_of "@example.org"
          \/ exists k, EmptyString
                       = email_prefix_of "@example.org" +:+ "_"
                         +:+ gen_token ex_draw k 4)
      /\ (email_prefix_of "@example.org" ∉ ({[ "jane" ]} : gset string) ->
          EmptyString = email_prefix_of "@example.org")).
Proof.
  apply (gen_unique_username_shape 1 {[ "jane" ]} ex_draw "@example.org" 1000
           EmptyString).
  vm_compute. reflexivity.
Defined.

(** ** Renaming a machine *)

Lemma first_by_None {A} (p : A -> bool) (tbl : gmap Z A) (k : Z) (a : A) :
  first_by p tbl = None -> tbl !! k = Some a -> p a = false.
Proof.
  intros Hnone Hk. destruct (p a) eqn:Hp; [|done].
  destruct (first_by_is_Some p tbl k a Hk Hp) as [x Hx]. congruence.
Qed.

Lemma contains_non_alphanumeric_chars_false (isalnum : Z -> bool)
    (s : string) :
  contains_non_alphanumeric_chars isalnum s = false ->
  forall c, c ∈ code_points s -> isalnum c = true \/ c = hyphen.
Proof.
  unfold contains_non_alphanumeric_chars. intros Hnone c Hin.
  apply list_elem_of_In in Hin.
  pose proof (existsb_exists
                (fun char => negb (isalnum char) && negb (char =? hyphen)%Z)
                (code_points s)) as [_ Hex].
  destruct (isalnum c) eqn:Ha; [by left|right].
  destruct (Z.eqb_spec c hyphen) as [->|Hne]; [done|].
  rewrite Hex in Hnone; [done|].
  exists c. split; [done|]. rewrite Ha. simpl.
  by apply negb_true_iff, Z.eqb_neq.
Qed.

(** [rename_machine] writes only by committing the new name to the machine
    it was given, and only when no machine has that name. *)
Lemma rename_machine_cases (isalnum : Z -> bool) (db : Db)
    (machine_id : FormInt) (new_name : string) :
  store (rename_machine isalnum db machine_id new_name) = db
  \/ exists k m,
       machine_id = FieldInt k
       /\ machines db !! k = Some m
       /\ (forall k' m', machines db !! k' = Some m' -> name m' <> new_name)
       /\ store (rename_machine isalnum db machine_id new_name)
          = commit_machine k (set_name new_name) db.
Proof.
  unfold rename_machine.
  destruct (negb (truthy new_name) || _); [by left|].
  destruct ((_ <=? 3)%Z || _); [by left|].
  destruct (contains_non_alphanumeric_chars isalnum new_name); [by left|].
  destruct machine_id as [| |k]; [by left..|].
  destruct (first_by _ (machines db)) as [x|] eqn:Hfirst; [by left|].
  destruct (machines db !! k) as [m|] eqn:Hm; [|by left].
  right. exists k, m. cbn [store]. repeat split; try done.
  intros k' m' Hk' Heq.
  pose proof (first_by_None _ _ k' m' Hfirst Hk') as Hp. simpl in Hp.
  by apply String.eqb_neq in Hp.
Qed.

(** X7.  [rename_machine] either leaves the store as it is, or it has found
    the machine, the new name has 4 to 80 characters, counted as Python
    counts them and not as bytes, each of them alphanumeric by
    [str.isalnum] or a hyphen, no machine had that name, and the only
    thing written is the name of that machine: its state, address, token,
    owner and the other machines are as before. *)
Theorem rename_machine_effect (isalnum : Z -> bool) (db : Db)
    (machine_id : FormInt) (new_name : string) :
  store (rename_machine isalnum db machine_id new_name) = db
  \/ exists k m,
       machine_id = FieldInt k
       /\ machines db !! k = Some m
       /\ (4 <= length (code_points new_name) <= 80)%nat
       /\ (forall c, c ∈ code_points new_name ->
                     isalnum c = true \/ c = hyphen)
       /\ (forall k' m', machines db !! k' = Some m' -> name m' <> new_name)
       /\ machines (store (rename_machine isalnum db machine_id new_name)) !! k
          = Some (set_name new_name m)
       /\ (forall k', k' <> k ->
             machines (store (rename_machine isalnum db machine_id new_name))
               !! k'
             = machines db !! k')
       /\ response (rename_machine isalnum db machine_id new_name)
          = redirect "machines".
Proof.
  unfold rename_machine, len.
  destruct (negb (truthy new_name) || _); [by left|].
  destruct ((_ <=? 3)%Z || _) eqn:Hlen; [by left|].
  destruct (contains_non_alphanumeric_chars isalnum new_name) eqn:Hc;
    [by left|].
  destruct machine_id as [| |k]; [by left..|].
  destruct (first_by _ (machines db)) as [x|] eqn:Hfirst; [by left|].
  destruct (machines db !! k) as [m|] eqn:Hm; [|by left].
  right. exists k, m. cbn [store response].
  apply orb_false_iff in Hlen as [H3 H80].
  split; [done|]. split; [done|]. split; [lia|].
  split; [by apply contains_non_alphanumeric_chars_false|].
  split.
  { intros k' m' Hk' Heq.
    pose proof (first_by_None _ _ k' m' Hfirst Hk') as Hp. simpl in Hp.
    apply String.eqb_neq in Hp. done. }
  split; [by rewrite lookup_commit_machine_eq, Hm|].
  split; [|done].
  intros k' Hne. rewrite lookup_commit_machine. by rewrite decide_False.
Qed.



Example rename_machine_example :
  name <$> machines
             (store (rename_machine ex_isalnum ex_ready_db (FieldInt 1)
                       "xray-lab-1")) !! 1
  = Some "xray-lab-1"
  /\ store (rename_machine ex_isalnum ex_ready_db (FieldInt 1) "lab")
     = ex_ready_db
  /\ store (rename_machine ex_isalnum ex_ready_db (FieldInt 1) "xray lab")
     = ex_ready_db
  /\ response (rename_machine ex_isalnum ex_ready_db (FieldInt 7)
                 "xray-lab-1")
     = Unhandled AttributeError.
Proof. repeat split; vm_compute; reflexivity. Qed.

(** The length is counted in characters: a name of 41 accented letters, 82
    bytes in UTF-8, is accepted. *)
Example rename_machine_accented :
  String.length ex_accented_name = 82%nat
  /\ len ex_accented_name = 41
  /\ name <$> machines
                (store (rename_machine ex_isalnum ex_ready_db (FieldInt 1)
                          ex_accented_name)) !! 1
     = Some ex_accented_name.
Proof. repeat split; vm_compute; reflexivity. Qed.

(** ** Sharing a machine *)

(** X9.  [share_accept] writes nothing but the list of users of the machine
    whose token it is given, and only by adding the requester at the end:
    the owner is not added, a user who is on the list is not added again,
    and a list without repetitions stays one. *)
Theorem share_accept_effect (db : Db) (current_user : User)
    (machine_token : string) (k : Z) (m : Machine) :
  machines db !! k = Some m ->
  exists su,
    machines (store (share_accept db current_user machine_token)) !! k
    = Some (set_shared_users su m)
    /\ (su = shared_users m
        \/ (su = app (shared_users m) [user_id current_user]
            /\ token m = machine_token
            /\ owner_id m <> Some (user_id current_user)
            /\ user_id current_user ∉ shared_users m))
    /\ (NoDup (shared_users m) -> NoDup su).
Proof.
  intros Hm. unfold share_accept.
  assert (Hsame : set_shared_users (shared_users m) m = m) by by destruct m.
  destruct (first_by _ (machines db)) as [[k' m']|] eqn:Hfirst.
  - apply first_by_Some in Hfirst as [Hk' Htok]. simpl in Htok.
    apply String.eqb_eq in Htok.
    unfold is_owner. case_bool_decide as Howner.
    { exists (shared_users m). simpl. by rewrite Hm, Hsame; auto. }
    case_bool_decide as Hin.
    { exists (shared_users m). simpl. by rewrite Hm, Hsame; auto. }
    cbn [store]. rewrite lookup_commit_machine.
    destruct (decide (k' = k)) as [->|Hne].
    + rewrite Hm in Hk'. injection Hk' as <-. rewrite Hm. simpl.
      eexists. split; [reflexivity|]. split; [by right|].
      intros Hnd. apply NoDup_app. split; [done|].
      split; [|apply NoDup_singleton].
      intros x Hx ->%list_elem_of_singleton. done.
    + exists (shared_users m). by rewrite Hm, Hsame; auto.
  - exists (shared_users m). simpl. by rewrite Hm, Hsame; auto.
Qed.

Lemma share_accept_effect_witness :
  exists su,
    machines (store (share_accept ex_ready_db ex_other "tokentokentoken1")) !! 1
    = Some (set_shared_users su ex_ready_machine)
    /\ (su = shared_users ex_ready_machine
        \/ (su = app (shared_users ex_ready_machine) [user_id ex_other]
            /\ token ex_ready_machine = "tokentokentoken1"
            /\ owner_id ex_ready_machine <> Some (user_id ex_other)
            /\ user_id ex_other ∉ shared_users ex_ready_machine))
    /\ (NoDup (shared_users ex_ready_machine) -> NoDup su).
Proof.
  apply (share_accept_effect ex_ready_db ex_other "tokentokentoken1" 1
           ex_ready_machine).
  vm_compute. reflexivity.
Defined.

(** For the owner, [share_revoke] commits the new token and the empty list
    of users to the machine. *)
Lemma share_revoke_by_owner (gettext_danger : string -> Answer string)
    (db : Db) (current_user : User) (k : Z) (m : Machine)
    (draw : nat -> nat) (n : nat) :
  machines db !! k = Some m ->
  owner_id m = Some (user_id current_user) ->
  store (share_revoke gettext_danger db current_user (FieldInt k) draw n)
  = commit_machine k
      (fun m => set_shared_users [] (set_token (gen_token draw n 16) m)) db.
Proof.
  intros Hm Howner. unfold share_revoke, is_owner. rewrite Hm.
  by rewrite bool_decide_eq_true_2 by done.
Qed.

(** X10.  [share_revoke] acts for the owner only.  For anybody else, an
    administrator too, the store stays as it is, and the answer is the
    redirect to the machines page only if the call of [gettext] with its
    second positional argument returns: when that call raises, nothing
    handles the exception.  For the owner the answer is the redirect, the
    machine gets a new token of 16 characters and an empty list of users
    and keeps its state and address, and the other machines are as
    before. *)
Theorem share_revoke_effect (gettext_danger : string -> Answer string)
    (db : Db) (current_user : User) (k : Z) (m : Machine)
    (draw : nat -> nat) (n : nat) :
  machines db !! k = Some m ->
  (owner_id m <> Some (user_id current_user) ->
   store (share_revoke gettext_danger db current_user (FieldInt k) draw n) = db
   /\ response (share_revoke gettext_danger db current_user (FieldInt k) draw n)
      = match gettext_danger
                "You can't revoke shares on a machine you don't own." with
        | Returns _ => redirect "machines"
        | Raises e => Unhandled e
        end)
  /\ (owner_id m = Some (user_id current_user) ->
      response (share_revoke gettext_danger db current_user (FieldInt k) draw n)
      = redirect "machines"
      /\ machines
           (store (share_revoke gettext_danger db current_user (FieldInt k)
                     draw n)) !! k
         = Some (set_shared_users [] (set_token (gen_token draw n 16) m))
      /\ String.length (gen_token draw n 16) = 16%nat
      /\ (forall k', k' <> k ->
            machines
              (store (share_revoke gettext_danger db current_user (FieldInt k)
                        draw n)) !! k'
            = machines db !! k')).
Proof.
  intros Hm. unfold share_revoke, is_owner. rewrite Hm.
  case_bool_decide as Howner; cbn [negb].
  - split; [done|]. intros _. cbn [store response].
    split; [done|]. split; [by rewrite lookup_commit_machine_eq, Hm|].
    split; [apply token_chars_length|].
    intros k' Hne. rewrite lookup_commit_machine. by rewrite decide_False.
  - split; [|done]. intros _.
    by destruct (gettext_danger _).
Qed.

Lemma share_revoke_effect_witness :
  (owner_id (set_shared_users [3] ex_ready_machine)
   <> Some (user_id ex_admin) ->
   store (share_revoke (fun _ => Raises TypeError) ex_shared_db ex_admin
            (FieldInt 1) ex_draw 0)
   = ex_shared_db
   /\ response (share_revoke (fun _ => Raises TypeError) ex_shared_db ex_admin
                  (FieldInt 1) ex_draw 0)
      = Unhandled TypeError)
  /\ (owner_id (set_shared_users [3] ex_ready_machine)
      = Some (user_id ex_admin) ->
      response (share_revoke (fun _ => Raises TypeError) ex_shared_db ex_admin
                  (FieldInt 1) ex_draw 0)
      = redirect "machines"
      /\ machines
           (store (share_revoke (fun _ => Raises TypeError) ex_shared_db
                     ex_admin (FieldInt 1) ex_draw 0)) !! 1
         = Some (set_shared_users []
                   (set_token (gen_token ex_draw 0 16)
                      (set_shared_users [3] ex_ready_machine)))
      /\ String.length (gen_token ex_draw 0 16) = 16%nat
      /\ (forall k', k' <> 1 ->
            machines
              (store (share_revoke (fun _ => Raises TypeError) ex_shared_db
                        ex_admin (FieldInt 1) ex_draw 0)) !! k'
            = machines ex_shared_db !! k')).
Proof.
  apply (share_revoke_effect (fun _ => Raises TypeError) ex_shared_db ex_admin
           1 (set_shared_users [3] ex_ready_machine) ex_draw 0).
  vm_compute. reflexivity.
Defined.

(** The administrator asks to revoke the shares of a machine of another
    user, and [gettext] raises on its second positional argument: the
    request ends with that exception, and the store is as before. *)
Example share_revoke_by_other_user :
  response (share_revoke (fun _ => Raises TypeError) ex_shared_db ex_admin
              (FieldInt 1) ex_draw 0)
  = Unhandled TypeError
  /\ store (share_revoke (fun _ => Raises TypeError) ex_shared_db ex_admin
              (FieldInt 1) ex_draw 0)
     = ex_shared_db.
Proof. split; vm_compute; reflexivity. Qed.

(** X11.  Once the owner has revoked the shares of a machine, its old share
    link is dead: when the new token differs from the old one and no other
    machine has the old token, [share_accept] with the old token answers
    [abort(404)] and writes nothing. *)
Theorem share_revoke_kills_link (gettext_danger : string -> Answer string)
    (db : Db) (owner other : User) (k : Z) (m : Machine)
    (draw : nat -> nat) (n : nat) :
  machines db !! k = Some m ->
  owner_id m = Some (user_id owner) ->
  gen_token draw n 16 <> token m ->
  (forall k' m', k' <> k -> machines db !! k' = Some m' -> token m' <> token m) ->
  response (share_accept
              (store (share_revoke gettext_danger db owner (FieldInt k)
                        draw n))
              other (token m))
  = abort 404
  /\ store (share_accept
              (store (share_revoke gettext_danger db owner (FieldInt k)
                        draw n))
              other (token m))
     = store (share_revoke gettext_danger db owner (FieldInt k) draw n).
Proof.
  intros Hm Howner Hnew Hothers.
  rewrite (share_revoke_by_owner gettext_danger db owner k m draw n Hm Howner).
  set (db1 := commit_machine k _ db).
  assert (Hk : machines db1 !! k
               = Some (set_shared_users []
                         (set_token (gen_token draw n 16) m)))
    by (unfold db1; by rewrite lookup_commit_machine_eq, Hm).
  assert (Hrest : forall k', k' <> k -> machines db1 !! k' = machines db !! k').
  { intros k' Hne. unfold db1. rewrite lookup_commit_machine.
    by rewrite decide_False. }
  unfold share_accept.
  destruct (first_by _ (machines db1)) as [[k' m']|] eqn:Hfirst; [|done].
  exfalso. apply first_by_Some in Hfirst as [Hk' Htok]. simpl in Htok.
  apply String.eqb_eq in Htok.
  destruct (decide (k' = k)) as [->|Hne].
  - rewrite Hk in Hk'. injection Hk' as <-. simpl in Htok. done.
  - rewrite (Hrest k' Hne) in Hk'. by apply (Hothers k' m' Hne Hk').
Qed.

Lemma share_revoke_kills_link_witness :
  response (share_accept
              (store (share_revoke (fun _ => Raises TypeError) ex_shared_db
                        ex_owner (FieldInt 1) ex_draw 0))
              ex_other (token (set_shared_users [3] ex_ready_machine)))
  = abort 404
  /\ store (share_accept
              (store (share_revoke (fun _ => Raises TypeError) ex_shared_db
                        ex_owner (FieldInt 1) ex_draw 0))
              ex_other (token (set_shared_users [3] ex_ready_machine)))
     = store (share_revoke (fun _ => Raises TypeError) ex_shared_db ex_owner
                (FieldInt 1) ex_draw 0).
Proof.
  apply (share_revoke_kills_link (fun _ => Raises TypeError) ex_shared_db
           ex_owner ex_other 1 (set_shared_users [3] ex_ready_machine)
           ex_draw 0).
  - vm_compute. reflexivity.
  - reflexivity.
  - vm_compute. discriminate.
  - assert (Hdb : machines ex_shared_db
                  = {[ 1 := set_shared_users [3] ex_ready_machine ]})
      by (vm_compute; reflexivity).
    intros k' m' Hne. rewrite Hdb.
    intros [Heq _]%lookup_singleton_Some. by destruct Hne.
Defined.

(** ** The data page *)

Lemma elem_of_keys_where {A} (p : A -> bool) (tbl : gmap Z A) (k : Z) :
  k ∈ keys_where p tbl <-> exists a, tbl !! k = Some a /\ p a = true.
Proof.
  unfold keys_where. rewrite list_elem_of_fmap. split.
  - intros ([k' a] & -> & [Hp Hin]%list_elem_of_filter).
    apply elem_of_map_to_list in Hin. by exists a.
  - intros (a & Hk & Hp). exists (k, a). split; [done|].
    apply list_elem_of_filter. split; [done|]. by apply elem_of_map_to_list.
Qed.

(** The machines on offer in the form: READY and usable by the user. *)
Lemma elem_of_machine_choices (db : Db) (u : User) (k : Z) :
  k ∈ machine_choices db u
  <-> exists m, machines db !! k = Some m
                /\ state m = MachineState.READY /\ may_use_machine u m.
Proof.
  unfold machine_choices, data_page_machines, may_use_machine.
  rewrite list_elem_of_filter. destruct (is_admin u).
  - rewrite elem_of_keys_where. split.
    + intros [_ (m & Hm & Hst%bool_decide_eq_true)]. exists m. auto.
    + intros (m & Hm & Hst & _). rewrite Hm. split; [by rewrite <- Hst|].
      exists m. split; [done|]. by apply bool_decide_eq_true.
  - rewrite elem_of_app, !elem_of_keys_where. unfold is_owner. split.
    + intros [Hst [(m & Hm & Ho%bool_decide_eq_true)
                  |(m & Hm & Hs%bool_decide_eq_true)]];
        rewrite Hm in Hst; injection Hst as Hst; exists m; auto.
    + intros (m & Hm & Hst & [?|[Ho|Hs]]); [done| |];
        (rewrite Hm; split; [by rewrite <- Hst|]).
      * left. exists m. split; [done|]. by apply bool_decide_eq_true.
      * right. exists m. split; [done|]. by apply bool_decide_eq_true.
Qed.

Lemma elem_of_data_page_machines (db : Db) (u : User) (k : Z) (m : Machine) :
  machines db !! k = Some m ->
  state m = MachineState.READY -> may_use_machine u m ->
  k ∈ data_page_machines db u.
Proof.
  intros Hm Hst Huse.
  assert (k ∈ machine_choices db u) as Hin.
  { apply elem_of_machine_choices. by exists m. }
  unfold machine_choices in Hin. by apply list_elem_of_filter in Hin as [_ ?].
Qed.

(** The data sources on offer: existing and usable by the user. *)
Lemma elem_of_data_page_sources (db : Db) (u : User) (k : Z) :
  k ∈ data_page_sources db u
  <-> is_Some (data_sources db !! k) /\ may_use_source u k.
Proof.
  unfold data_page_sources, may_use_source. destruct (is_admin u).
  - rewrite elem_of_keys_where. split.
    + intros (a & Ha & _). split; [by eexists|by left].
    + intros [[a Ha] _]. by exists a.
  - rewrite list_elem_of_filter. split.
    + intros [Hs Hin]. split; [done|by right].
    + intros [Hs [?|Hin]]; done.
Qed.

(** X15.  [data] starts a copy exactly when the form library accepts the
    CSRF token, both select fields hold integers other than 0 (the key 0 is
    refused by [DataRequired]), the machine that was chosen is READY and
    the user may use it, and the data source exists and the user may use
    it: then one RUNNING job of the user is stored under a fresh key, with
    the clock reading as creation and finish date, and one copy thread is
    started for it; in every other case nothing is stored and nothing is
    started.  The answer is a redirect to the data page in both cases: the
    branches that abort with 404 and 403 are never taken. *)
Theorem data_post_effect (db : Db) (u : User) (csrf_ok : bool)
    (ds m : option Z) (now : datetime) :
  response (data_post db u csrf_ok ds m now) = redirect "data"
  /\ ((csrf_ok = true
       /\ exists ds_id m_id machine,
            ds = Some ds_id /\ m = Some m_id
            /\ ds_id <> 0 /\ m_id <> 0
            /\ machines db !! m_id = Some machine
            /\ state machine = MachineState.READY
            /\ may_use_machine u machine
            /\ is_Some (data_sources db !! ds_id)
            /\ may_use_source u ds_id)
       -> exists ds_id m_id,
            ds = Some ds_id /\ m = Some m_id
            /\ data_transfer_jobs db !! next_id (data_transfer_jobs db) = None
            /\ store (data_post db u csrf_ok ds m now)
               = with_jobs
                   (<[next_id (data_transfer_jobs db) :=
                        {| job_state := DataTransferJobState.RUNNING;
                           job_user_id := Some (user_id u);
                           data_source_id := Some ds_id;
                           machine_id := Some m_id;
                           creation_date := now;
                           finish_date := Some now |}]>
                      (data_transfer_jobs db)) db
            /\ started (data_post db u csrf_ok ds m now)
               = [start_data_transfer_thread (next_id (data_transfer_jobs db))])
  /\ (~ (csrf_ok = true
         /\ exists ds_id m_id machine,
              ds = Some ds_id /\ m = Some m_id
              /\ ds_id <> 0 /\ m_id <> 0
              /\ machines db !! m_id = Some machine
              /\ state machine = MachineState.READY
              /\ may_use_machine u machine
              /\ is_Some (data_sources db !! ds_id)
              /\ may_use_source u ds_id)
       -> store (data_post db u csrf_ok ds m now) = db
          /\ started (data_post db u csrf_ok ds m now) = []).
Proof.
  unfold data_post, DataRequired.
  destruct ds as [ds_id|], m as [m_id|];
    try (split; [done|]; split; [by intros (_ & ? & ? & ? & ? & ? & _)|done]).
  destruct csrf_ok; cbn [andb];
    [|split; [done|]; split; [by intros [? _]|done]].
  case_bool_decide as Hvalid; cbn [andb].
  - destruct (Z.eqb_spec ds_id 0) as [Hds0|Hds0]; cbn [negb andb].
    { split; [done|]. split; [|done].
      by intros (_ & ? & ? & ? & [= <-] & _ & ? & _). }
    destruct (Z.eqb_spec m_id 0) as [Hm0|Hm0]; cbn [negb].
    { split; [done|]. split; [|done].
      by intros (_ & ? & ? & ? & _ & [= <-] & _ & ? & _). }
    destruct Hvalid as [Hds Hm].
    pose proof Hds as [[src Hsrc] Huse_s]%elem_of_data_page_sources.
    pose proof Hm as (machine & Hmachine & Hst & Huse_m)%elem_of_machine_choices.
    rewrite Hmachine, Hsrc.
    rewrite bool_decide_eq_true_2.
    2:{ split; [|done]. by eapply elem_of_data_page_machines. }
    split; [done|]. split.
    + intros _. exists ds_id, m_id. split; [done|]. split; [done|].
      split; [apply next_id_fresh|]. by split.
    + intros Hnot. destruct Hnot. split; [done|].
      exists ds_id, m_id, machine. repeat split; eauto.
  - split; [done|]. split; [|done].
    intros (_ & ds' & m' & machine & [= <-] & [= <-] & _ & _ & Hmachine & Hst
            & Huse_m & Hsrc & Huse_s).
    destruct Hvalid. split.
    + by apply elem_of_data_page_sources.
    + apply elem_of_machine_choices. by exists machine.
Qed.

Lemma elem_of_machine_format_dtj (db : Db) (machine : Z) (s : string) :
  s ∈ machine_format_dtj db machine
  <-> exists k j src,
        data_transfer_jobs db !! k = Some j
        /\ machine_id j = Some machine
        /\ job_state j = DataTransferJobState.DONE
        /\ (data_source_id j ≫= fun d => data_sources db !! d) = Some src
        /\ s = source_text src.
Proof.
  unfold machine_format_dtj. rewrite elem_of_list_to_set, list_elem_of_omap.
  unfold format_dtj, source_text. split.
  - intros ([k j] & Hin%elem_of_map_to_list & Hf). simpl in Hf.
    case_bool_decide as Hc; [|done]. destruct Hc as [Hm Hst].
    destruct (data_source_id j ≫= _) as [src|] eqn:Hsrc; [|done].
    simpl in Hf. injection Hf as <-. by exists k, j, src.
  - intros (k & j & src & Hj & Hm & Hst & Hsrc & ->).
    exists (k, j). split; [by apply elem_of_map_to_list|]. simpl.
    rewrite bool_decide_eq_true_2 by done. by rewrite Hsrc.
Qed.

(** X12.  The data sources that [machine_format_dtj] lists for a machine
    are those of the DONE jobs of that machine: a job that is RUNNING,
    FAILED or HIDDEN, a job of another machine, and a job whose data source
    is gone contribute nothing. *)
Theorem machine_format_dtj_done_only (db : Db) (machine : Z) (s : string) :
  s ∈ machine_format_dtj db machine
  <-> exists k j src,
        data_transfer_jobs db !! k = Some j
        /\ machine_id j = Some machine
        /\ job_state j = DataTransferJobState.DONE
        /\ (data_source_id j ≫= fun d => data_sources db !! d) = Some src
        /\ s = source_host src +:+ ":" +:+ source_dir src.
Proof. apply elem_of_machine_format_dtj. Qed.

(** What the copy thread does to the store when the rows that the job
    refers to are there. *)
Lemma start_data_transfer_runs (run : string -> bool) (now : datetime)
    (db : Db) (k : Z) (j : DataTransferJob) (src : DataSource) (m : Machine) :
  data_transfer_jobs db !! k = Some j ->
  (data_source_id j ≫= fun d => data_sources db !! d) = Some src ->
  (machine_id j ≫= fun i => machines db !! i) = Some m ->
  start_data_transfer run now db k
  = Some (with_jobs
            (<[k := set_job_state
                      (if do_rsync run ("dv@" +:+ source_host src)
                            (source_dir src) ("ubuntu@" +:+ ip m) EmptyString
                       then DataTransferJobState.DONE
                       else DataTransferJobState.FAILED) j]>
               (data_transfer_jobs db)) db).
Proof.
  intros Hj Hsrc Hm. unfold start_data_transfer.
  rewrite Hj. simpl. rewrite Hsrc. simpl. rewrite Hm. simpl.
  by destruct (do_rsync _ _ _ _ _).
Qed.

(** X16.  The copy thread of a job whose data source and machine exist ends
    with the job DONE when the remote command returns and FAILED when it
    raises; it writes nothing else: the other jobs, the other fields of the
    job and the machines are as before. *)
Theorem start_data_transfer_outcome (run : string -> bool) (now : datetime)
    (db : Db) (k : Z) (j : DataTransferJob) (src : DataSource) (m : Machine) :
  data_transfer_jobs db !! k = Some j ->
  (data_source_id j ≫= fun d => data_sources db !! d) = Some src ->
  (machine_id j ≫= fun i => machines db !! i) = Some m ->
  exists db',
    start_data_transfer run now db k = Some db'
    /\ data_transfer_jobs db' !! k
       = Some (set_job_state
                 (if do_rsync run ("dv@" +:+ source_host src) (source_dir src)
                       ("ubuntu@" +:+ ip m) EmptyString
                  then DataTransferJobState.DONE
                  else DataTransferJobState.FAILED) j)
    /\ (forall k', k' <> k ->
          data_transfer_jobs db' !! k' = data_transfer_jobs db !! k')
    /\ machines db' = machines db
    /\ data_sources db' = data_sources db.
Proof.
  intros Hj Hsrc Hm. eexists.
  split; [by eapply start_data_transfer_runs|]. simpl.
  split; [by rewrite lookup_insert_eq|].
  split; [|done]. intros k' Hne. by rewrite lookup_insert_ne.
Qed.

Lemma start_data_transfer_outcome_witness :
  exists db',
    start_data_transfer (fun _ => true) ex_later ex_db_with_job 1 = Some db'
    /\ data_transfer_jobs db' !! 1
       = Some (set_job_state
                 (if do_rsync (fun _ => true) ("dv@" +:+ source_host ex_source)
                       (source_dir ex_source)
                       ("ubuntu@" +:+ ip ex_ready_machine) EmptyString
                  then DataTransferJobState.DONE
                  else DataTransferJobState.FAILED) ex_job)
    /\ (forall k', k' <> 1 ->
          data_transfer_jobs db' !! k' = data_transfer_jobs ex_db_with_job !! k')
    /\ machines db' = machines ex_db_with_job
    /\ data_sources db' = data_sources ex_db_with_job.
Proof.
  apply (start_data_transfer_outcome (fun _ => true) ex_later ex_db_with_job 1
           ex_job ex_source ex_ready_machine); vm_compute; reflexivity.
Defined.

(** X13.  When the copy thread of a job ends with success, the data source
    of the job is among those that [machine_format_dtj] lists for the
    machine of the job. *)
Theorem start_data_transfer_listed (run : string -> bool) (now : datetime)
    (db : Db) (k machine : Z) (j : DataTransferJob) (src : DataSource)
    (m : Machine) :
  data_transfer_jobs db !! k = Some j ->
  (data_source_id j ≫= fun d => data_sources db !! d) = Some src ->
  machine_id j = Some machine ->
  machines db !! machine = Some m ->
  do_rsync run ("dv@" +:+ source_host src) (source_dir src)
    ("ubuntu@" +:+ ip m) EmptyString = true ->
  exists db',
    start_data_transfer run now db k = Some db'
    /\ source_host src +:+ ":" +:+ source_dir src
       ∈ machine_format_dtj db' machine.
Proof.
  intros Hj Hsrc Hmid Hm Hrun. eexists. split.
  - eapply start_data_transfer_runs; [done..|]. by rewrite Hmid.
  - rewrite Hrun. apply elem_of_machine_format_dtj.
    exists k, (set_job_state DataTransferJobState.DONE j), src.
    simpl. by rewrite lookup_insert_eq.
Qed.

Lemma start_data_transfer_listed_witness :
  exists db',
    start_data_transfer (fun _ => true) ex_later ex_db_with_job 1 = Some db'
    /\ source_host ex_source +:+ ":" +:+ source_dir ex_source
       ∈ machine_format_dtj db' 1.
Proof.
  apply (start_data_transfer_listed (fun _ => true) ex_later ex_db_with_job
           1 1 ex_job ex_source ex_ready_machine); vm_compute; reflexivity.
Defined.

(** The jobs on the data page. *)
Lemma elem_of_sorted_jobs (db : Db) (u : User) (k : Z) (j : DataTransferJob) :
  (k, j) ∈ sorted_jobs db u
  <-> data_transfer_jobs db !! k = Some j
      /\ job_user_id j = Some (user_id u)
      /\ job_state j <> DataTransferJobState.HIDDEN.
Proof.
  unfold sorted_jobs. rewrite merge_sort_Permutation, list_elem_of_filter.
  rewrite elem_of_map_to_list. simpl. tauto.
Qed.

#[local] Instance desc_id_total : Total desc_id.
Proof. intros a b. unfold desc_id. lia. Qed.

#[local] Instance desc_id_trans : Transitive desc_id.
Proof. intros a b c. unfold desc_id. lia. Qed.

(** X14.  The job list of the data page holds exactly the jobs of the user
    that are not HIDDEN, each once, the one with the greater key first. *)
Theorem sorted_jobs_listing (db : Db) (u : User) :
  (forall k j,
      (k, j) ∈ sorted_jobs db u
      <-> data_transfer_jobs db !! k = Some j
          /\ job_user_id j = Some (user_id u)
          /\ job_state j <> DataTransferJobState.HIDDEN)
  /\ (forall a b i1 i2,
        sorted_jobs db u !! i1 = Some a -> sorted_jobs db u !! i2 = Some b ->
        (i1 < i2)%nat -> (b.1 < a.1)%Z).
Proof.
  split; [intros k j; apply elem_of_sorted_jobs|].
  assert (Hsorted : StronglySorted desc_id (sorted_jobs db u)).
  { unfold sorted_jobs. apply StronglySorted_merge_sort; apply _. }
  assert (Hnodup : NoDup (sorted_jobs db u).*1).
  { unfold sorted_jobs. rewrite merge_sort_Permutation.
    eapply NoDup_fmap_fst.
    - intros k j1 j2 [_ H1%elem_of_map_to_list]%list_elem_of_filter
                      [_ H2%elem_of_map_to_list]%list_elem_of_filter.
      congruence.
    - apply NoDup_filter, NoDup_map_to_list. }
  revert Hsorted Hnodup. generalize (sorted_jobs db u). intros l Hs Hnd.
  intros a b i1 i2 H1 H2 Hlt.
  assert (a.1 <> b.1) as Hne.
  { intros Heq. apply NoDup_alt with (i := i1) (j := i2) (x := a.1) in Hnd;
      [lia| |]; rewrite list_lookup_fmap; [by rewrite H1|by rewrite H2, Heq]. }
  enough (desc_id a b) by (unfold desc_id in *; lia).
  revert i1 i2 H1 H2 Hlt. clear Hnd Hne.
  induction Hs as [|x l Hs IH Hall]; intros i1 i2 H1 H2 Hlt; [done|].
  destruct i1 as [|i1], i2 as [|i2]; try lia; simpl in *.
  - injection H1 as <-. rewrite Forall_forall in Hall.
    apply Hall. by eapply list_elem_of_lookup_2.
  - eapply IH; [done..|lia].
Qed.

(** ** Dismissing and finishing a job *)

(** X17.  Dismissing a job does not stop its copy thread, and the thread
    does not look at the state it overwrites: a job that was dismissed
    while RUNNING is HIDDEN only until the thread ends; then it is DONE or
    FAILED and back on the data page of its user. *)
Theorem dismiss_then_copy_ends (run : string -> bool) (now : datetime)
    (db : Db) (requester u : User) (k : Z) (j : DataTransferJob)
    (src : DataSource) (m : Machine) :
  data_transfer_jobs db !! k = Some j ->
  (data_source_id j ≫= fun d => data_sources db !! d) = Some src ->
  (machine_id j ≫= fun i => machines db !! i) = Some m ->
  job_user_id j = Some (user_id u) ->
  job_state <$>
    data_transfer_jobs
      (store (dismiss_datatransferjob db requester (FieldInt k))) !! k
  = Some DataTransferJobState.HIDDEN
  /\ exists db' j',
       start_data_transfer run now
         (store (dismiss_datatransferjob db requester (FieldInt k))) k
       = Some db'
       /\ (k, j') ∈ sorted_jobs db' u
       /\ (job_state j' = DataTransferJobState.DONE
           \/ job_state j' = DataTransferJobState.FAILED).
Proof.
  intros Hj Hsrc Hm Hu. unfold dismiss_datatransferjob. rewrite Hj.
  cbn [store]. rewrite lookup_commit_job, decide_True, Hj by done.
  split; [done|].
  eexists _, _. split.
  - eapply (start_data_transfer_runs run now _ k
              (set_job_state DataTransferJobState.HIDDEN j) src m).
    + by rewrite lookup_commit_job, decide_True, Hj.
    + done.
    + done.
  - split.
    + apply elem_of_sorted_jobs. simpl. rewrite lookup_insert_eq.
      split; [reflexivity|]. split; [done|]. simpl.
      by destruct (do_rsync _ _ _ _ _).
    + simpl. destruct (do_rsync _ _ _ _ _); auto.
Qed.

Lemma dismiss_then_copy_ends_witness :
  job_state <$>
    data_transfer_jobs
      (store (dismiss_datatransferjob ex_db_with_job ex_owner (FieldInt 1))) !! 1
  = Some DataTransferJobState.HIDDEN
  /\ exists db' j',
       start_data_transfer (fun _ => false) ex_later
         (store (dismiss_datatransferjob ex_db_with_job ex_owner (FieldInt 1))) 1
       = Some db'
       /\ (1, j') ∈ sorted_jobs db' ex_owner
       /\ (job_state j' = DataTransferJobState.DONE
           \/ job_state j' = DataTransferJobState.FAILED).
Proof.
  apply (dismiss_then_copy_ends (fun _ => false) ex_later ex_db_with_job
           ex_owner ex_owner 1 ex_job ex_source ex_ready_machine);
    vm_compute; reflexivity.
Defined.

(** X18.  Dismissing a job a second time changes nothing, whoever asks; and
    dismissing writes only the state of the one job: the machines, the
    other jobs and the other fields of the job are as before. *)
Theorem dismiss_idempotent (db : Db) (u u' : User) (job_id : FormInt) :
  store (dismiss_datatransferjob
           (store (dismiss_datatransferjob db u job_id)) u' job_id)
  = store (dismiss_datatransferjob db u job_id)
  /\ machines (store (dismiss_datatransferjob db u job_id)) = machines db
  /\ (forall k j,
        job_id = FieldInt k ->
        data_transfer_jobs db !! k = Some j ->
        data_transfer_jobs (store (dismiss_datatransferjob db u job_id)) !! k
        = Some (set_job_state DataTransferJobState.HIDDEN j))
  /\ (forall k j,
        job_id <> FieldInt k ->
        data_transfer_jobs db !! k = Some j ->
        data_transfer_jobs (store (dismiss_datatransferjob db u job_id)) !! k
        = Some j).
Proof.
  unfold dismiss_datatransferjob.
  destruct job_id as [| |k]; [by repeat split..|].
  destruct (data_transfer_jobs db !! k) as [j|] eqn:Hj; cbn [store].
  - rewrite lookup_commit_job, decide_True, Hj by done.
    cbn [store fmap option_fmap option_map].
    split; [|split; [done|split]].
    + unfold commit_job, with_jobs. simpl. f_equal.
      apply map_eq. intros i. rewrite !lookup_alter.
      destruct (decide (k = i)) as [->|]; [|done].
      rewrite decide_True by done.
      destruct (data_transfer_jobs db !! i); reflexivity.
    + intros k' j' [= <-] Hk'. by rewrite lookup_commit_job, decide_True, Hk'.
    + intros k' j' Hne Hk'. rewrite lookup_commit_job, decide_False; [done|].
      congruence.
  - rewrite Hj. split; [done|]. split; [done|]. split.
    + intros k' j' [= <-]. congruence.
    + done.
Qed.

(** ** Creating and stopping a machine *)

Lemma first_by_none_of {A} (p : A -> bool) (tbl : gmap Z A) :
  (forall k a, tbl !! k = Some a -> p a = false) -> first_by p tbl = None.
Proof.
  intros Hall. destruct (first_by p tbl) as [[k a]|] eqn:E; [|done].
  apply first_by_Some in E as [Hk Hp]. rewrite (Hall k a Hk) in Hp. done.
Qed.

(** X19.  [new_machine] never touches a row that exists: the machines that
    are in the store are there unchanged afterwards, and so are the jobs
    and the templates.  When no template has the name that was asked for,
    nothing is stored and nothing is started, and the answer is
    [abort(404)]. *)
Theorem new_machine_frame (db : Db) (u : User) (template_name : string)
    (now : datetime) (tok : string) :
  (forall k m, machines db !! k = Some m ->
               machines (store (new_machine db u template_name now tok)) !! k
               = Some m)
  /\ data_transfer_jobs (store (new_machine db u template_name now tok))
     = data_transfer_jobs db
  /\ machine_templates (store (new_machine db u template_name now tok))
     = machine_templates db
  /\ ((forall k mt, machine_templates db !! k = Some mt ->
                    mt_name mt <> template_name) ->
      store (new_machine db u template_name now tok) = db
      /\ started (new_machine db u template_name now tok) = []
      /\ (valid_datetime now ->
          response (new_machine db u template_name now tok) = abort 404)).
Proof.
  unfold new_machine.
  destruct (mk_safe_machine_name (username u) now) as [machine_name| |]
    eqn:Hname.
  - destruct (first_by _ (machine_templates db)) as [[mt_id mt]|] eqn:Hfirst;
      cbn [store started response].
    + split.
      { intros k m Hk. simpl. rewrite lookup_insert_ne; [done|].
        intros <-. by rewrite next_id_fresh in Hk. }
      split; [done|]. split; [done|].
      intros Hnone. apply first_by_Some in Hfirst as [Hmt Hp].
      apply String.eqb_eq in Hp. by destruct (Hnone mt_id mt Hmt).
    + by repeat split.
  - cbn [store started response]. repeat split; try done.
    intros Hvalid. unfold mk_safe_machine_name in Hname.
    by rewrite encode_date_time_valid in Hname.
  - cbn [store started response]. repeat split; try done.
    intros Hvalid. unfold mk_safe_machine_name in Hname.
    by rewrite encode_date_time_valid in Hname.
Qed.

Lemma start_thread_for_unknown (type : string) (m_id : Z) :
  ~ known_type type -> start_thread_for type m_id = [].
Proof.
  unfold known_type, start_thread_for. intros Hty.
  destruct (String.eqb_spec type "docker"); [tauto|].
  destruct (String.eqb_spec type "libvirt"); [tauto|].
  destruct (String.eqb_spec type "openstack"); [tauto|done].
Qed.

(** X20.  For a template whose type is none of docker, libvirt and
    openstack, [new_machine] answers as for any other: it stores the
    PROVISIONING row and redirects to the machines page; but it starts no
    thread for the machine. *)
Theorem new_machine_unknown_type (db : Db) (u : User) (template_name : string)
    (now : datetime) (tok : string) (t : Z) (mt : MachineTemplate) :
  valid_datetime now ->
  machine_templates db !! t = Some mt ->
  mt_name mt = template_name ->
  (forall k mt', machine_templates db !! k = Some mt' ->
                 mt_name mt' = template_name -> ~ known_type (mt_type mt')) ->
  response (new_machine db u template_name now tok) = redirect "machines"
  /\ started (new_machine db u template_name now tok) = []
  /\ state <$> machines (store (new_machine db u template_name now tok))
                 !! next_id (machines db)
     = Some MachineState.PROVISIONING.
Proof.
  intros Hvalid Ht Hname Hunknown. unfold new_machine, mk_safe_machine_name.
  rewrite encode_date_time_valid by done. simpl.
  destruct (first_by _ (machine_templates db)) as [[mt_id mt']|] eqn:Hfirst.
  - apply first_by_Some in Hfirst as [Hmt' Hp]. apply String.eqb_eq in Hp.
    cbn [response started store]. split; [done|].
    split; [by eapply start_thread_for_unknown, Hunknown|].
    simpl. by rewrite lookup_insert_eq.
  - assert (is_Some (first_by
                       (fun mt => String.eqb (mt_name mt) template_name)
                       (machine_templates db))) as [x Hx].
    { eapply first_by_is_Some; [exact Ht|]. by apply String.eqb_eq. }
    congruence.
Qed.

Lemma new_machine_unknown_type_witness :
  response (new_machine ex_podman_db ex_owner "Podman template" ex_time
              "tokentokentoken4")
  = redirect "machines"
  /\ started (new_machine ex_podman_db ex_owner "Podman template" ex_time
                "tokentokentoken4") = []
  /\ state <$> machines (store (new_machine ex_podman_db ex_owner
                                  "Podman template" ex_time
                                  "tokentokentoken4"))
                 !! next_id (machines ex_podman_db)
     = Some MachineState.PROVISIONING.
Proof.
  apply (new_machine_unknown_type ex_podman_db ex_owner "Podman template"
           ex_time "tokentokentoken4" 1
           {| mt_name := "Podman template"; mt_type := "podman";
              image := "workspace"; memory_limit_gb := Some 16;
              cpu_limit_cores := Some 4; machine_provider_id := 1;
              extra_data := None |}).
  - unfold valid_datetime. simpl. lia.
  - vm_compute. reflexivity.
  - reflexivity.
  - intros k mt'. simpl. intros [<- <-]%lookup_singleton_Some _.
    unfold known_type. simpl. intros [?|[?|?]]; discriminate.
Defined.

(** X21.  [stop_machine] writes at most the state of the machine it is
    asked to stop, and that only for its owner or an administrator: every
    machine keeps its name, address, token, owner, template and users, the
    other machines keep their state, and the jobs are as before. *)
Theorem stop_machine_frame (db : Db) (u : User) (machine_id : FormInt)
    (k : Z) (m : Machine) :
  machines db !! k = Some m ->
  data_transfer_jobs (store (stop_machine db u machine_id))
  = data_transfer_jobs db
  /\ exists m',
       machines (store (stop_machine db u machine_id)) !! k = Some m'
       /\ same_but_state m m'
       /\ (state m' = state m
           \/ (machine_id = FieldInt k
               /\ state m' = MachineState.DELETING
               /\ (is_admin u = true \/ owner_id m = Some (user_id u)))).
Proof.
  intros Hm. unfold stop_machine.
  assert (Hsame : same_but_state m m) by by repeat split.
  destruct machine_id as [| |id]; [by split; [|exists m; auto]..|].
  destruct (machines db !! id) as [machine|] eqn:Hid;
    [|by split; [|exists m; auto]].
  destruct (negb (is_admin u) && negb (is_owner u machine)) eqn:Hauth;
    [by split; [|exists m; auto]|].
  assert (data_transfer_jobs
            (commit_machine id (set_state MachineState.DELETING) db)
          = data_transfer_jobs db) as Hjobs by done.
  assert (exists m',
            machines (commit_machine id (set_state MachineState.DELETING) db)
              !! k = Some m'
            /\ same_but_state m m'
            /\ (state m' = state m
                \/ (FieldInt id = FieldInt k
                    /\ state m' = MachineState.DELETING
                    /\ (is_admin u = true \/ owner_id m = Some (user_id u)))))
    as Hrow.
  { rewrite lookup_commit_machine. destruct (decide (id = k)) as [->|Hne].
    - rewrite Hm. simpl. eexists. split; [done|]. split; [by repeat split|].
      right. split; [done|]. split; [done|].
      rewrite Hm in Hid. injection Hid as <-.
      apply andb_false_iff in Hauth as [Ha|Ho].
      + left. by destruct (is_admin u).
      + right. unfold is_owner in Ho. apply negb_false_iff in Ho.
        by apply bool_decide_eq_true in Ho.
    - exists m. auto. }
  by destruct (machine_template_of db machine); cbn [store].
Qed.

Lemma stop_machine_frame_witness :
  data_transfer_jobs (store (stop_machine ex_ready_db ex_admin (FieldInt 1)))
  = data_transfer_jobs ex_ready_db
  /\ exists m',
       machines (store (stop_machine ex_ready_db ex_admin (FieldInt 1))) !! 1
       = Some m'
       /\ same_but_state ex_ready_machine m'
       /\ (state m' = state ex_ready_machine
           \/ (FieldInt 1 = FieldInt 1
               /\ state m' = MachineState.DELETING
               /\ (is_admin ex_admin = true
                   \/ owner_id ex_ready_machine = Some (user_id ex_admin)))).
Proof.
  apply (stop_machine_frame ex_ready_db ex_admin (FieldInt 1) 1
           ex_ready_machine).
  vm_compute. reflexivity.
Defined.

(** ** Start-up clean-up, again *)

(** X22.  Running [clean_up_db] twice is the same as running it once, and
    it leaves a store alone in which no machine is PROVISIONING and no job
    is RUNNING. *)
Theorem clean_up_db_idempotent (db : Db) :
  clean_up_db (clean_up_db db) = clean_up_db db
  /\ ((forall k m, machines db !! k = Some m ->
                   state m <> MachineState.PROVISIONING) ->
      (forall k j, data_transfer_jobs db !! k = Some j ->
                   job_state j <> DataTransferJobState.RUNNING) ->
      clean_up_db db = db).
Proof.
  split.
  - unfold clean_up_db, with_jobs, with_machines. simpl. f_equal.
    + apply map_eq. intros i. rewrite !lookup_fmap.
      destruct (machines db !! i) as [m|]; [|done]. simpl. f_equal.
      unfold clean_up_machine. by repeat case_decide.
    + apply map_eq. intros i. rewrite !lookup_fmap.
      destruct (data_transfer_jobs db !! i) as [j|]; [|done]. simpl. f_equal.
      unfold clean_up_job. by repeat case_decide.
  - intros Hm Hj. destruct db as [ms ts ps ds js].
    unfold clean_up_db, with_jobs, with_machines. simpl in *. f_equal.
    + apply map_eq. intros i. rewrite lookup_fmap.
      destruct (ms !! i) as [m|] eqn:Hi; [|done]. simpl. f_equal.
      unfold clean_up_machine. rewrite decide_False; [done|]. by eapply Hm.
    + apply map_eq. intros i. rewrite lookup_fmap.
      destruct (js !! i) as [j|] eqn:Hi; [|done]. simpl. f_equal.
      unfold clean_up_job. rewrite decide_False; [done|]. by eapply Hj.
Qed.

(** ** Threads that succeed *)

(** The poll returns the first address that is not empty. *)
Lemma docker_wait_for_ip_returns (w : DockerWorld) (a : string) :
  forall (n fuel k : nat),
    (forall i, (i < n)%nat -> container_ip w (k + i)%nat = Some EmptyString) ->
    container_ip w (k + n)%nat = Some a ->
    truthy a = true ->
    (n < fuel)%nat ->
    docker_wait_for_ip fuel w k = Return a.
Proof.
  induction n as [|n IH]; intros fuel k Hempty Ha Hta Hfuel;
    (destruct fuel as [|fuel]; [lia|]); simpl; unfold docker_get_ip.
  - rewrite Nat.add_0_r in Ha. rewrite Ha. simpl. by rewrite Hta.
  - pose proof (Hempty 0%nat) as H0. rewrite Nat.add_0_r in H0.
    rewrite H0 by lia. simpl. apply IH; [|by replace (S k + n)%nat with (k + S n)%nat by lia|done|lia].
    intros i Hi. replace (S k + i)%nat with (k + S i)%nat by lia.
    apply Hempty. lia.
Qed.

(** X23.  When the engine can be reached and runs the container with the
    options of the template, and the container shows an address at its
    n-th poll after n polls without one, the start thread ends, given
    more than n polls: the machine is READY with that address, and no
    other machine is written. *)
Theorem docker_start_container_ready (w : DockerWorld) (fuel : nat) (db : Db)
    (m_id : Z) (m : Machine) (mt : MachineTemplate) (mp : MachineProvider)
    (options : ContainerOptions) (n : nat) (a : string) :
  machines db !! m_id = Some m ->
  machine_template_of db m = Some mt ->
  machine_provider_of db mt = Some mp ->
  DockerClient w (provider_data mp !! "base_url") = true ->
  docker_container_options m mt (provider_data mp !! "network")
  = Return options ->
  containers_run w options = true ->
  (forall i, (i < n)%nat -> container_ip w i = Some EmptyString) ->
  container_ip w n = Some a ->
  a <> EmptyString ->
  (n < fuel)%nat ->
  exists db',
    docker_start_container w fuel db m_id = Some db'
    /\ machines db' !! m_id
       = Some (set_state MachineState.READY (set_ip a m))
    /\ (forall k, k <> m_id -> machines db' !! k = machines db !! k).
Proof.
  intros Hm Hmt Hmp Hclient Hopts Hrun Hempty Ha Hne Hfuel.
  unfold docker_start_container. rewrite Hm. simpl. rewrite Hmt. simpl.
  rewrite Hmp. simpl. rewrite Hclient. simpl. rewrite Hopts. simpl.
  rewrite Hrun. simpl.
  rewrite (docker_wait_for_ip_returns w a n fuel 0); [|done..| |done].
  2:{ by destruct a. }
  simpl. eexists. split; [reflexivity|].
  split; [by rewrite lookup_commit_machine_eq, Hm|].
  intros k Hk. rewrite lookup_commit_machine. by rewrite decide_False.
Qed.

Lemma docker_start_container_ready_witness :
  exists db',
    docker_start_container ex_docker_world 2 (sys_store ex_created) 1 = Some db'
    /\ machines db' !! 1
       = Some (set_state MachineState.READY
                 (set_ip "172.18.0.2" ex_created_machine))
    /\ (forall k, k <> 1 ->
          machines db' !! k = machines (sys_store ex_created) !! k).
Proof.
  apply (docker_start_container_ready ex_docker_world 2 (sys_store ex_created)
           1 ex_created_machine ex_docker_template ex_docker_provider
           ex_options 1 "172.18.0.2").
  - vm_compute. reflexivity.
  - vm_compute. reflexivity.
  - vm_compute. reflexivity.
  - reflexivity.
  - vm_compute. reflexivity.
  - vm_compute. reflexivity.
  - intros i Hi. by replace i with 0%nat by lia.
  - reflexivity.
  - discriminate.
  - lia.
Defined.

(** X24.  The address that [libvirt_get_vm_ip] returns is the address of an
    entry of type IPv4 of one of the interfaces, never one of another type;
    and it returns [None] only when no interface has an entry of type
    IPv4. *)
Theorem libvirt_get_vm_ip_ipv4 (ifs : list (option (list (Z * string)))) :
  (forall a,
      libvirt_get_vm_ip (Interfaces ifs) = Return (Some a) ->
      exists addrs,
        Some addrs ∈ ifs /\ (VIR_IP_ADDR_TYPE_IPV4, a) ∈ addrs)
  /\ (libvirt_get_vm_ip (Interfaces ifs) = Return None ->
      forall addrs a,
        Some addrs ∈ ifs -> (VIR_IP_ADDR_TYPE_IPV4, a) ∉ addrs).
Proof.
  simpl. induction ifs as [|[addrs|] ifs [IH1 IH2]]; simpl.
  - split; [done|]. intros _ addrs a Hin. by apply elem_of_nil in Hin.
  - destruct (List.find _ addrs) as [[t b]|] eqn:Hfind.
    + split; [|done]. intros a [= <-].
      apply find_some in Hfind as [Hin Ht]. simpl in Ht.
      apply Z.eqb_eq in Ht as ->.
      exists addrs. split; [by left|]. by apply list_elem_of_In.
    + split.
      * intros a Ha. destruct (IH1 a Ha) as (addrs' & Hin & Hin').
        exists addrs'. split; [by right|done].
      * intros Hnone addrs' a [Heq|Hin]%elem_of_cons.
        -- injection Heq as ->. intros Hin%list_elem_of_In.
           pose proof (find_none _ _ Hfind _ Hin) as Hf. by simpl in Hf.
        -- by apply IH2.
  - split; done.
Qed.

(** ** The start thread of the cloud backend *)

(** What the thread writes, case by case. *)
Lemma openstack_start_vm_writes (w : OpenstackWorld) (fuel : nat)
    (db db' : Db) (m_id : Z) :
  openstack_start_vm w fuel db m_id = Some db' ->
  db' = db
  \/ (exists a h,
        db' = commit_machine m_id
                (fun m => set_state MachineState.READY
                            (set_hostname h (set_ip a m))) db)
  \/ (exists a,
        db' = commit_machine m_id
                (fun m => set_state MachineState.FAILED (set_ip a m)) db)
  \/ db' = commit_machine m_id (set_state MachineState.FAILED) db.
Proof.
  unfold openstack_start_vm, thread, try_except.
  intros H.
  destruct (openstack_provision w fuel db (machines db !! m_id))
    as [[a|]| |]; simpl in H; simplify_eq.
  - right. unfold get_hostname in H.
    destruct (gethostbyaddr w a) as [h|]; simpl in H; simplify_eq.
    + left. by exists a, h.
    + right; left. by exists a.
  - by left.
  - destruct (machines db !! m_id); simpl in H; simplify_eq; [|by left].
    by right; right; right.
Qed.

(** X26.  The start thread of a cloud machine always ends, given fuel for
    the longest of its three bounded polls: it leaves the store as it is,
    or it commits READY or FAILED to its machine. *)
Theorem openstack_start_vm_terminates (w : OpenstackWorld) (fuel : nat)
    (db : Db) (m_id : Z) :
  (242 <= fuel)%nat ->
  exists db',
    openstack_start_vm w fuel db m_id = Some db'
    /\ (db' = db
        \/ exists f,
             db' = commit_machine m_id f db
             /\ forall m, name (f m) = name m
                          /\ owner_id (f m) = owner_id m
                          /\ machine_template_id (f m) = machine_template_id m
                          /\ (state (f m) = MachineState.READY
                              \/ state (f m) = MachineState.FAILED)).
Proof.
  intros Hfuel.
  destruct (openstack_start_vm_ends w fuel db m_id Hfuel) as [db' Hdb'].
  exists db'. split; [done|].
  apply openstack_start_vm_writes in Hdb'
    as [-> | [(a & h & ->) | [(a & ->) | ->]]]; [by left|right..];
    eexists; (split; [reflexivity|]); intros m; simpl; auto.
Qed.

Lemma openstack_start_vm_terminates_witness :
  exists db',
    openstack_start_vm ex_openstack_no_address 242
      (sys_store ex_openstack_created) 1 = Some db'
    /\ (db' = sys_store ex_openstack_created
        \/ exists f,
             db' = commit_machine 1 f (sys_store ex_openstack_created)
             /\ forall m, name (f m) = name m
                          /\ owner_id (f m) = owner_id m
                          /\ machine_template_id (f m) = machine_template_id m
                          /\ (state (f m) = MachineState.READY
                              \/ state (f m) = MachineState.FAILED)).
Proof.
  apply (openstack_start_vm_terminates ex_openstack_no_address 242
           (sys_store ex_openstack_created) 1).
  lia.
Defined.

(** X27.  When the network, the flavor or the image of the template is not
    found, the start thread of a cloud machine returns without a commit:
    the machine is not set to FAILED, it stays as it was. *)
Theorem openstack_start_vm_not_found (w : OpenstackWorld) (fuel : nat)
    (db : Db) (m_id : Z) (m : Machine) (mt : MachineTemplate)
    (mp : MachineProvider) :
  machines db !! m_id = Some m ->
  machine_template_of db m = Some mt ->
  machine_provider_of db mt = Some mp ->
  is_Some (extra_data mt) ->
  openstack_connection w = true ->
  get_network w = Returns false
  \/ (get_network w = Returns true /\ find_flavor w = Returns false)
  \/ (get_network w = Returns true /\ find_flavor w = Returns true
      /\ cinder_client w = true /\ find_image w = Returns false) ->
  openstack_start_vm w fuel db m_id = Some db.
Proof.
  intros Hm Hmt Hmp [x Hx] Hconn Hcase.
  unfold openstack_start_vm, openstack_provision.
  rewrite Hm. simpl. rewrite Hmt. simpl. rewrite Hmp. simpl.
  rewrite Hx. simpl. rewrite Hconn. simpl.
  destruct Hcase as [-> | [[-> ->] | (-> & -> & -> & ->)]]; reflexivity.
Qed.

Lemma openstack_start_vm_not_found_witness :
  openstack_start_vm ex_openstack_no_flavor 1 (sys_store ex_openstack_created) 1
  = Some (sys_store ex_openstack_created).
Proof.
  apply (openstack_start_vm_not_found ex_openstack_no_flavor 1
           (sys_store ex_openstack_created) 1 ex_openstack_machine
           ex_openstack_template ex_openstack_provider).
  - vm_compute. reflexivity.
  - vm_compute. reflexivity.
  - vm_compute. reflexivity.
  - by eexists.
  - reflexivity.
  - right. left. by split.
Defined.

(** X28.  When the server has got its address, the outcome hangs on the
    reverse lookup of the host name: with a host name the machine is READY
    with the address and the name; when the lookup fails, [get_hostname]
    raises from its handler, and the machine is FAILED, with the address
    in its row. *)
Theorem openstack_start_vm_hostname (w : OpenstackWorld) (fuel : nat)
    (db : Db) (m_id : Z) (m : Machine) (a : string) :
  machines db !! m_id = Some m ->
  openstack_provision w fuel db (Some m) = Return (Some a) ->
  exists db',
    openstack_start_vm w fuel db m_id = Some db'
    /\ machines db' !! m_id
       = Some (match gethostbyaddr w a with
               | Some h => set_state MachineState.READY
                             (set_hostname h (set_ip a m))
               | None => set_state MachineState.FAILED (set_ip a m)
               end).
Proof.
  intros Hm Hprov. unfold openstack_start_vm. rewrite Hm, Hprov.
  unfold get_hostname.
  destruct (gethostbyaddr w a) as [h|]; simpl; eexists;
    (split; [reflexivity|]); by rewrite lookup_commit_machine_eq, Hm.
Qed.

Lemma openstack_start_vm_hostname_witness :
  exists db',
    openstack_start_vm ex_openstack_no_dns 1 (sys_store ex_openstack_created) 1
    = Some db'
    /\ machines db' !! 1
       = Some (match gethostbyaddr ex_openstack_no_dns "10.0.0.5" with
               | Some h => set_state MachineState.READY
                             (set_hostname h
                                (set_ip "10.0.0.5" ex_openstack_machine))
               | None => set_state MachineState.FAILED
                           (set_ip "10.0.0.5" ex_openstack_machine)
               end).
Proof.
  apply (openstack_start_vm_hostname ex_openstack_no_dns 1
           (sys_store ex_openstack_created) 1 ex_openstack_machine "10.0.0.5");
    vm_compute; reflexivity.
Defined.

Lemma libvirt_wait_for_vm_loop_returns (w : LibvirtWorld) :
  forall (j fuel k : nat),
    (forall i, (i < j)%nat -> domain_running w (k + i)%nat = Returns false) ->
    domain_running w (k + j)%nat = Returns true ->
    (j < fuel)%nat ->
    libvirt_wait_for_vm_loop fuel w k = Return tt.
Proof.
  induction j as [|j IH]; intros fuel k Hnot Hrun Hfuel;
    (destruct fuel as [|fuel]; [lia|]); simpl.
  - rewrite Nat.add_0_r in Hrun. by rewrite Hrun.
  - pose proof (Hnot 0%nat) as H0. rewrite Nat.add_0_r in H0.
    rewrite H0 by lia. simpl. apply IH; [| |lia].
    + intros i Hi. replace (S k + i)%nat with (k + S i)%nat by lia.
      apply Hnot. lia.
    + by replace (S k + j)%nat with (k + S j)%nat by lia.
Qed.

Lemma libvirt_wait_for_ip_returns (w : LibvirtWorld) (a : string) :
  forall (n fuel k : nat),
    (forall i, (i < n)%nat -> no_address (address_query w (k + i)%nat)) ->
    libvirt_get_vm_ip (address_query w (k + n)%nat) = Return (Some a) ->
    truthy a = true ->
    (n < fuel)%nat ->
    libvirt_wait_for_ip fuel w k = Return a.
Proof.
  induction n as [|n IH]; intros fuel k Hno Ha Hta Hfuel;
    (destruct fuel as [|fuel]; [lia|]); simpl.
  - rewrite Nat.add_0_r in Ha. rewrite Ha. simpl. by rewrite Hta.
  - pose proof (Hno 0%nat) as H0. rewrite Nat.add_0_r in H0.
    assert (libvirt_wait_for_ip fuel w (S k) = Return a) as Hrec.
    { apply IH; [| |done|lia].
      - intros i Hi. replace (S k + i)%nat with (k + S i)%nat by lia.
        apply Hno. lia.
      - by replace (S k + n)%nat with (k + S n)%nat by lia. }
    destruct H0 as [-> | ->]; [lia|..]; simpl; exact Hrec.
Qed.

(** X25.  When the commands on the host and the connection succeed, the
    domain is running at some poll of its state, and an IPv4 lease shows up
    at some poll of its addresses, the start thread of a libvirt machine
    ends, given more polls than those: the machine is READY with the
    address of the lease, and no other machine is written. *)
Theorem libvirt_start_vm_ready (w : LibvirtWorld) (fuel : nat) (db : Db)
    (m_id : Z) (m : Machine) (mt : MachineTemplate) (mp : MachineProvider)
    (url : string) (gb : Z) (j n : nat) (a : string) :
  machines db !! m_id = Some m ->
  machine_template_of db m = Some mt ->
  machine_provider_of db mt = Some mp ->
  provider_data mp !! "base_url" = Some url ->
  memory_limit_gb mt = Some gb ->
  (forall argv, subprocess_run w argv = true) ->
  libvirt_open w (Some url) = true ->
  lookupByName w = true ->
  (forall i, (i < j)%nat -> domain_running w i = Returns false) ->
  domain_running w j = Returns true ->
  (forall i, (i < n)%nat -> no_address (address_query w i)) ->
  libvirt_get_vm_ip (address_query w n) = Return (Some a) ->
  a <> EmptyString ->
  (j < fuel)%nat -> (n < fuel)%nat ->
  exists db',
    libvirt_start_vm w fuel db m_id = Some db'
    /\ machines db' !! m_id
       = Some (set_state MachineState.READY (set_ip a m))
    /\ (forall k, k <> m_id -> machines db' !! k = machines db !! k).
Proof.
  intros Hm Hmt Hmp Hurl Hgb Hrun Hopen Hlook Hnot Hj Hno Hn Hne Hfj Hfn.
  unfold libvirt_start_vm. rewrite Hm. simpl. rewrite Hmt. simpl.
  rewrite Hmp. simpl. rewrite Hgb, Hurl. simpl.
  unfold run. simpl. rewrite !Hrun. simpl. rewrite Hopen. simpl.
  unfold libvirt_wait_for_vm. rewrite Hlook.
  rewrite (libvirt_wait_for_vm_loop_returns w j fuel 0) by done. simpl.
  rewrite (libvirt_wait_for_ip_returns w a n fuel 0); [|done..| |done].
  2:{ by destruct a. }
  simpl. eexists. split; [reflexivity|].
  split; [by rewrite lookup_commit_machine_eq, Hm|].
  intros k Hk. rewrite lookup_commit_machine. by rewrite decide_False.
Qed.

Lemma libvirt_start_vm_ready_witness :
  exists db',
    libvirt_start_vm ex_libvirt_lease 3 (sys_store ex_libvirt_created) 1
    = Some db'
    /\ machines db' !! 1
       = Some (set_state MachineState.READY
                 (set_ip "192.168.122.50" ex_libvirt_machine))
    /\ (forall k, k <> 1 ->
          machines db' !! k = machines (sys_store ex_libvirt_created) !! k).
Proof.
  apply (libvirt_start_vm_ready ex_libvirt_lease 3
           (sys_store ex_libvirt_created) 1 ex_libvirt_machine
           ex_libvirt_template ex_libvirt_provider "qemu:///system" 16 1 2
           "192.168.122.50").
  - vm_compute. reflexivity.
  - vm_compute. reflexivity.
  - vm_compute. reflexivity.
  - vm_compute. reflexivity.
  - reflexivity.
  - reflexivity.
  - reflexivity.
  - reflexivity.
  - intros i Hi. by replace i with 0%nat by lia.
  - reflexivity.
  - intros i Hi. left.
    destruct i as [|[|i]]; [reflexivity..|lia].
  - reflexivity.
  - discriminate.
  - lia.
  - lia.
Defined.

(** ** The rows of the machines over time *)

Lemma commit_machine_keeps (db : Db) (m_id k : Z) (f : Machine -> Machine)
    (m : Machine) :
  machines db !! k = Some m ->
  (forall m0, owner_id (f m0) = owner_id m0
              /\ machine_template_id (f m0) = machine_template_id m0
              /\ (state (f m0) = MachineState.PROVISIONING ->
                  state m0 = MachineState.PROVISIONING /\ ip (f m0) = ip m0)) ->
  exists m',
    machines (commit_machine m_id f db) !! k = Some m'
    /\ owner_id m' = owner_id m
    /\ machine_template_id m' = machine_template_id m
    /\ (state m' = MachineState.PROVISIONING ->
        state m = MachineState.PROVISIONING /\ ip m' = ip m).
Proof.
  intros Hm Hf. rewrite lookup_commit_machine, Hm.
  destruct (decide (m_id = k)); simpl.
  - exists (f m). split; [done|]. apply Hf.
  - exists m. by repeat split.
Qed.

(** X29.  No step of the application removes a machine, changes its owner
    or its template, or takes it back to PROVISIONING: a machine that is
    PROVISIONING after a step was PROVISIONING before it, with the same
    address. *)
Theorem step_keeps_rows (s s' : System) (k : Z) (m : Machine) :
  step s s' ->
  machines (sys_store s) !! k = Some m ->
  exists m',
    machines (sys_store s') !! k = Some m'
    /\ owner_id m' = owner_id m
    /\ machine_template_id m' = machine_template_id m
    /\ (state m' = MachineState.PROVISIONING ->
        state m = MachineState.PROVISIONING /\ ip m' = ip m).
Proof.
  intros Hstep Hm.
  assert (Hsame : exists m',
            machines (sys_store s) !! k = Some m'
            /\ owner_id m' = owner_id m
            /\ machine_template_id m' = machine_template_id m
            /\ (state m' = MachineState.PROVISIONING ->
                state m = MachineState.PROVISIONING /\ ip m' = ip m))
    by (exists m; by repeat split).
  destruct Hstep as
    [s u template_name now tok | s u machine_id | s u csrf_ok ds m0 now
    | s u job_id
    | s m_id n tok su | s w fuel t before after db' Henv Hrun Hres | s];
    unfold after_request; cbn [sys_store].
  - destruct (new_machine_cases (sys_store s) u template_name now tok)
      as [[-> _] | (mt_id & mt & m1 & _ & -> & _)]; [done|].
    exists m. split; [|by repeat split]. simpl.
    rewrite lookup_insert_ne; [done|].
    intros <-. by rewrite next_id_fresh in Hm.
  - destruct (stop_machine_cases (sys_store s) u machine_id)
      as [[-> _] | (m_id & type & -> & _)]; [done|].
    apply commit_machine_keeps; [done|]. intros m0. by repeat split.
  - destruct (data_post_cases (sys_store s) u csrf_ok ds m0 now)
      as [[-> _] | (js & job_id & -> & _)]; done.
  - destruct (dismiss_cases (sys_store s) u job_id) as [_ [-> | [js ->]]]; done.
  - apply commit_machine_keeps; [done|]. intros m0. by repeat split.
  - destruct t as [m_id|m_id|m_id|m_id|m_id|m_id|job_id]; simpl in Hres.
    + apply docker_start_container_cases in Hres
        as [-> | [(a & Ha & ->) | ->]]; [done|..];
        (apply commit_machine_keeps; [done|]); intros m0; by repeat split.
    + apply libvirt_start_vm_cases in Hres as [-> | [(a & Ha & ->) | ->]];
        [done|..];
        (apply commit_machine_keeps; [done|]); intros m0; by repeat split.
    + apply openstack_start_vm_writes in Hres
        as [-> | [(a & h & ->) | [(a & ->) | ->]]]; [done|..];
        (apply commit_machine_keeps; [done|]); intros m0; by repeat split.
    + apply docker_stop_container_cases in Hres as [-> | ->]; [done|].
      apply commit_machine_keeps; [done|]. intros m0. by repeat split.
    + apply libvirt_stop_vm_cases in Hres as [-> | ->]; [done|].
      apply commit_machine_keeps; [done|]. intros m0. by repeat split.
    + apply openstack_stop_vm_cases in Hres as [-> | [-> | ->]]; [done|..];
        (apply commit_machine_keeps; [done|]); intros m0; by repeat split.
    + apply start_data_transfer_cases in Hres as [-> | [js ->]]; done.
  - rewrite lookup_clean_up_machines, Hm. simpl. unfold clean_up_machine.
    case_decide; [exists (set_state MachineState.FAILED m)|exists m];
      by repeat split.
Qed.

Lemma step_keeps_rows_witness :
  exists m',
    machines (sys_store ex_stopped_early) !! 1 = Some m'
    /\ owner_id m' = owner_id ex_created_machine
    /\ machine_template_id m' = machine_template_id ex_created_machine
    /\ (state m' = MachineState.PROVISIONING ->
        state ex_created_machine = MachineState.PROVISIONING
        /\ ip m' = ip ex_created_machine).
Proof.
  apply (step_keeps_rows ex_created ex_stopped_early 1 ex_created_machine).
  - apply step_stop_machine.
  - vm_compute. reflexivity.
Defined.

(** ** Logging in *)

(** X30.  [login] logs a user in only when the request is a valid form of a
    visitor who is not logged in, the account with the user name is
    enabled, it has no id of an external provider, and the password checks
    against its hash: an account that is not enabled, or that belongs to an
    external provider, is never logged in with a password. *)
Theorem login_only_enabled (accounts : gmap Z Account)
    (check_password_hash : string -> string -> bool)
    (gettext_danger : string -> Answer string) (is_authenticated : bool)
    (post : option (bool * string * string)) (k : Z) :
  login accounts check_password_hash gettext_danger is_authenticated post
  = logged_in k ->
  is_authenticated = false
  /\ exists username password user h,
       post = Some (true, username, password)
       /\ accounts !! k = Some user
       /\ acc_username user = username
       /\ acc_is_enabled user = true
       /\ truthy_opt (provider_id user) = false
       /\ password_hash user = Some h
       /\ check_password_hash h password = true.
Proof.
  unfold login. destruct is_authenticated; [done|].
  destruct post as [[[valid username] password]|]; [|done].
  destruct valid; [|done].
  destruct (first_by _ accounts) as [[k' user]|] eqn:Hfirst; [|done].
  apply first_by_Some in Hfirst as [Hk Hname]. apply String.eqb_eq in Hname.
  destruct (truthy_opt (provider_id user)) eqn:Hpid; [by case_bool_decide|].
  destruct (bool_decide _ && _); [by destruct (gettext_danger _)|].
  unfold check_password. destruct (password_hash user) as [h|] eqn:Hh; [|done].
  destruct (check_password_hash h password) eqn:Hcheck; [|done].
  destruct (acc_is_enabled user) eqn:Hen; [|done]. simpl.
  intros [= <-]. split; [done|].
  by exists username, password, user, h.
Qed.

Lemma login_only_enabled_witness :
  false = false
  /\ exists username password user h,
       Some (true, "admin", "correct horse") = Some (true, username, password)
       /\ ex_accounts !! 1 = Some user
       /\ acc_username user = username
       /\ acc_is_enabled user = true
       /\ truthy_opt (provider_id user) = false
       /\ password_hash user = Some h
       /\ ex_check_password_hash h password = true.
Proof.
  apply (login_only_enabled ex_accounts ex_check_password_hash
           (fun _ => Raises TypeError) false
           (Some (true, "admin", "correct horse")) 1).
  vm_compute. reflexivity.
Defined.
